(** * Windows platform window: state machine, geometry and creation data

    A shallow embedding of the parts of
    [src/plugins/platforms/windows/qwindowswindow.cpp] that decide the
    window-state, frame-margin, geometry-hint and window-creation properties
    of the specification.

    Conventions.
    - The desktop build is modelled: [Q_OS_WINCE] and [Q_FLATTEN_EXPOSE] are
      both undefined.
    - [DWORD], [UINT], [unsigned] and [Qt::WindowFlags] values are [Z]; bit
      operations are [Z.land], [Z.lor], [Z.lnot]; a conversion to a 32-bit
      unsigned is written [u32].
    - [int] coordinates are [Z]; signed overflow is undefined behaviour in
      C++ and is outside the model.
    - The windowing host (user32 and the toolkit core) is not part of the
      sources.  It is the type class [Host]: an opaque desktop state, the
      queries the code makes, and the effect of each native call on the
      desktop.  Every function of the program is an [Op]: it threads the
      desktop and the window object and returns the chronological list of
      native calls, toolkit events and warnings it issued.  The native
      calls listed are those that act on a window (SetWindowPos, ShowWindow,
      SetWindowLongPtr, ...); queries (GetWindowLongPtr, IsWindowVisible,
      GetWindowPlacement, ...) only read the desktop and are not listed.
    - Window messages that the host sends back while a native call is running
      are dispatched by [QWindowsContext], which is not among the sources;
      the handlers ([handleGeometryChange], ...) are separate entry points.
    - [qCDebug] category traces are not modelled; [qWarning] is. *)

From Stdlib Require Import ZArith List Bool String Lia.
Import ListNotations.
Open Scope Z_scope.

(** ** Constants of the toolkit and of the windowing host *)

Module Qt.
(* Qt::WindowType *)
Definition Widget : Z := 0x0.
Definition Window : Z := 0x1.
Definition Dialog : Z := 0x3.
Definition Sheet : Z := 0x5.
Definition Drawer : Z := 0x7.
Definition Popup : Z := 0x9.
Definition Tool : Z := 0xb.
Definition ToolTip : Z := 0xd.
Definition SplashScreen : Z := 0xf.
Definition Desktop : Z := 0x11.
Definition WindowType_Mask : Z := 0xff.
(* Qt::WindowFlags hints *)
Definition MSWindowsFixedSizeDialogHint : Z := 0x100.
Definition FramelessWindowHint : Z := 0x800.
Definition WindowTitleHint : Z := 0x1000.
Definition WindowSystemMenuHint : Z := 0x2000.
Definition WindowMinimizeButtonHint : Z := 0x4000.
Definition WindowMaximizeButtonHint : Z := 0x8000.
Definition WindowMinMaxButtonsHint : Z := 0xc000.
Definition WindowContextHelpButtonHint : Z := 0x10000.
Definition WindowStaysOnTopHint : Z := 0x40000.
Definition WindowTransparentForInput : Z := 0x80000.
Definition CustomizeWindowHint : Z := 0x2000000.
Definition WindowStaysOnBottomHint : Z := 0x4000000.
Definition WindowCloseButtonHint : Z := 0x8000000.
Definition WindowFullscreenButtonHint : Z := 0x80000000.

(* Qt::WindowState *)
Inductive WindowState : Type :=
| WindowNoState | WindowMinimized | WindowMaximized | WindowFullScreen
| WindowActive.

Definition WindowState_value (s : WindowState) : Z :=
  match s with
  | WindowNoState => 0x0 | WindowMinimized => 0x1 | WindowMaximized => 0x2
  | WindowFullScreen => 0x4 | WindowActive => 0x8
  end.

Definition WindowState_eqb (a b : WindowState) : bool :=
  WindowState_value a =? WindowState_value b.
End Qt.

Module Win32.
(* window styles *)
Definition WS_OVERLAPPED : Z := 0x0.
Definition WS_POPUP : Z := 0x80000000.
Definition WS_CHILD : Z := 0x40000000.
Definition WS_VISIBLE : Z := 0x10000000.
Definition WS_DISABLED : Z := 0x8000000.
Definition WS_CLIPSIBLINGS : Z := 0x4000000.
Definition WS_CLIPCHILDREN : Z := 0x2000000.
Definition WS_CAPTION : Z := 0xc00000.
Definition WS_BORDER : Z := 0x800000.
Definition WS_DLGFRAME : Z := 0x400000.
Definition WS_SYSMENU : Z := 0x80000.
Definition WS_THICKFRAME : Z := 0x40000.
Definition WS_MINIMIZEBOX : Z := 0x20000.
Definition WS_MAXIMIZEBOX : Z := 0x10000.
(* extended window styles *)
Definition WS_EX_DLGMODALFRAME : Z := 0x1.
Definition WS_EX_TRANSPARENT : Z := 0x20.
Definition WS_EX_TOOLWINDOW : Z := 0x80.
Definition WS_EX_CONTEXTHELP : Z := 0x400.
Definition WS_EX_LAYERED : Z := 0x80000.
(* GetWindowLongPtr indices *)
Definition GWL_STYLE : Z := -16.
Definition GWL_EXSTYLE : Z := -20.
Definition GWL_HWNDPARENT : Z := -8.
(* show commands *)
Definition SW_HIDE : Z := 0.
Definition SW_SHOWNORMAL : Z := 1.
Definition SW_SHOWMINIMIZED : Z := 2.
Definition SW_SHOWMAXIMIZED : Z := 3.
Definition SW_MAXIMIZE : Z := 3.
Definition SW_SHOWNOACTIVATE : Z := 4.
Definition SW_MINIMIZE : Z := 6.
Definition SW_SHOWMINNOACTIVE : Z := 7.
Definition SW_SHOWNA : Z := 8.
Definition SW_FORCEMINIMIZE : Z := 11.
(* SetWindowPos *)
Definition SWP_NOSIZE : Z := 0x1.
Definition SWP_NOMOVE : Z := 0x2.
Definition SWP_NOZORDER : Z := 0x4.
Definition SWP_NOACTIVATE : Z := 0x10.
Definition SWP_FRAMECHANGED : Z := 0x20.
Definition SWP_HIDEWINDOW : Z := 0x80.
Definition SWP_NOOWNERZORDER : Z := 0x200.
Definition HWND_TOP : Z := 0.
Definition HWND_BOTTOM : Z := 1.
Definition HWND_TOPMOST : Z := -1.
Definition HWND_NOTOPMOST : Z := -2.
(* system menu, messages, ancestors *)
Definition SC_CLOSE : Z := 0xf060.
Definition MF_BYCOMMAND : Z := 0x0.
Definition MF_ENABLED : Z := 0x0.
Definition MF_GRAYED : Z := 0x1.
Definition GA_PARENT : Z := 1.
Definition GA_ROOTOWNER : Z := 3.
Definition LWA_ALPHA : Z := 0x2.
Definition ULW_ALPHA : Z := 0x2.
Definition SM_CXICON : Z := 11.
Definition SM_CYICON : Z := 12.
End Win32.
Import Win32.

Definition u32 (z : Z) : Z := z mod 2 ^ 32.

(** [(a & b) != 0], the truth value of a masked word. *)
Definition has (word mask : Z) : bool := negb (Z.land word mask =? 0).

Definition HWND : Type := Z.
Definition HICON : Type := Z.

(** ** Geometry value types (QPoint, QSize, QRect, QMargins, RECT) *)

Record QPoint : Type := mkQPoint { px : Z; py : Z }.
Record QSize : Type := mkQSize { sw : Z; sh : Z }.
Record QMargins : Type :=
  mkQMargins { m_left : Z; m_top : Z; m_right : Z; m_bottom : Z }.
Record RECT : Type :=
  mkRECT { r_left : Z; r_top : Z; r_right : Z; r_bottom : Z }.

(** A QRect stores its two corners; the default-constructed rectangle is
    (0,0,-1,-1), which is not valid. *)
Record QRect : Type := mkQRect { x1 : Z; y1 : Z; x2 : Z; y2 : Z }.

Module Rect.
Definition null : QRect := mkQRect 0 0 (-1) (-1).
Definition make (x y w h : Z) : QRect := mkQRect x y (x + w - 1) (y + h - 1).
Definition ofPointSize (p : QPoint) (s : QSize) : QRect :=
  mkQRect (px p) (py p) (px p + sw s - 1) (py p + sh s - 1).
Definition left (r : QRect) : Z := x1 r.
Definition top (r : QRect) : Z := y1 r.
Definition x (r : QRect) : Z := x1 r.
Definition y (r : QRect) : Z := y1 r.
Definition width (r : QRect) : Z := x2 r - x1 r + 1.
Definition height (r : QRect) : Z := y2 r - y1 r + 1.
Definition size (r : QRect) : QSize := mkQSize (width r) (height r).
Definition topLeft (r : QRect) : QPoint := mkQPoint (x1 r) (y1 r).
Definition isValid (r : QRect) : bool := (x1 r <=? x2 r) && (y1 r <=? y2 r).
Definition isEmpty (r : QRect) : bool := (x2 r <? x1 r) || (y2 r <? y1 r).
Definition translated (r : QRect) (p : QPoint) : QRect :=
  mkQRect (x1 r + px p) (y1 r + py p) (x2 r + px p) (y2 r + py p).
Definition marginsRemoved (r : QRect) (m : QMargins) : QRect :=
  mkQRect (x1 r + m_left m) (y1 r + m_top m)
          (x2 r - m_right m) (y2 r - m_bottom m).
Definition marginsAdded (r : QRect) (m : QMargins) : QRect :=
  mkQRect (x1 r - m_left m) (y1 r - m_top m)
          (x2 r + m_right m) (y2 r + m_bottom m).
Definition moveTopLeft (r : QRect) (p : QPoint) : QRect :=
  mkQRect (px p) (py p) (x2 r + (px p - x1 r)) (y2 r + (py p - y1 r)).
Definition eqb (a b : QRect) : bool :=
  (x1 a =? x1 b) && (y1 a =? y1 b) && (x2 a =? x2 b) && (y2 a =? y2 b).
End Rect.

Definition QSize_eqb (a b : QSize) : bool := (sw a =? sw b) && (sh a =? sh b).
Definition QPoint_eqb (a b : QPoint) : bool := (px a =? px b) && (py a =? py b).
Definition QPoint_sub (a b : QPoint) : QPoint := mkQPoint (px a - px b) (py a - py b).

Definition QMargins_zero : QMargins := mkQMargins 0 0 0 0.
Definition QMargins_add (a b : QMargins) : QMargins :=
  mkQMargins (m_left a + m_left b) (m_top a + m_top b)
             (m_right a + m_right b) (m_bottom a + m_bottom b).
Definition QMargins_isNull (a : QMargins) : bool :=
  (m_left a =? 0) && (m_top a =? 0) && (m_right a =? 0) && (m_bottom a =? 0).

(** A QRegion is the list of its rectangles; QRegion(QRect) of an empty
    rectangle is the empty region. *)
Definition QRegion : Type := list QRect.
Definition QRegion_ofRect (r : QRect) : QRegion :=
  if Rect.isEmpty r then [] else [r].
Definition QRegion_isEmpty (r : QRegion) : bool :=
  match r with [] => true | _ => false end.

Definition qSizeOfRect (rect : RECT) : QSize :=
  mkQSize (r_right rect - r_left rect) (r_bottom rect - r_top rect).

Definition qrectFromRECT (rect : RECT) : QRect :=
  Rect.ofPointSize (mkQPoint (r_left rect) (r_top rect)) (qSizeOfRect rect).

Definition RECTfromQRect (rect : QRect) : RECT :=
  let x := Rect.left rect in
  let y := Rect.top rect in
  mkRECT x y (x + Rect.width rect) (y + Rect.height rect).

Record WINDOWPLACEMENT : Type :=
  mkWINDOWPLACEMENT { showCmd : Z; rcNormalPosition : RECT }.

(** ** The toolkit window (QWindow) as the platform plugin reads it *)

Inductive SurfaceType : Type := RasterSurface | OpenGLSurface | RasterGLSurface.

(** Another toolkit window the code looks at through a pointer: whether it
    has a platform window, that window's WithinDestroy flag and handle. *)
Record Peer : Type :=
  mkPeer { peer_platform : bool; peer_withinDestroy : bool; peer_handle : HWND }.

Record QScreen : Type :=
  mkQScreen { screen_id : Z; screen_geometry : QRect;
              screen_availableGeometry : QRect }.

Record QWindow : Type := mkQWindow {
  w_ptr : Z;                              (* identity of the object *)
  w_flags : Z;                            (* flags() *)
  w_windowState : Qt.WindowState;         (* windowState() *)
  w_isTopLevel : bool;                    (* isTopLevel() *)
  w_parent : option Peer;                 (* parent() *)
  w_transientParent : option Peer;        (* transientParent() *)
  w_screen : option QScreen;              (* screen() *)
  w_width : Z;
  w_height : Z;
  w_minimumSize : QSize;
  w_maximumSize : QSize;
  w_showWithoutActivating : option bool;  (* property _q_showWithoutActivating *)
  w_embeddedNativeParent : option HWND;   (* _q_embedded_native_parent_handle *)
  w_surfaceType : SurfaceType;
  w_compositing : bool;
  w_hasAlpha : bool;                      (* format().hasAlpha() *)
  w_positionIncludesFrame : bool          (* positionPolicy == WindowFrameInclusive *)
}.

(** QWindow::type() *)
Definition w_type (w : QWindow) : Z := Z.land (w_flags w) Qt.WindowType_Mask.

Definition QWINDOWSIZE_MAX : Z := 2 ^ 24 - 1.

(** ** Native calls, toolkit events and the trace of an operation *)

Inductive NativeCall : Type :=
| SetWindowLongPtr (hwnd : HWND) (nIndex value : Z)
| SetWindowLong (hwnd : HWND) (nIndex value : Z)
| SetWindowPos (hwnd : HWND) (insertAfter x y cx cy flags : Z)
| ShowWindow (hwnd : HWND) (nCmdShow : Z)
| MoveWindow (hwnd : HWND) (x y w h : Z) (repaint : bool)
| SetWindowPlacement (hwnd : HWND) (wp : WINDOWPLACEMENT)
| SetCapture (hwnd : HWND)
| ReleaseCapture
| SetForegroundWindow (hwnd : HWND)
| SendMessage (hwnd : HWND) (msg wParam lParam : Z)
| EnableMenuItem (menu item flags : Z)
| InvalidateRect (hwnd : HWND)
| SetLayeredWindowAttributes (hwnd : HWND) (key alpha flags : Z)
| UpdateLayeredWindow (hwnd : HWND) (alpha flags : Z)
| DwmEnableBlurBehindWindow (hwnd : HWND)
| DestroyIcon (icon : HICON).

(** QWindowSystemInterface notifications. *)
Inductive QtEvent : Type :=
| handleExposeEvent (window : Z) (region : QRegion)
| handleGeometryChangeEvent (window : Z) (r : QRect)
| handleWindowStateChanged (window : Z) (s : Qt.WindowState)
| handleWindowScreenChanged (window : Z) (screen : Z)
| flushWindowSystemEvents.

Inductive Effect : Type :=
| Native (c : NativeCall)
| Event (e : QtEvent)
| Warning (msg : string).

Definition isNative (e : Effect) : bool :=
  match e with Native _ => true | _ => false end.
Definition isWarning (e : Effect) : bool :=
  match e with Warning _ => true | _ => false end.
Definition isExpose (e : Effect) : bool :=
  match e with Event (handleExposeEvent _ _) => true | _ => false end.

(** QWindow::Visibility, as returned by windowVisibility_sys. *)
Inductive Visibility : Type :=
| Hidden | AutomaticVisibility | Windowed | Minimized | Maximized | FullScreen.

Definition Visibility_value (v : Visibility) : Z :=
  match v with
  | Hidden => 0 | AutomaticVisibility => 1 | Windowed => 2 | Minimized => 3
  | Maximized => 4 | FullScreen => 5
  end.

Definition Visibility_eqb (a b : Visibility) : bool :=
  Visibility_value a =? Visibility_value b.

(** ** The windowing host

    What the code consumes and that is not in the sources: user32 queries
    on an opaque desktop state, the effect of a native call on that state,
    and the toolkit-core services used by the plugin. *)
Class Host : Type := {
  Desktop : Type;
  qreal : Type;
  QIcon : Type;
  (* effect of a native call on the desktop *)
  sys_call : Desktop -> NativeCall -> Desktop;
  (* user32 queries *)
  GetWindowLongPtr : Desktop -> HWND -> Z -> Z;
  IsWindowVisible : Desktop -> HWND -> bool;
  GetWindowPlacement : Desktop -> HWND -> bool * WINDOWPLACEMENT;
  GetWindowRect : Desktop -> HWND -> RECT;
  GetParent : Desktop -> HWND -> HWND;
  ScreenToClient : Desktop -> HWND -> QPoint -> QPoint;
  GetAncestor : Desktop -> HWND -> Z -> HWND;
  GetDesktopWindow : Desktop -> HWND;
  GetCapture : Desktop -> HWND;
  GetSystemMenu : Desktop -> HWND -> Z;
  GetSystemMetrics : Desktop -> Z -> Z;
  AdjustWindowRectEx : RECT -> Z -> bool -> Z -> bool * RECT;
  (* QWindowsGeometryHint::mapToGlobal / mapFromGlobal (header inlines) *)
  hint_mapToGlobal : Desktop -> HWND -> QPoint -> QPoint;
  hint_mapFromGlobal : Desktop -> HWND -> QPoint -> QPoint;
  (* toolkit core *)
  screens : Desktop -> list QScreen;                 (* screenManager.screens() *)
  screenAtDp : Desktop -> QPoint -> option QScreen;
  primaryScreen : Desktop -> option QScreen;         (* QGuiApplication *)
  focusWindow : Desktop -> bool;                     (* focusWindow() != 0 *)
  toNativePixels : QRect -> QWindow -> QRect;        (* QHighDpi *)
  screenForGeometry : Desktop -> QWindow -> QRect -> Z;
  qFuzzyCompare : qreal -> qreal -> bool;
  qreal_lt_1 : qreal -> bool;                        (* opacity < 1.0 *)
  alphaByte : qreal -> Z;                            (* BYTE(qRound(255.0 * level)) *)
  createHIcon : Desktop -> QIcon -> Z -> Z -> HICON;
  (* dwmapi resolved on Vista or later and DwmIsCompositionEnabled answered *)
  dwmResolved : Desktop -> bool
}.

(** ** QWindowsWindow *)

(** Modelled from the spec: the per-window "flags bitmask (exposed, layered,
    grabbed, etc.)" with its dirty flag; the enumeration and the accessors
    [testFlag], [setFlag], [clearFlag] are declared in qwindowswindow.h,
    which is not among the sources.  Each flag is one bit of [m_flags]. *)
Inductive Flag : Type :=
| AutoMouseCapture | WithinSetParent | FrameDirty | OpenGLSurfaceFlag
| OpenGL_ES2 | BlockedByModal | SynchronousGeometryChangeEvent
| WithinSetStyle | WithinDestroy | TouchRegistered | Exposed | WithinCreate
| WithinMaximize | MaximizeToFullScreen | HasBorderInFullScreen.

Definition flagBit (f : Flag) : Z :=
  match f with
  | AutoMouseCapture => 0 | WithinSetParent => 1 | FrameDirty => 2
  | OpenGLSurfaceFlag => 4 | OpenGL_ES2 => 5 | BlockedByModal => 8
  | SynchronousGeometryChangeEvent => 11 | WithinSetStyle => 12
  | WithinDestroy => 13 | TouchRegistered => 14 | Exposed => 16
  | WithinCreate => 17 | WithinMaximize => 18 | MaximizeToFullScreen => 19
  | HasBorderInFullScreen => 22
  end.

Definition flagMask (f : Flag) : Z := Z.shiftl 1 (flagBit f).

(** QWindowsWindowData *)
Record QWindowsWindowData : Type := mkData {
  d_flags : Z;
  d_geometry : QRect;
  d_frame : QMargins;
  d_customMargins : QMargins;
  d_hwnd : HWND;
  d_embedded : bool
}.

Definition data_with_geometry (g : QRect) (d : QWindowsWindowData) :=
  mkData (d_flags d) g (d_frame d) (d_customMargins d) (d_hwnd d) (d_embedded d).
Definition data_with_frame (f : QMargins) (d : QWindowsWindowData) :=
  mkData (d_flags d) (d_geometry d) f (d_customMargins d) (d_hwnd d) (d_embedded d).

(** ** Further constants and host services

    Used by the functions modelled beyond the window-state core. *)

Module WinUser.
Definition WS_OVERLAPPEDWINDOW : Z := 0xcf0000.
Definition WS_POPUPWINDOW : Z := 0x80880000.
Definition CW_USEDEFAULT : Z := -2147483648.        (* int(0x80000000) *)
Definition HTCAPTION : Z := 2.
Definition HTBORDER : Z := 18.
Definition SIZE_RESTORED : Z := 0.
Definition SIZE_MINIMIZED : Z := 1.
Definition SIZE_MAXIMIZED : Z := 2.
Definition SIZE_MAXSHOW : Z := 3.
Definition SIZE_MAXHIDE : Z := 4.
End WinUser.
Import WinUser.

(** The ShowWindow calls of a trace. *)
Definition isShowWindow (e : Effect) : bool :=
  match e with
  | Native (ShowWindow _ _) => true
  | _ => false
  end.

(** The hWndInsertAfter argument of each SetWindowPos of a trace. *)
Fixpoint insertAfters (t : list Effect) : list Z :=
  match t with
  | [] => []
  | Native (SetWindowPos _ a _ _ _ _ _) :: t' => a :: insertAfters t'
  | _ :: t' => insertAfters t'
  end.

Definition QSize_isEmpty (s : QSize) : bool := (sw s <? 1) || (sh s <? 1).
Definition QMargins_eqb (a b : QMargins) : bool :=
  (m_left a =? m_left b) && (m_top a =? m_top b)
  && (m_right a =? m_right b) && (m_bottom a =? m_bottom b).

Definition data_with_customMargins (c : QMargins) (d : QWindowsWindowData) :=
  mkData (d_flags d) (d_geometry d) (d_frame d) c (d_hwnd d) (d_embedded d).

Record MINMAXINFO : Type := mkMINMAXINFO {
  ptReserved : QPoint;
  ptMaxSize : QPoint;
  ptMaxPosition : QPoint;
  ptMinTrackSize : QPoint;
  ptMaxTrackSize : QPoint
}.

(** Another toolkit window as QGuiApplication::allWindows() lists it. *)
Record OtherWindow : Type := mkOtherWindow {
  o_ptr : Z;
  o_isVisible : bool;
  o_transientParent : option Z;
  o_platform : option HWND;        (* handle of its QWindowsWindow, if any *)
  o_width : Z;
  o_height : Z
}.

(** QWindowsForeignWindow: a native window the toolkit did not create. *)
Record QWindowsForeignWindow : Type := mkForeign {
  f_hwnd : HWND;
  m_topLevelStyle : Z
}.

Class HostMore {host : Host} : Type := {
  IsIconic : Desktop -> HWND -> bool;
  sys_SetParent : Desktop -> HWND -> HWND -> Desktop;    (* effect of SetParent *)
  allWindows : Desktop -> list OtherWindow;               (* QGuiApplication *)
  asyncExpose : Desktop -> bool;                          (* QWindowsContext *)
  window_mapFromGlobal : QWindow -> QPoint -> QPoint;     (* QWindow::mapFromGlobal *)
  fromNativePixels : QPoint -> QWindow -> QPoint;         (* QHighDpi *)
  screenToNativePixels : QRect -> QScreen -> QRect;       (* QHighDpi, on a screen *)
  highDpiScalingActive : bool;                            (* QHighDpiScaling::isActive() *)
  scaledBy : QWindow -> Z -> Z                            (* int *= QHighDpiScaling::factor(w) *)
}.

Section Program.
Context {host : Host}.

(** The members of QWindowsWindow the modelled functions touch, the
    toolkit window it points back to, and the rectangle kept by the
    QPlatformWindow base class. *)
Record QWindowsWindow : Type := mkWindow {
  m_window : QWindow;
  m_data : QWindowsWindowData;
  m_flags : Z;
  m_windowState : Qt.WindowState;
  m_opacity : qreal;
  m_savedStyle : Z;
  m_savedFrameGeometry : QRect;
  m_iconSmall : HICON;
  m_iconBig : HICON;
  base_rect : QRect                    (* QPlatformWindow::setGeometry *)
}.

Definition with_data (d : QWindowsWindowData) (w : QWindowsWindow) :=
  mkWindow (m_window w) d (m_flags w) (m_windowState w) (m_opacity w)
           (m_savedStyle w) (m_savedFrameGeometry w) (m_iconSmall w)
           (m_iconBig w) (base_rect w).
Definition with_flags (f : Z) (w : QWindowsWindow) :=
  mkWindow (m_window w) (m_data w) f (m_windowState w) (m_opacity w)
           (m_savedStyle w) (m_savedFrameGeometry w) (m_iconSmall w)
           (m_iconBig w) (base_rect w).
Definition with_windowState (s : Qt.WindowState) (w : QWindowsWindow) :=
  mkWindow (m_window w) (m_data w) (m_flags w) s (m_opacity w)
           (m_savedStyle w) (m_savedFrameGeometry w) (m_iconSmall w)
           (m_iconBig w) (base_rect w).
Definition with_savedStyle (s : Z) (w : QWindowsWindow) :=
  mkWindow (m_window w) (m_data w) (m_flags w) (m_windowState w) (m_opacity w)
           s (m_savedFrameGeometry w) (m_iconSmall w)
           (m_iconBig w) (base_rect w).
Definition with_savedFrameGeometry (g : QRect) (w : QWindowsWindow) :=
  mkWindow (m_window w) (m_data w) (m_flags w) (m_windowState w) (m_opacity w)
           (m_savedStyle w) g (m_iconSmall w) (m_iconBig w) (base_rect w).
Definition with_base_rect (r : QRect) (w : QWindowsWindow) :=
  mkWindow (m_window w) (m_data w) (m_flags w) (m_windowState w) (m_opacity w)
           (m_savedStyle w) (m_savedFrameGeometry w) (m_iconSmall w)
           (m_iconBig w) r.

(** What an operation runs on: the desktop, the window object and the key
    grabber kept by QWindowsContext (the address of a toolkit window). *)
Record Machine : Type := mkMachine {
  desktop : Desktop;
  self : QWindowsWindow;
  keyGrabber : option Z
}.

(** An operation returns its result, the machine it leaves and the effects
    it issued, oldest first. *)
Definition Op (A : Type) : Type := Machine -> A * Machine * list Effect.

Definition ret {A : Type} (a : A) : Op A := fun m => (a, m, []).

Definition bind {A B : Type} (c : Op A) (k : A -> Op B) : Op B :=
  fun m =>
    match c m with
    | (a, m1, t1) =>
        match k a m1 with
        | (b, m2, t2) => (b, m2, t1 ++ t2)
        end
    end.

Notation "x <- c1 ;; c2" := (bind c1 (fun x => c2))
  (at level 61, c1 at next level, right associativity).
Notation "c1 ;; c2" := (bind c1 (fun _ => c2))
  (at level 61, right associativity).

Definition result {A : Type} (r : A * Machine * list Effect) : A := fst (fst r).
Definition after {A : Type} (r : A * Machine * list Effect) : Machine := snd (fst r).
Definition effects {A : Type} (r : A * Machine * list Effect) : list Effect := snd r.

Definition this : Op QWindowsWindow := fun m => (self m, m, []).
Definition update (f : QWindowsWindow -> QWindowsWindow) : Op unit :=
  fun m => (tt, mkMachine (desktop m) (f (self m)) (keyGrabber m), []).
Definition query {A : Type} (q : Desktop -> A) : Op A :=
  fun m => (q (desktop m), m, []).
Definition native (c : NativeCall) : Op unit :=
  fun m => (tt, mkMachine (sys_call (desktop m) c) (self m) (keyGrabber m),
            [Native c]).
Definition notify (e : QtEvent) : Op unit := fun m => (tt, m, [Event e]).
Definition qWarning (msg : string) : Op unit := fun m => (tt, m, [Warning msg]).
Definition when (b : bool) (c : Op unit) : Op unit := if b then c else ret tt.

Definition window : Op QWindow := w <- this ;; ret (m_window w).
Definition handle : Op HWND := w <- this ;; ret (d_hwnd (m_data w)).

(** Modelled from the spec: the accessors of the "flags bitmask", inline in
    qwindowswindow.h (not among the sources): test, set and clear one bit. *)
Definition testFlag (f : Flag) : Op bool :=
  w <- this ;; ret (has (m_flags w) (flagMask f)).
Definition setFlag (f : Flag) : Op unit :=
  update (fun w => with_flags (Z.lor (m_flags w) (flagMask f)) w).
Definition clearFlag (f : Flag) : Op unit :=
  update (fun w => with_flags (Z.land (m_flags w) (Z.lnot (flagMask f))) w).

(** Modelled from the spec: [style()] and [exStyle()], inline in
    qwindowswindow.h (not among the sources): the "style bits" and "extended
    style bits" of the native handle, as unsigned words. *)
Definition style : Op Z :=
  h <- handle ;; query (fun d => u32 (GetWindowLongPtr d h GWL_STYLE)).
Definition exStyle : Op Z :=
  h <- handle ;; query (fun d => u32 (GetWindowLongPtr d h GWL_EXSTYLE)).

(** Modelled from the spec: [isExposed()], inline in qwindowswindow.h: the
    "exposed" bit of the flags bitmask. *)
Definition isExposed : Op bool := testFlag Exposed.

(** Modelled from the spec: [isLayered()], inline in qwindowswindow.h: the
    window is in the "layered window" compositing mode, WS_EX_LAYERED. *)
Definition isLayered : Op bool :=
  h <- handle ;; query (fun d => has (GetWindowLongPtr d h GWL_EXSTYLE) WS_EX_LAYERED).

(** Modelled from the spec: [hasMouseCapture()], inline in qwindowswindow.h:
    the window owns the mouse "input grab" when the host's capture is its
    handle. *)
Definition hasMouseCapture : Op bool :=
  h <- handle ;; query (fun d => GetCapture d =? h).


(** *** Static helpers on a native handle *)

Definition windowPlacementOffset (d : Desktop) (hwnd : HWND) (point : QPoint) : QPoint :=
  if has (GetWindowLongPtr d hwnd GWL_EXSTYLE) WS_EX_TOOLWINDOW then mkQPoint 0 0
  else
    let screen :=
      if (Z.of_nat (List.length (screens d)) =? 1) then hd_error (screens d)
      else screenAtDp d point in
    match screen with
    | Some s => QPoint_sub (Rect.topLeft (screen_availableGeometry s))
                           (Rect.topLeft (screen_geometry s))
    | None => mkQPoint 0 0
    end.

Definition frameGeometry (d : Desktop) (hwnd : HWND) (topLevel : bool) : QRect :=
  let windowPlacement := snd (GetWindowPlacement d hwnd) in
  if topLevel && (showCmd windowPlacement =? SW_SHOWMINIMIZED) then
    let result := qrectFromRECT (rcNormalPosition windowPlacement) in
    Rect.translated result (windowPlacementOffset d hwnd (Rect.topLeft result))
  else
    let rect := GetWindowRect d hwnd in
    let parent := GetParent d hwnd in
    if negb (parent =? 0) && negb topLevel then
      let width := r_right rect - r_left rect in
      let height := r_bottom rect - r_top rect in
      let leftTop := ScreenToClient d parent (mkQPoint (r_left rect) (r_top rect)) in
      qrectFromRECT (mkRECT (px leftTop) (py leftTop)
                            (px leftTop + width) (py leftTop + height))
    else qrectFromRECT rect.

Definition windowVisibility_sys (d : Desktop) (hwnd : HWND) : Visibility :=
  if negb (IsWindowVisible d hwnd) then Hidden
  else
    let (ok, windowPlacement) := GetWindowPlacement d hwnd in
    if ok then
      let c := showCmd windowPlacement in
      if (c =? SW_SHOWMINIMIZED) || (c =? SW_MINIMIZE) || (c =? SW_FORCEMINIMIZE)
      then Minimized
      else if c =? SW_SHOWMAXIMIZED then Maximized
      else Windowed
    else Windowed.

Definition normalFrameGeometry (d : Desktop) (hwnd : HWND) : QRect :=
  let (ok, wp) := GetWindowPlacement d hwnd in
  if ok then
    let result := qrectFromRECT (rcNormalPosition wp) in
    Rect.translated result (windowPlacementOffset d hwnd (Rect.topLeft result))
  else Rect.null.

Definition transientParentHwnd (d : Desktop) (hwnd : HWND) : HWND :=
  if GetAncestor d hwnd GA_PARENT =? GetDesktopWindow d then
    let rootOwnerHwnd := GetAncestor d hwnd GA_ROOTOWNER in
    if negb (rootOwnerHwnd =? hwnd) then rootOwnerHwnd else 0
  else 0.

Definition testShowWithoutActivating (w : QWindow) : bool :=
  match w_showWithoutActivating w with
  | Some b => b
  | None => false
  end.

(** *** QWindowsGeometryHint *)

Record QWindowsGeometryHint : Type := mkHint {
  minimumSize : QSize;
  maximumSize : QSize;
  customMargins : QMargins
}.

Definition validSize (hint : QWindowsGeometryHint) (s : QSize) : bool :=
  let width := sw s in
  let height := sh s in
  (width >=? sw (minimumSize hint)) && (width <=? sw (maximumSize hint))
  && (height >=? sh (minimumSize hint)) && (height <=? sh (maximumSize hint)).

(** QWindowsGeometryHint::frame: the margins the host adds around a client
    area of the given style; a failing AdjustWindowRectEx is warned about
    and the rectangle is used as the host left it. *)
Definition frame (style exStyle : Z) : Op QMargins :=
  let style := Z.land style (Z.lnot WS_OVERLAPPED) in
  let r := AdjustWindowRectEx (mkRECT 0 0 0 0) style false exStyle in
  when (negb (fst r)) (qWarning "frame: AdjustWindowRectEx failed"%string) ;;
  let rect := snd r in
  ret (mkQMargins (Z.abs (r_left rect)) (Z.abs (r_top rect))
                  (Z.abs (r_right rect)) (Z.abs (r_bottom rect))).

(** *** Geometry queries of the window *)

(** What frameMargins reads: the dirty flag, the frameless hint, the two
    native style words, the cached frame and the custom margins. *)
Definition marginInputs (m : Machine) : bool * bool * Z * Z * QMargins * QMargins :=
  (has (m_flags (self m)) (flagMask FrameDirty),
   has (d_flags (m_data (self m))) Qt.FramelessWindowHint,
   u32 (GetWindowLongPtr (desktop m) (d_hwnd (m_data (self m))) GWL_STYLE),
   u32 (GetWindowLongPtr (desktop m) (d_hwnd (m_data (self m))) GWL_EXSTYLE),
   d_frame (m_data (self m)),
   d_customMargins (m_data (self m))).

Definition isVisible : Op bool :=
  h <- handle ;;
  if h =? 0 then ret false else query (fun d => IsWindowVisible d h).

Definition isTopLevel : Op bool :=
  w <- this ;; ret (w_isTopLevel (m_window w) && negb (d_embedded (m_data w))).

Definition frameGeometry_sys : Op QRect :=
  h <- handle ;; t <- isTopLevel ;; query (fun d => frameGeometry d h t).

Definition frameMargins : Op QMargins :=
  dirty <- testFlag FrameDirty ;;
  (if dirty then
     w <- this ;;
     f <- (if has (d_flags (m_data w)) Qt.FramelessWindowHint
           then ret (mkQMargins 0 0 0 0)
           else s <- style ;; e <- exStyle ;; frame s e) ;;
     update (fun w => with_data (data_with_frame f (m_data w)) w) ;;
     clearFlag FrameDirty
   else ret tt) ;;
  w <- this ;;
  ret (QMargins_add (d_frame (m_data w)) (d_customMargins (m_data w))).

Definition geometry_sys : Op QRect :=
  fg <- frameGeometry_sys ;;
  m <- frameMargins ;;
  ret (Rect.marginsRemoved fg m).

Definition fireExpose (region : QRegion) (force : bool) : Op unit :=
  (if QRegion_isEmpty region && negb force
   then clearFlag Exposed else setFlag Exposed) ;;
  w <- window ;;
  notify (handleExposeEvent (w_ptr w) region).

Definition mapToGlobal (pos : QPoint) : Op QPoint :=
  h <- handle ;;
  if negb (h =? 0) then query (fun d => hint_mapToGlobal d h pos) else ret pos.

Definition mapFromGlobal (pos : QPoint) : Op QPoint :=
  h <- handle ;;
  if negb (h =? 0) then query (fun d => hint_mapFromGlobal d h pos) else ret pos.

(** *** Window state *)

Definition setStyle (s : Z) : Op unit :=
  setFlag WithinSetStyle ;;
  setFlag FrameDirty ;;
  h <- handle ;;
  native (SetWindowLongPtr h GWL_STYLE s) ;;
  clearFlag WithinSetStyle.

Definition setExStyle (s : Z) : Op unit :=
  setFlag FrameDirty ;;
  h <- handle ;;
  native (SetWindowLongPtr h GWL_EXSTYLE s).

Definition isFS (s : Qt.WindowState) : bool := Qt.WindowState_eqb s Qt.WindowFullScreen.
Definition isMin (s : Qt.WindowState) : bool := Qt.WindowState_eqb s Qt.WindowMinimized.
Definition isMax (s : Qt.WindowState) : bool := Qt.WindowState_eqb s Qt.WindowMaximized.

(** The screen whose geometry a full-screen window takes: the window's
    screen, else the primary screen, in native pixels. *)
Definition fullScreenRect (d : Desktop) (w : QWindow) (fallback : QRect) : QRect :=
  let screen := match w_screen w with
                | Some s => Some s
                | None => primaryScreen d
                end in
  match screen with
  | Some s => toNativePixels (screen_geometry s) w
  | None => fallback
  end.

(** The branch of setWindowState_sys that enters full screen. *)
Definition enterFullScreen (oldState : Qt.WindowState) (visible : bool) : Op unit :=
  let newStyle := Z.lor (Z.lor WS_CLIPCHILDREN WS_CLIPSIBLINGS) WS_POPUP in
  h <- handle ;;
  w0 <- this ;;
  (if m_savedStyle w0 =? 0 then
     s <- style ;;
     update (with_savedStyle s) ;;
     if isMin oldState || isMax oldState then
       nf <- query (fun d => normalFrameGeometry d h) ;;
       when (Rect.isValid nf) (update (with_savedFrameGeometry nf))
     else
       fg <- frameGeometry_sys ;;
       update (with_savedFrameGeometry fg)
   else ret tt) ;;
  w1 <- this ;;
  let newStyle := if has (m_savedStyle w1) WS_SYSMENU
                  then Z.lor newStyle WS_SYSMENU else newStyle in
  let newStyle := if visible then Z.lor newStyle WS_VISIBLE else newStyle in
  border <- testFlag HasBorderInFullScreen ;;
  let newStyle := if border then Z.lor newStyle WS_BORDER else newStyle in
  setStyle newStyle ;;
  w2 <- this ;;
  r <- query (fun d => fullScreenRect d (m_window w2) (m_savedFrameGeometry w2)) ;;
  let swpf := Z.lor SWP_FRAMECHANGED SWP_NOACTIVATE in
  wasSync <- testFlag SynchronousGeometryChangeEvent ;;
  setFlag SynchronousGeometryChangeEvent ;;
  native (SetWindowPos h HWND_TOP (Rect.left r) (Rect.top r)
                       (Rect.width r) (Rect.height r) swpf) ;;
  when (negb wasSync) (clearFlag SynchronousGeometryChangeEvent) ;;
  notify (handleGeometryChangeEvent (w_ptr (m_window w2)) r) ;;
  notify flushWindowSystemEvents.

(** The branch of setWindowState_sys that leaves full screen for a state
    other than Minimized: "Restore saved state". *)
Definition leaveFullScreen (newState : Qt.WindowState) (visible : bool) : Op unit :=
  h <- handle ;;
  w0 <- this ;;
  newStyle <- (if negb (m_savedStyle w0 =? 0) then ret (m_savedStyle w0) else style) ;;
  let newStyle := if visible then Z.lor newStyle WS_VISIBLE else newStyle in
  setStyle newStyle ;;
  let swpf := Z.lor (Z.lor SWP_FRAMECHANGED SWP_NOZORDER) SWP_NOACTIVATE in
  let swpf := if negb (Rect.isValid (m_savedFrameGeometry w0))
              then Z.lor swpf (Z.lor SWP_NOSIZE SWP_NOMOVE) else swpf in
  wasSync <- testFlag SynchronousGeometryChangeEvent ;;
  setFlag SynchronousGeometryChangeEvent ;;
  vis <- query (fun d => windowVisibility_sys d h) ;;
  when (Visibility_eqb vis Maximized)
       (native (ShowWindow h SW_SHOWNOACTIVATE)) ;;
  let g := m_savedFrameGeometry w0 in
  native (SetWindowPos h 0 (Rect.x g) (Rect.y g) (Rect.width g) (Rect.height g) swpf) ;;
  when (negb wasSync) (clearFlag SynchronousGeometryChangeEvent) ;;
  when visible
       (setFlag WithinMaximize ;;
        native (ShowWindow h (if isMax newState then SW_MAXIMIZE else SW_SHOWNA)) ;;
        clearFlag WithinMaximize) ;;
  update (with_savedStyle 0) ;;
  update (with_savedFrameGeometry Rect.null).

Definition setWindowState_sys (newState : Qt.WindowState) : Op unit :=
  w <- this ;;
  let oldState := m_windowState w in
  if Qt.WindowState_eqb oldState newState then ret tt
  else
    visible <- isVisible ;;
    setFlag FrameDirty ;;
    h <- handle ;;
    (if negb (Bool.eqb (isFS oldState) (isFS newState)) then
       if isFS newState then enterFullScreen oldState visible
       else if negb (isMin newState) then leaveFullScreen newState visible
       else ret tt
     else if negb (Bool.eqb (isMax oldState) (isMax newState)) then
       when (visible && negb (isMin newState))
            (setFlag WithinMaximize ;;
             when (isFS newState) (setFlag MaximizeToFullScreen) ;;
             native (ShowWindow h (if isMax newState then SW_MAXIMIZE
                                   else SW_SHOWNOACTIVATE)) ;;
             clearFlag WithinMaximize ;;
             clearFlag MaximizeToFullScreen)
     else ret tt) ;;
    when (negb (Bool.eqb (isMin oldState) (isMin newState)))
         (when visible
               (native (ShowWindow h (if isMin newState then SW_MINIMIZE
                                      else if isMax newState then SW_MAXIMIZE
                                      else SW_SHOWNORMAL)))).

Definition setWindowState (state : Qt.WindowState) : Op unit :=
  h <- handle ;;
  when (negb (h =? 0))
       (setWindowState_sys state ;;
        update (with_windowState state)).

(** A sequence of setWindowState requests. *)
Fixpoint setWindowStates (l : list Qt.WindowState) : Op unit :=
  match l with
  | [] => ret tt
  | s :: l' => setWindowState s ;; setWindowStates l'
  end.

(** *** Showing and hiding *)

Definition updateTransientParent : Op unit :=
  w <- window ;;
  if w_type w =? Qt.Popup then ret tt
  else
    h <- handle ;;
    oldTransientParent <- query (fun d => transientParentHwnd d h) ;;
    let newTransientParent :=
      match w_transientParent w with
      | Some tp =>
          if peer_platform tp then
            if negb (peer_withinDestroy tp) then peer_handle tp else 0
          else 0
      | None => 0
      end in
    when (negb (newTransientParent =? oldTransientParent))
         (native (SetWindowLongPtr h GWL_HWNDPARENT newTransientParent)).

(** The windows show_sys never activates. *)
Definition showsWithoutActivating (w : QWindow) : bool :=
  (w_type w =? Qt.Popup) || (w_type w =? Qt.ToolTip) || (w_type w =? Qt.Tool)
  || testShowWithoutActivating w.

Definition show_sys : Op unit :=
  w <- window ;;
  h <- handle ;;
  let flags := w_flags w in
  let state := Qt.WindowState_value (w_windowState w) in
  r <- (if w_isTopLevel w then
          if has state (Qt.WindowState_value Qt.WindowMinimized) then
            v <- isVisible ;;
            ret (if negb v then SW_SHOWMINNOACTIVE else SW_SHOWMINIMIZED, false)
          else
            updateTransientParent ;;
            if has state (Qt.WindowState_value Qt.WindowMaximized) then
              if has flags Qt.WindowTitleHint
                 && negb (has flags (Z.lor Qt.WindowMinMaxButtonsHint
                                           Qt.FramelessWindowHint))
              then
                s <- style ;;
                setStyle (Z.lor s WS_MAXIMIZEBOX) ;;
                ret (SW_SHOWMAXIMIZED, true)
              else ret (SW_SHOWMAXIMIZED, false)
            else ret (SW_SHOWNORMAL, false)
        else ret (SW_SHOWNORMAL, false)) ;;
  let fakedMaximize := snd r in
  let sm := if showsWithoutActivating w then SW_SHOWNOACTIVATE else fst r in
  when (has state (Qt.WindowState_value Qt.WindowMaximized)) (setFlag WithinMaximize) ;;
  native (ShowWindow h sm) ;;
  clearFlag WithinMaximize ;;
  when fakedMaximize
       (s <- style ;;
        setStyle (Z.land s (Z.lnot WS_MAXIMIZEBOX)) ;;
        native (SetWindowPos h 0 0 0 0 0
                  (Z.lor (Z.lor (Z.lor (Z.lor (Z.lor SWP_NOACTIVATE SWP_NOMOVE)
                     SWP_NOSIZE) SWP_NOZORDER) SWP_NOOWNERZORDER) SWP_FRAMECHANGED))).

Definition hide_sys : Op unit :=
  h <- handle ;;
  native (SetWindowPos h 0 0 0 0 0
            (Z.lor (Z.lor (Z.lor (Z.lor SWP_HIDEWINDOW SWP_NOSIZE) SWP_NOMOVE)
               SWP_NOZORDER) SWP_NOACTIVATE)).

(** *** Input grabs *)

Definition setMouseGrabEnabled (grab : bool) : Op bool :=
  h <- handle ;;
  if h =? 0 then
    qWarning "setMouseGrabEnabled: No handle"%string ;; ret false
  else
    v <- isVisible ;;
    if negb v && grab then
      qWarning "setMouseGrabEnabled: Not setting mouse grab for invisible window"%string ;;
      ret false
    else
      clearFlag AutoMouseCapture ;;
      c <- hasMouseCapture ;;
      when (negb (Bool.eqb c grab))
           (if grab then native (SetCapture h) else native ReleaseCapture) ;;
      ret grab.

Definition setKeyGrabber (g : option Z) : Op unit :=
  fun m => (tt, mkMachine (desktop m) (self m) g, []).

Definition setKeyboardGrabEnabled (grab : bool) : Op bool :=
  h <- handle ;;
  if h =? 0 then
    qWarning "setKeyboardGrabEnabled: No handle"%string ;; ret false
  else
    w <- window ;;
    (if grab then setKeyGrabber (Some (w_ptr w))
     else
       fun m =>
         match keyGrabber m with
         | Some k => if k =? w_ptr w then setKeyGrabber None m else ret tt m
         | None => ret tt m
         end) ;;
    ret true.

Definition setVisible (visible : bool) : Op unit :=
  win <- window ;;
  h <- handle ;;
  when (negb (h =? 0))
       (if visible then
          show_sys ;;
          layered <- isLayered ;;
          when layered
               (fireExpose (QRegion_ofRect (Rect.make 0 0 (w_width win) (w_height win)))
                           false) ;;
          focus <- query focusWindow ;;
          when ((w_type win =? Qt.Popup)
                && match w_parent win with None => true | Some _ => false end
                && negb focus)
               (native (SetForegroundWindow h))
        else
          c <- hasMouseCapture ;;
          (if c then _ <- setMouseGrabEnabled false ;; ret tt else ret tt) ;;
          (if has (w_flags win) Qt.Popup
           then native (ShowWindow h SW_HIDE)
           else hide_sys) ;;
          fireExpose [] false).

(** *** Geometry *)

Definition handleGeometryChange : Op unit :=
  within <- testFlag WithinSetStyle ;;
  if within then ret tt
  else
    w0 <- this ;;
    let previousGeometry := d_geometry (m_data w0) in
    g <- geometry_sys ;;
    update (fun w => with_data (data_with_geometry g (m_data w)) w) ;;
    update (with_base_rect g) ;;
    notify (handleGeometryChangeEvent (w_ptr (m_window w0)) g) ;;
    es2 <- testFlag OpenGL_ES2 ;;
    exposed <- isExposed ;;
    when (negb es2 && exposed
          && negb (QSize_eqb (Rect.size g) (Rect.size previousGeometry))
          && negb ((Rect.width g >? Rect.width previousGeometry)
                   || (Rect.height g >? Rect.height previousGeometry)))
         (fireExpose (QRegion_ofRect (Rect.ofPointSize (mkQPoint 0 0) (Rect.size g)))
                     true) ;;
    when (negb (QPoint_eqb (Rect.topLeft previousGeometry) (Rect.topLeft g)))
         (newScreen <- query (fun d => screenForGeometry d (m_window w0) g) ;;
          when (match w_screen (m_window w0) with
                | Some s => negb (newScreen =? screen_id s)
                | None => true
                end)
               (notify (handleWindowScreenChanged (w_ptr (m_window w0)) newScreen))) ;;
    sync <- testFlag SynchronousGeometryChangeEvent ;;
    when sync (notify flushWindowSystemEvents).



(** *** Opacity and icon *)

(** GetWindowLong and GetWindowLongPtr read the same extended-style word. *)
Definition setWindowLayered (hwnd : HWND) (flags : Z) (hasAlpha : bool)
    (opacity : qreal) : Op bool :=
  exStyle <- query (fun d => GetWindowLongPtr d hwnd GWL_EXSTYLE) ;;
  let needsLayered := has flags Qt.WindowTransparentForInput
                      || (hasAlpha && has flags Qt.FramelessWindowHint)
                      || qreal_lt_1 opacity in
  let isLayered := has exStyle WS_EX_LAYERED in
  when (negb (Bool.eqb needsLayered isLayered))
       (if needsLayered
        then native (SetWindowLong hwnd GWL_EXSTYLE (Z.lor exStyle WS_EX_LAYERED))
        else native (SetWindowLong hwnd GWL_EXSTYLE
                       (Z.land exStyle (Z.lnot WS_EX_LAYERED)))) ;;
  ret needsLayered.

Definition setWindowOpacity (hwnd : HWND) (flags : Z) (hasAlpha openGL : bool)
    (level : qreal) : Op unit :=
  layered <- setWindowLayered hwnd flags hasAlpha level ;;
  if layered then
    let alpha := alphaByte level in
    if hasAlpha && negb openGL && has flags Qt.FramelessWindowHint
    then native (UpdateLayeredWindow hwnd alpha ULW_ALPHA)
    else native (SetLayeredWindowAttributes hwnd 0 alpha LWA_ALPHA)
  else
    v <- query (fun d => IsWindowVisible d hwnd) ;;
    when v (native (InvalidateRect hwnd)).



(** *** Window creation data *)

Definition windowIsOpenGL (w : QWindow) : bool :=
  match w_surfaceType w with
  | OpenGLSurface => true
  | RasterGLSurface => w_compositing w
  | RasterSurface => false
  end.

Definition applyBlurBehindWindow (hwnd : HWND) : Op unit :=
  ok <- query dwmResolved ;;
  when ok (native (DwmEnableBlurBehindWindow hwnd)).

Definition shouldShowMaximizeButton (w : QWindow) (flags : Z) : bool :=
  if has flags Qt.MSWindowsFixedSizeDialogHint
     || negb (has flags Qt.WindowMaximizeButtonHint)
  then false
  else has flags Qt.CustomizeWindowHint
       || QSize_eqb (w_maximumSize w) (mkQSize QWINDOWSIZE_MAX QWINDOWSIZE_MAX).

Definition updateGLWindowSettings (w : QWindow) (hwnd : HWND) (flags : Z)
    (opacity : qreal) : Op unit :=
  let isGL := windowIsOpenGL w in
  let hasAlpha := w_hasAlpha w in
  when (isGL && hasAlpha) (applyBlurBehindWindow hwnd) ;;
  setWindowOpacity hwnd flags hasAlpha isGL opacity.

Definition fixTopLevelWindowFlags (flags : Z) : Z :=
  let flags := Z.land flags (Z.lnot Qt.WindowFullscreenButtonHint) in
  let flags :=
    if flags =? Qt.Window then
      Z.lor flags
        (Z.lor (Z.lor (Z.lor (Z.lor Qt.WindowTitleHint Qt.WindowSystemMenuHint)
           Qt.WindowMinimizeButtonHint) Qt.WindowMaximizeButtonHint)
           Qt.WindowCloseButtonHint)
    else if flags =? Qt.Dialog then
      Z.lor flags
        (Z.lor (Z.lor (Z.lor Qt.WindowTitleHint Qt.WindowSystemMenuHint)
           Qt.WindowContextHelpButtonHint) Qt.WindowCloseButtonHint)
    else if flags =? Qt.Tool then
      Z.lor flags
        (Z.lor (Z.lor Qt.WindowTitleHint Qt.WindowSystemMenuHint)
           Qt.WindowCloseButtonHint)
    else flags in
  if Z.land flags Qt.WindowType_Mask =? Qt.SplashScreen
  then Z.lor flags Qt.FramelessWindowHint
  else flags.

Record WindowCreationData : Type := mkCreation {
  flags : Z;
  parentHandle : HWND;
  type : Z;
  c_style : Z;
  c_exStyle : Z;
  topLevel : bool;
  popup : bool;
  dialog : bool;
  tool : bool;
  embedded : bool;
  hasAlpha : bool
}.

(** The default constructor. *)
Definition WindowCreationData_new : WindowCreationData :=
  mkCreation 0 0 Qt.Widget 0 0 false false false false false false.

Definition ForceChild : Z := 0x1.
Definition ForceTopLevel : Z := 0x2.

Definition handleOf (p : Peer) : HWND :=
  if peer_platform p then peer_handle p else 0.

Definition fromWindow (c : WindowCreationData) (w : QWindow) (flagsIn : Z)
    (creationFlags : Z) : WindowCreationData :=
  let flags := flagsIn in
  let embedded := match w_embeddedNativeParent w with
                  | Some _ => true | None => embedded c end in
  let parentHandle := match w_embeddedNativeParent w with
                      | Some h => h | None => parentHandle c end in
  let topLevel :=
    if has creationFlags ForceChild then false
    else if embedded then false
    else if has creationFlags ForceTopLevel then true else w_isTopLevel w in
  let flags := if topLevel then fixTopLevelWindowFlags flags else flags in
  let type := Z.land flags Qt.WindowType_Mask in
  let dialog := if (type =? Qt.Dialog) || (type =? Qt.Sheet) then true else dialog c in
  let tool := if (type =? Qt.Drawer) || (type =? Qt.Tool) then true else tool c in
  let popup := if type =? Qt.Popup then true else popup c in
  let dialog := if has flags Qt.MSWindowsFixedSizeDialogHint then true else dialog in
  let flags := if popup then Z.lor flags Qt.WindowStaysOnTopHint else flags in
  let parentHandle :=
    if popup then parentHandle
    else if negb embedded then
      match (if topLevel then w_transientParent w else w_parent w) with
      | Some parentWindow => handleOf parentWindow
      | None => parentHandle
      end
    else parentHandle in
  let style :=
    if popup || (type =? Qt.ToolTip) || (type =? Qt.SplashScreen) then WS_POPUP
    else if topLevel then
      if has flags Qt.FramelessWindowHint then WS_POPUP
      else if has flags Qt.WindowTitleHint then WS_OVERLAPPED
      else 0
    else WS_CHILD in
  let style := Z.lor style (Z.lor WS_CLIPSIBLINGS WS_CLIPCHILDREN) in
  let exStyle := c_exStyle c in
  let frameless := has flags Qt.FramelessWindowHint in
  let decorated := (type =? Qt.Window) || dialog || tool in
  let style :=
    if topLevel && decorated then
      let style :=
        if negb frameless then
          let style := Z.lor style WS_POPUP in
          let style := if has flags Qt.MSWindowsFixedSizeDialogHint
                       then Z.lor style WS_DLGFRAME else Z.lor style WS_THICKFRAME in
          if has flags Qt.WindowTitleHint then Z.lor style WS_CAPTION else style
        else style in
      let style :=
        if has flags Qt.WindowSystemMenuHint then Z.lor style WS_SYSMENU
        else if dialog && has flags Qt.WindowCloseButtonHint && negb frameless
             then Z.lor style (Z.lor WS_SYSMENU WS_BORDER)
             else style in
      let style := if has flags Qt.WindowMinimizeButtonHint
                   then Z.lor style WS_MINIMIZEBOX else style in
      if shouldShowMaximizeButton w flags then Z.lor style WS_MAXIMIZEBOX else style
    else style in
  let exStyle :=
    if topLevel then
      let exStyle :=
        if decorated then
          let exStyle :=
            if negb (has flags Qt.WindowSystemMenuHint)
               && dialog && has flags Qt.WindowCloseButtonHint && negb frameless
            then Z.lor exStyle WS_EX_DLGMODALFRAME else exStyle in
          let exStyle := if tool then Z.lor exStyle WS_EX_TOOLWINDOW else exStyle in
          if has flags Qt.WindowContextHelpButtonHint
          then Z.lor exStyle WS_EX_CONTEXTHELP else exStyle
        else Z.lor exStyle WS_EX_TOOLWINDOW in
      if has flagsIn Qt.WindowTransparentForInput
      then Z.lor exStyle (Z.lor WS_EX_LAYERED WS_EX_TRANSPARENT) else exStyle
    else exStyle in
  mkCreation flags parentHandle type style exStyle topLevel popup dialog tool
             embedded (hasAlpha c).

Definition initialize (c : WindowCreationData) (w : QWindow) (hwnd : HWND)
    (frameChange : bool) (opacityLevel : qreal) : Op unit :=
  if hwnd =? 0 then ret tt
  else
    let swpFlags := Z.lor SWP_NOMOVE SWP_NOSIZE in
    let swpFlags := if frameChange then Z.lor swpFlags SWP_FRAMECHANGED else swpFlags in
    if topLevel c then
      let swpFlags := Z.lor swpFlags SWP_NOACTIVATE in
      (if has (flags c) Qt.WindowStaysOnTopHint || (type c =? Qt.ToolTip) then
         native (SetWindowPos hwnd HWND_TOPMOST 0 0 0 0 swpFlags) ;;
         when (has (flags c) Qt.WindowStaysOnBottomHint)
              (qWarning "QWidget: Incompatible window flags: the window can't be on top and on bottom at the same time"%string)
       else if has (flags c) Qt.WindowStaysOnBottomHint then
         native (SetWindowPos hwnd HWND_BOTTOM 0 0 0 0 swpFlags)
       else when frameChange
                 (native (SetWindowPos hwnd HWND_NOTOPMOST 0 0 0 0 swpFlags))) ;;
      when (has (flags c) (Z.lor Qt.CustomizeWindowHint Qt.WindowTitleHint))
           (systemMenu <- query (fun d => GetSystemMenu d hwnd) ;;
            if has (flags c) Qt.WindowCloseButtonHint
            then native (EnableMenuItem systemMenu SC_CLOSE (Z.lor MF_BYCOMMAND MF_ENABLED))
            else native (EnableMenuItem systemMenu SC_CLOSE (Z.lor MF_BYCOMMAND MF_GRAYED))) ;;
      updateGLWindowSettings w hwnd (flags c) opacityLevel
    else native (SetWindowPos hwnd HWND_TOP 0 0 0 0 swpFlags).

(** ** Functions beyond the window-state core *)

Context {more : HostMore}.

(** *** Enabled state, full-screen border, custom margins *)

Definition isEnabled : Op bool :=
  s <- style ;; ret (Z.land s WS_DISABLED =? 0).

Definition setEnabled (enabled : bool) : Op unit :=
  oldStyle <- style ;;
  let newStyle := if enabled then Z.land oldStyle (Z.lnot WS_DISABLED)
                  else Z.lor oldStyle WS_DISABLED in
  when (negb (newStyle =? oldStyle)) (setStyle newStyle).

Definition setHasBorderInFullScreen (border : bool) : Op unit :=
  if border then setFlag HasBorderInFullScreen else clearFlag HasBorderInFullScreen.

(** QRect::moveTo moves the top-left corner and keeps the size, as
    moveTopLeft does. *)
Definition setCustomMargins (newCustomMargins : QMargins) : Op unit :=
  w <- this ;;
  when (negb (QMargins_eqb newCustomMargins (d_customMargins (m_data w))))
       (let oldCustomMargins := d_customMargins (m_data w) in
        update (fun w => with_data (data_with_customMargins newCustomMargins (m_data w)) w) ;;
        currentFrameGeometry <- frameGeometry_sys ;;
        let topLeft := Rect.topLeft currentFrameGeometry in
        let newFrame :=
          Rect.moveTopLeft
            (Rect.marginsAdded (Rect.marginsRemoved currentFrameGeometry oldCustomMargins)
                               newCustomMargins)
            topLeft in
        setFlag FrameDirty ;;
        h <- handle ;;
        native (SetWindowPos h 0 (Rect.x newFrame) (Rect.y newFrame)
                             (Rect.width newFrame) (Rect.height newFrame)
                             (Z.lor SWP_NOZORDER SWP_FRAMECHANGED))).

Definition normalGeometry : Op QRect :=
  w <- this ;;
  h <- handle ;;
  let fakeFullScreen :=
    Rect.isValid (m_savedFrameGeometry w)
    && Qt.WindowState_eqb (w_windowState (m_window w)) Qt.WindowFullScreen in
  frame_ <- (if fakeFullScreen then ret (m_savedFrameGeometry w)
             else query (fun d => normalFrameGeometry d h)) ;;
  margins <- (if fakeFullScreen then frame (m_savedStyle w) 0 else frameMargins) ;;
  ret (if Rect.isValid frame_ then Rect.marginsRemoved frame_ margins else frame_).

(** *** Changing the window flags of an existing handle *)



(** *** Size constraints *)

Definition toNativeSizeConstrained (dip : QSize) (w : QWindow) : QSize :=
  if highDpiScalingActive then
    let width := if (0 <? sw dip) && (sw dip <? QWINDOWSIZE_MAX)
                 then scaledBy w (sw dip) else sw dip in
    let height := if (0 <? sh dip) && (sh dip <? QWINDOWSIZE_MAX)
                  then scaledBy w (sh dip) else sh dip in
    mkQSize width height
  else dip.

(** The constructor QWindowsGeometryHint(w, cm). *)
Definition QWindowsGeometryHint_new (w : QWindow) (cm : QMargins) : QWindowsGeometryHint :=
  mkHint (toNativeSizeConstrained (w_minimumSize w) w)
         (toNativeSizeConstrained (w_maximumSize w) w) cm.

Definition applyToMinMaxInfo (hint : QWindowsGeometryHint) (style exStyle : Z)
    (mmi : MINMAXINFO) : Op MINMAXINFO :=
  margins <- frame style exStyle ;;
  let cm := customMargins hint in
  let frameWidth := m_left margins + m_right margins + m_left cm + m_right cm in
  let frameHeight := m_top margins + m_bottom margins + m_top cm + m_bottom cm in
  let minX := if 0 <? sw (minimumSize hint)
              then sw (minimumSize hint) + frameWidth else px (ptMinTrackSize mmi) in
  let minY := if 0 <? sh (minimumSize hint)
              then sh (minimumSize hint) + frameHeight else py (ptMinTrackSize mmi) in
  let maximumWidth := Z.max (sw (maximumSize hint)) (sw (minimumSize hint)) in
  let maximumHeight := Z.max (sh (maximumSize hint)) (sh (minimumSize hint)) in
  let maxX := if maximumWidth <? QWINDOWSIZE_MAX
              then maximumWidth + frameWidth else px (ptMaxTrackSize mmi) in
  let maxY := if maximumHeight <? QWINDOWSIZE_MAX
              then maximumHeight + frameHeight else py (ptMaxTrackSize mmi) in
  ret (mkMINMAXINFO (ptReserved mmi) (ptMaxSize mmi) (ptMaxPosition mmi)
                    (mkQPoint minX minY) (mkQPoint maxX maxY)).

(** The overload on a handle reads the two style words as DWORDs. *)
Definition applyToMinMaxInfo_hwnd (hint : QWindowsGeometryHint) (hwnd : HWND)
    (mmi : MINMAXINFO) : Op MINMAXINFO :=
  s <- query (fun d => u32 (GetWindowLongPtr d hwnd GWL_STYLE)) ;;
  e <- query (fun d => u32 (GetWindowLongPtr d hwnd GWL_EXSTYLE)) ;;
  applyToMinMaxInfo hint s e mmi.

Definition getSizeHints (mmi : MINMAXINFO) : Op MINMAXINFO :=
  w <- this ;;
  let hint := QWindowsGeometryHint_new (m_window w) (d_customMargins (m_data w)) in
  mmi1 <- applyToMinMaxInfo_hwnd hint (d_hwnd (m_data w)) mmi ;;
  within <- testFlag WithinMaximize ;;
  if (within || Qt.WindowState_eqb (w_windowState (m_window w)) Qt.WindowMinimized)
     && has (d_flags (m_data w)) Qt.FramelessWindowHint then
    primary <- query primaryScreen ;;
    match w_screen (m_window w) with
    | Some screen =>
        if match primary with
           | Some p => screen_id screen =? screen_id p
           | None => false
           end
        then
          let availableGeometry :=
            screenToNativePixels (screen_availableGeometry screen) screen in
          ret (mkMINMAXINFO (ptReserved mmi1)
                 (mkQPoint (Rect.width availableGeometry) (Rect.height availableGeometry))
                 (mkQPoint (Rect.x availableGeometry) (Rect.y availableGeometry))
                 (ptMinTrackSize mmi1) (ptMaxTrackSize mmi1))
        else ret mmi1
    | None =>
        qWarning "window()->screen() returned a null screen"%string ;; ret mmi1
    end
  else ret mmi1.

(** *** The creation context *)

Record QWindowCreationContext : Type := mkContext {
  ctx_geometryHint : QWindowsGeometryHint;
  ctx_style : Z;
  ctx_exStyle : Z;
  requestedGeometry : QRect;
  obtainedGeometry : QRect;
  ctx_margins : QMargins;
  ctx_customMargins : QMargins;
  frameX : Z;
  frameY : Z;
  frameWidth : Z;
  frameHeight : Z
}.

(** The constructor QWindowCreationContext(w, geometry, cm, style, exStyle). *)
Definition QWindowCreationContext_new (w : QWindow) (geometry : QRect) (cm : QMargins)
    (style_ exStyle_ : Z) : Op QWindowCreationContext :=
  margins <- frame style_ exStyle_ ;;
  let hint := QWindowsGeometryHint_new w cm in
  if Rect.isValid geometry then
    let frameX := Rect.x geometry in
    let frameY := Rect.y geometry in
    let effectiveMargins := QMargins_add margins cm in
    let frameWidth := m_left effectiveMargins + Rect.width geometry
                      + m_right effectiveMargins in
    let frameHeight := m_top effectiveMargins + Rect.height geometry
                       + m_bottom effectiveMargins in
    let isDefaultPosition := (frameX =? 0) && (frameY =? 0) && w_isTopLevel w in
    let moved := negb (w_positionIncludesFrame w) && negb isDefaultPosition in
    ret (mkContext hint style_ exStyle_ geometry geometry margins cm
                   (if moved then frameX - m_left effectiveMargins else frameX)
                   (if moved then frameY - m_top effectiveMargins else frameY)
                   frameWidth frameHeight)
  else
    ret (mkContext hint style_ exStyle_ geometry geometry margins cm
                   CW_USEDEFAULT CW_USEDEFAULT CW_USEDEFAULT CW_USEDEFAULT).

(** *** Non-client hit test

    The result is [Some code] when the function returns true with
    [*result = code], and [None] when it returns false. *)
Definition handleNonClientHitTest (globalPos : QPoint) : Op (option Z) :=
  w0 <- this ;;
  let w := m_window w0 in
  if negb (w_isTopLevel w)
     || (negb (Qt.WindowState_eqb (m_windowState w0) Qt.WindowNoState)
         && negb (Qt.WindowState_eqb (m_windowState w0) Qt.WindowActive))
     || has (d_flags (m_data w0)) Qt.FramelessWindowHint
  then ret None
  else
    let minimumSize := w_minimumSize w in
    if QSize_isEmpty minimumSize then ret None
    else
      let maximumSize := w_maximumSize w in
      let fixedWidth := sw minimumSize =? sw maximumSize in
      let fixedHeight := sh minimumSize =? sh maximumSize in
      if negb fixedWidth && negb fixedHeight then ret None
      else
        let localPos := window_mapFromGlobal w (fromNativePixels globalPos w) in
        let size := mkQSize (w_width w) (w_height w) in
        if fixedHeight && (py localPos >=? sh size) then ret (Some HTBORDER)
        else
          caption <- (if fixedHeight && (py localPos <? 0) then
                        margins <- frameMargins ;;
                        let topResizeBarPos := m_left margins - m_top margins in
                        ret (py localPos <? topResizeBarPos)
                      else ret false) ;;
          if caption then ret (Some HTCAPTION)
          else if fixedWidth && ((px localPos <? 0) || (px localPos >=? sw size))
               then ret (Some HTBORDER)
               else ret None.

(** *** Notifications from the host *)

Definition handleHidden : Op unit := fireExpose [] false.

(** The loop of handleWindowStateChange over the other windows: a visible
    transient child with a layered platform window is sent an expose event
    for its whole area.  The flag word of that other platform window is
    not part of this machine.  Returns whether an event was sent. *)
Fixpoint exposeTransientChildren (w : QWindow) (children : list OtherWindow) : Op bool :=
  match children with
  | [] => ret false
  | child :: rest =>
      sent <- (if negb (o_ptr child =? w_ptr w) && o_isVisible child
                  && match o_transientParent child with
                     | Some tp => tp =? w_ptr w
                     | None => false
                     end
               then
                 match o_platform child with
                 | Some hwnd =>
                     layered <- query (fun d =>
                                  has (GetWindowLongPtr d hwnd GWL_EXSTYLE) WS_EX_LAYERED) ;;
                     if layered then
                       notify (handleExposeEvent (o_ptr child)
                                 (QRegion_ofRect (Rect.make 0 0 (o_width child)
                                                            (o_height child)))) ;;
                       ret true
                     else ret false
                 | None => ret false
                 end
               else ret false) ;;
      more_ <- exposeTransientChildren w rest ;;
      ret (sent || more_)
  end.

Definition handleWindowStateChange (state : Qt.WindowState) : Op unit :=
  setFlag FrameDirty ;;
  update (with_windowState state) ;;
  w <- window ;;
  notify (handleWindowStateChanged (w_ptr w) state) ;;
  if Qt.WindowState_eqb state Qt.WindowMinimized then
    handleHidden ;;
    notify flushWindowSystemEvents
  else if Qt.WindowState_eqb state Qt.WindowMaximized
          || Qt.WindowState_eqb state Qt.WindowFullScreen
          || Qt.WindowState_eqb state Qt.WindowNoState then
    layered <- isLayered ;;
    when layered
         (fireExpose (QRegion_ofRect (Rect.make 0 0 (w_width w) (w_height w))) false) ;;
    children <- query allWindows ;;
    sentToChildren <- exposeTransientChildren w children ;;
    async <- query asyncExpose ;;
    when ((layered || sentToChildren) && negb async) (notify flushWindowSystemEvents)
  else ret tt.

Definition isFullScreen_sys : Op bool :=
  w <- window ;;
  if negb (w_isTopLevel w) then ret false
  else
    primary <- query primaryScreen ;;
    let screen := match w_screen w with Some s => Some s | None => primary end in
    match screen with
    | Some s =>
        g <- geometry_sys ;;
        ret (Rect.eqb g (toNativePixels (screen_geometry s) w))
    | None => ret false
    end.

Definition handleResized (wParam : Z) : Op unit :=
  if (wParam =? SIZE_MAXHIDE) || (wParam =? SIZE_MAXSHOW) then ret tt
  else if wParam =? SIZE_MINIMIZED then handleWindowStateChange Qt.WindowMinimized
  else if wParam =? SIZE_MAXIMIZED then
    handleWindowStateChange Qt.WindowMaximized ;;
    handleGeometryChange
  else if wParam =? SIZE_RESTORED then
    fs <- isFullScreen_sys ;;
    (if fs then handleWindowStateChange Qt.WindowFullScreen
     else
       w0 <- this ;;
       toFs <- testFlag MaximizeToFullScreen ;;
       when (negb (Qt.WindowState_eqb (m_windowState w0) Qt.WindowNoState) && negb toFs)
            (handleWindowStateChange Qt.WindowNoState)) ;;
    handleGeometryChange
  else ret tt.

Definition handleMoved : Op unit :=
  h <- handle ;;
  iconic <- query (fun d => IsIconic d h) ;;
  within <- testFlag WithinSetParent ;;
  when (negb iconic && negb within) handleGeometryChange.

(** An operation is quiet when it never acts on the host: its trace holds
    no native call and the desktop is the one it started from. *)
Definition quiet {A : Type} (c : Op A) : Prop :=
  forall m, List.filter isNative (effects (c m)) = []
            /\ desktop (after (c m)) = desktop m.

End Program.

(** *** QWindowsForeignWindow::setParent

    A foreign window is not a QWindowsWindow: the function runs on the
    desktop and the foreign window object and returns the calls issued. *)

Inductive ForeignCall : Type :=
| SetParent (hwnd newParent : HWND)
| ForeignNative (c : NativeCall).

Section Foreign.
Context {host : Host} {more : HostMore}.

(** Modelled from the spec: [parentHwnd()], inline in qwindowswindow.h (not
    among the sources): the "native parent-handle lookup", the GA_PARENT
    ancestor of the handle. *)
Definition parentHwnd (d : Desktop) (hwnd : HWND) : HWND := GetAncestor d hwnd GA_PARENT.

Definition isTopLevel_sys (d : Desktop) (hwnd : HWND) : bool :=
  let parent := parentHwnd d hwnd in
  (parent =? 0) || (parent =? GetDesktopWindow d).

Definition foreign_setParent (newParentWindow : option HWND) (d : Desktop)
    (f : QWindowsForeignWindow) : QWindowsForeignWindow * Desktop * list ForeignCall :=
  let wasTopLevel := isTopLevel_sys d (f_hwnd f) in
  let newParent := match newParentWindow with Some winId => winId | None => 0 end in
  let isTopLevel := newParent =? 0 in
  let oldStyle := u32 (GetWindowLongPtr d (f_hwnd f) GWL_STYLE) in
  let d1 := sys_SetParent d (f_hwnd f) newParent in
  if negb (Bool.eqb wasTopLevel isTopLevel) then
    let f1 := if isTopLevel then f else mkForeign (f_hwnd f) oldStyle in
    let newStyle :=
      if isTopLevel then m_topLevelStyle f
      else Z.lor (Z.land oldStyle (Z.lnot (Z.lor WS_OVERLAPPEDWINDOW WS_POPUPWINDOW)))
                 WS_CHILD in
    (f1, sys_call d1 (SetWindowLongPtr (f_hwnd f) GWL_STYLE newStyle),
     [SetParent (f_hwnd f) newParent;
      ForeignNative (SetWindowLongPtr (f_hwnd f) GWL_STYLE newStyle)])
  else (f, d1, [SetParent (f_hwnd f) newParent]).

End Foreign.

Arguments Op {host} A.
Arguments QWindowsWindow {host}.
Arguments Machine {host}.

(** ** A reference host

    A desktop with one native window whose style words, rectangle,
    placement and capture are plain registers: a style write is read back,
    SetWindowPos and MoveWindow store the rectangle they are given, a show
    command is recorded in the placement and sets or clears WS_VISIBLE.
    Opacity is counted in thousandths.  The general theorems below hold for
    every host; this one serves to evaluate the program on concrete
    windows. *)
Module Reference.

Record Desk : Type := mkDesk {
  k_style : Z;
  k_exStyle : Z;
  k_rect : RECT;
  k_normal : RECT;
  k_showCmd : Z;
  k_capture : HWND
}.

Definition store (d : Desk) (c : NativeCall) : Desk :=
  match c with
  | SetWindowLongPtr _ i v | SetWindowLong _ i v =>
      if i =? GWL_STYLE
      then mkDesk v (k_exStyle d) (k_rect d) (k_normal d) (k_showCmd d) (k_capture d)
      else if i =? GWL_EXSTYLE
      then mkDesk (k_style d) v (k_rect d) (k_normal d) (k_showCmd d) (k_capture d)
      else d
  | SetWindowPos _ _ x y cx cy fl =>
      let r := k_rect d in
      let x' := if has fl SWP_NOMOVE then r_left r else x in
      let y' := if has fl SWP_NOMOVE then r_top r else y in
      let w' := if has fl SWP_NOSIZE then r_right r - r_left r else cx in
      let h' := if has fl SWP_NOSIZE then r_bottom r - r_top r else cy in
      let st := if has fl SWP_HIDEWINDOW
                then Z.land (k_style d) (Z.lnot WS_VISIBLE) else k_style d in
      mkDesk st (k_exStyle d) (mkRECT x' y' (x' + w') (y' + h'))
             (k_normal d) (k_showCmd d) (k_capture d)
  | ShowWindow _ cmd =>
      let st := if cmd =? SW_HIDE
                then Z.land (k_style d) (Z.lnot WS_VISIBLE)
                else Z.lor (k_style d) WS_VISIBLE in
      mkDesk st (k_exStyle d) (k_rect d) (k_normal d) cmd (k_capture d)
  | MoveWindow _ x y w h _ =>
      mkDesk (k_style d) (k_exStyle d) (mkRECT x y (x + w) (y + h))
             (k_normal d) (k_showCmd d) (k_capture d)
  | SetWindowPlacement _ wp =>
      mkDesk (k_style d) (k_exStyle d) (k_rect d) (rcNormalPosition wp)
             (showCmd wp) (k_capture d)
  | SetCapture h =>
      mkDesk (k_style d) (k_exStyle d) (k_rect d) (k_normal d) (k_showCmd d) h
  | ReleaseCapture =>
      mkDesk (k_style d) (k_exStyle d) (k_rect d) (k_normal d) (k_showCmd d) 0
  | _ => d
  end.

(** Frame added by the reference host: a sizing border of 8 and a caption
    of 23 more at the top. *)
Definition adjust (r : RECT) (style : Z) : RECT :=
  let b := if has style WS_THICKFRAME then 8 else 0 in
  let c := if Z.land style WS_CAPTION =? WS_CAPTION then 23 else 0 in
  mkRECT (r_left r - b) (r_top r - b - c) (r_right r + b) (r_bottom r + b).

Definition theScreen : QScreen :=
  mkQScreen 1 (Rect.make 0 0 1920 1080) (Rect.make 0 0 1920 1040).

Definition host : Host := {|
  Desktop := Desk;
  qreal := Z;
  QIcon := Z;
  sys_call := store;
  GetWindowLongPtr := fun d _ i =>
    if i =? GWL_STYLE then k_style d
    else if i =? GWL_EXSTYLE then k_exStyle d else 0;
  IsWindowVisible := fun d _ => has (k_style d) WS_VISIBLE;
  GetWindowPlacement := fun d _ => (true, mkWINDOWPLACEMENT (k_showCmd d) (k_normal d));
  GetWindowRect := fun d _ => k_rect d;
  GetParent := fun _ _ => 0;
  ScreenToClient := fun _ _ p => p;
  GetAncestor := fun _ _ _ => 0;
  GetDesktopWindow := fun _ => 0;
  GetCapture := k_capture;
  GetSystemMenu := fun _ h => h;
  GetSystemMetrics := fun _ i => if (i =? SM_CXICON) || (i =? SM_CYICON) then 32 else 16;
  AdjustWindowRectEx := fun r style _ _ => (true, adjust r style);
  hint_mapToGlobal := fun d _ p =>
    mkQPoint (px p + r_left (k_rect d)) (py p + r_top (k_rect d));
  hint_mapFromGlobal := fun d _ p =>
    mkQPoint (px p - r_left (k_rect d)) (py p - r_top (k_rect d));
  screens := fun _ => [theScreen];
  screenAtDp := fun _ _ => Some theScreen;
  primaryScreen := fun _ => Some theScreen;
  focusWindow := fun _ => false;
  toNativePixels := fun r _ => r;
  screenForGeometry := fun _ _ _ => 1;
  qFuzzyCompare := Z.eqb;
  qreal_lt_1 := fun o => o <? 1000;
  alphaByte := fun o => (255 * o + 500) / 1000;
  createHIcon := fun _ icon _ _ => icon;
  dwmResolved := fun _ => true
|}.

(** *** Concrete windows on the reference host *)

(** A toolkit window of the given flags and state: top level, on the
    screen, 640 x 480, no size constraint. *)
Definition toolkitWindow (flags : Z) (state : Qt.WindowState) : QWindow :=
  mkQWindow 1 flags state true None None (Some theScreen) 640 480
            (mkQSize 0 0) (mkQSize QWINDOWSIZE_MAX QWINDOWSIZE_MAX)
            None None RasterSurface false false false.

Definition windowFlags : Z := fixTopLevelWindowFlags Qt.Window.
Definition dialogFlags : Z := fixTopLevelWindowFlags Qt.Dialog.
Definition toolFlags : Z := fixTopLevelWindowFlags Qt.Tool.

(** The native style fromWindow gives such a window, shown. *)
Definition shownStyle (flags : Z) : Z :=
  Z.lor (c_style (fromWindow WindowCreationData_new
                    (toolkitWindow flags Qt.WindowNoState) flags 0))
        WS_VISIBLE.

Definition normalRect : RECT := mkRECT 100 100 740 580.
Definition maximizedRect : RECT := mkRECT (-8) (-8) 1928 1048.

(** The platform window of [w] on handle [hwnd], freshly constructed, in
    state [state], with the given flag word and custom margins. *)
Definition platformWindow (w : QWindow) (hwnd : HWND) (state : Qt.WindowState)
    (flagWord : Z) (custom : QMargins) : @QWindowsWindow host :=
  @mkWindow host w (mkData (w_flags w) (Rect.make 108 131 624 441)
                     (mkQMargins 8 31 8 8) custom hwnd false)
           flagWord state (1000 : @qreal host) 0 Rect.null 0 0
           (Rect.make 108 131 624 441).

(** A shown, normal, decorated window. *)
Definition normalMachine : @Machine host :=
  @mkMachine host (mkDesk (shownStyle windowFlags) 0 normalRect normalRect SW_SHOWNORMAL 0)
            (platformWindow (toolkitWindow windowFlags Qt.WindowNoState) 1
                            Qt.WindowNoState (flagMask Exposed) QMargins_zero)
            None.

(** The same window maximized: the host reports the maximized rectangle
    and keeps the normal one in the placement. *)
Definition maximizedMachine : @Machine host :=
  @mkMachine host (mkDesk (shownStyle windowFlags) 0 maximizedRect normalRect
                    SW_SHOWMAXIMIZED 0)
            (platformWindow (toolkitWindow windowFlags Qt.WindowMaximized) 1
                            Qt.WindowMaximized (flagMask Exposed) QMargins_zero)
            None.

(** A dialog and a tool window about to be shown maximized. *)
Definition dialogMachine : @Machine host :=
  @mkMachine host (mkDesk (shownStyle dialogFlags) 0 normalRect normalRect SW_SHOWNORMAL 0)
            (platformWindow (toolkitWindow dialogFlags Qt.WindowMaximized) 1
                            Qt.WindowNoState 0 QMargins_zero)
            None.

Definition toolMachine : @Machine host :=
  @mkMachine host (mkDesk (shownStyle toolFlags) 0 normalRect normalRect SW_SHOWNORMAL 0)
            (platformWindow (toolkitWindow toolFlags Qt.WindowMaximized) 1
                            Qt.WindowNoState 0 QMargins_zero)
            None.

(** A window that was never realized: its handle is null. *)
Definition unrealizedMachine : @Machine host :=
  @mkMachine host (mkDesk 0 0 (mkRECT 0 0 0 0) (mkRECT 0 0 0 0) SW_HIDE 0)
            (platformWindow (toolkitWindow windowFlags Qt.WindowNoState) 0
                            Qt.WindowNoState 0 QMargins_zero)
            None.

(** An exposed window whose native rectangle has shrunk to 400 x 300
    since the geometry was last recorded (624 x 441). *)
Definition shrunkRect : RECT := mkRECT 100 100 516 439.

Definition shrunkMachine (flagWord : Z) : @Machine host :=
  @mkMachine host (mkDesk (shownStyle windowFlags) 0 shrunkRect shrunkRect SW_SHOWNORMAL 0)
            (platformWindow (toolkitWindow windowFlags Qt.WindowNoState) 1
                            Qt.WindowNoState flagWord QMargins_zero)
            None.

(** A frameless window with the given flag word and custom margins; its
    cached frame is zero. *)
Definition framelessFlags : Z := Z.lor Qt.Window Qt.FramelessWindowHint.

Definition framelessMachine (flagWord : Z) (custom : QMargins) : @Machine host :=
  let w := platformWindow (toolkitWindow framelessFlags Qt.WindowNoState) 1
                          Qt.WindowNoState flagWord custom in
  @mkMachine host
    (mkDesk (shownStyle framelessFlags) 0 normalRect normalRect SW_SHOWNORMAL 0)
    (with_data (data_with_frame QMargins_zero (m_data w)) w)
    None.

(** A full-screen window with a pending record. *)
Definition pendingMachine : @Machine host :=
  @mkMachine host (mkDesk (Z.lor (Z.lor (Z.lor WS_CLIPCHILDREN WS_CLIPSIBLINGS) WS_POPUP)
                       WS_VISIBLE) 0
                    (mkRECT 0 0 1920 1080) normalRect SW_SHOWNORMAL 0)
            (with_savedFrameGeometry (qrectFromRECT normalRect)
               (with_savedStyle (shownStyle windowFlags)
                  (platformWindow (toolkitWindow windowFlags Qt.WindowFullScreen) 1
                                  Qt.WindowFullScreen 0 QMargins_zero)))
            None.

Definition boxHint : QWindowsGeometryHint :=
  mkHint (mkQSize 10 20) (mkQSize 100 200) QMargins_zero.

(** *** The further services on the reference host

    A window is iconic when its placement says minimized; reparenting is
    not tracked; there is no scaling; local positions are relative to the
    client origin (108, 131) of the concrete windows.  The other toolkit
    windows are a visible and a hidden transient child of window 1, and
    window 1 itself. *)
Definition otherWindows : list OtherWindow :=
  [mkOtherWindow 2 true (Some 1) (Some 2) 200 100;
   mkOtherWindow 3 false (Some 1) (Some 3) 50 50;
   mkOtherWindow 1 true None (Some 1) 640 480].

Definition isIconic (d : Desk) (h : HWND) : bool := k_showCmd d =? SW_SHOWMINIMIZED.

#[export] Instance more : @HostMore host := {|
  IsIconic := isIconic : @Desktop host -> HWND -> bool;
  sys_SetParent := fun d _ _ => d;
  allWindows := fun _ => otherWindows;
  asyncExpose := fun _ => false;
  window_mapFromGlobal := fun _ p => mkQPoint (px p - 108) (py p - 131);
  fromNativePixels := fun p _ => p;
  screenToNativePixels := fun r _ => r;
  highDpiScalingActive := false;
  scaledBy := fun _ z => z
|}.

(** A realized window that is not shown. *)
Definition hiddenMachine : @Machine host :=
  @mkMachine host
    (mkDesk (c_style (fromWindow WindowCreationData_new
                        (toolkitWindow windowFlags Qt.WindowNoState) windowFlags 0))
            0 normalRect normalRect SW_HIDE 0)
    (platformWindow (toolkitWindow windowFlags Qt.WindowNoState) 1
                    Qt.WindowNoState 0 QMargins_zero)
    None.

(** The normal window while its style is being written. *)
Definition styleWriteMachine : @Machine host :=
  shrunkMachine (Z.lor (flagMask Exposed) (flagMask WithinSetStyle)).

(** A frameless toolkit window, a popup and a window asked to stay both
    on top and at the bottom. *)
Definition framelessWindow : QWindow := toolkitWindow framelessFlags Qt.WindowNoState.
Definition popupWindow : QWindow := toolkitWindow Qt.Popup Qt.WindowNoState.
Definition conflictingFlags : Z :=
  Z.lor Qt.Window (Z.lor Qt.WindowStaysOnTopHint Qt.WindowStaysOnBottomHint).

End Reference.

(** ** A host that tracks the parent of one native window

    The desktop is the style word and the parent of the window; a window
    given no parent becomes a child of the desktop window.  It serves to
    evaluate the reparenting of a foreign window. *)
Module Parented.

Record Desk : Type := mkDesk {
  p_style : Z;
  p_parent : HWND
}.

Definition desktopWindow : HWND := 0x10010.

Definition store (d : Desk) (c : NativeCall) : Desk :=
  match c with
  | SetWindowLongPtr _ i v | SetWindowLong _ i v =>
      if i =? GWL_STYLE then mkDesk v (p_parent d) else d
  | _ => d
  end.

Definition host : Host := {|
  Desktop := Desk;
  qreal := Z;
  QIcon := Z;
  sys_call := store;
  GetWindowLongPtr := fun d _ i => if i =? GWL_STYLE then p_style d else 0;
  IsWindowVisible := fun d _ => has (p_style d) WS_VISIBLE;
  GetWindowPlacement := fun _ _ =>
    (true, mkWINDOWPLACEMENT SW_SHOWNORMAL (mkRECT 0 0 100 100));
  GetWindowRect := fun _ _ => mkRECT 0 0 100 100;
  GetParent := fun d _ => if p_parent d =? desktopWindow then 0 else p_parent d;
  ScreenToClient := fun _ _ p => p;
  GetAncestor := fun d _ _ => p_parent d;
  GetDesktopWindow := fun _ => desktopWindow;
  GetCapture := fun _ => 0;
  GetSystemMenu := fun _ h => h;
  GetSystemMetrics := fun _ _ => 16;
  AdjustWindowRectEx := fun r style _ _ => (true, Reference.adjust r style);
  hint_mapToGlobal := fun _ _ p => p;
  hint_mapFromGlobal := fun _ _ p => p;
  screens := fun _ => [Reference.theScreen];
  screenAtDp := fun _ _ => Some Reference.theScreen;
  primaryScreen := fun _ => Some Reference.theScreen;
  focusWindow := fun _ => false;
  toNativePixels := fun r _ => r;
  screenForGeometry := fun _ _ _ => 1;
  qFuzzyCompare := Z.eqb;
  qreal_lt_1 := fun o => o <? 1000;
  alphaByte := fun o => (255 * o + 500) / 1000;
  createHIcon := fun _ icon _ _ => icon;
  dwmResolved := fun _ => true
|}.

Definition reparent (d : Desk) (hwnd newParent : HWND) : Desk :=
  mkDesk (p_style d) (if newParent =? 0 then desktopWindow else newParent).

Definition more : @HostMore host := {|
  IsIconic := fun _ _ => false;
  sys_SetParent := reparent : @Desktop host -> HWND -> HWND -> @Desktop host;
  allWindows := fun _ => [];
  asyncExpose := fun _ => false;
  window_mapFromGlobal := fun _ p => p;
  fromNativePixels := fun p _ => p;
  screenToNativePixels := fun r _ => r;
  highDpiScalingActive := false;
  scaledBy := fun _ z => z
|}.

(** A foreign top-level window with an overlapped style, and its handle
    wrapped by the plugin. *)
Definition topLevelDesk : Desk :=
  mkDesk (Z.lor WS_OVERLAPPEDWINDOW WS_VISIBLE) desktopWindow.
Definition foreignWindow : QWindowsForeignWindow := mkForeign 7 0.

End Parented.

(** * Properties *)

Section Proofs.
Context {host : Host}.

#[local] Arguments flagMask : simpl never.
#[local] Arguments has : simpl never.
#[local] Arguments u32 : simpl never.
#[local] Arguments Z.land : simpl never.
#[local] Arguments Z.lor : simpl never.
#[local] Arguments Z.lnot : simpl never.
#[local] Arguments geometry_sys : simpl never.

(** ** Reasoning principles for operations *)

Lemma state_eta (w : QWindowsWindow) :
  mkWindow (m_window w) (m_data w) (m_flags w) (m_windowState w) (m_opacity w)
           (m_savedStyle w) (m_savedFrameGeometry w) (m_iconSmall w)
           (m_iconBig w) (base_rect w) = w.
Proof. destruct w; reflexivity. Qed.

Lemma machine_eta (m : Machine) :
  mkMachine (desktop m) (self m) (keyGrabber m) = m.
Proof. destruct m; reflexivity. Qed.

Lemma WindowState_eqb_eq (a b : Qt.WindowState) :
  Qt.WindowState_eqb a b = true <-> a = b.
Proof.
  split.
  - destruct a, b; cbv; congruence.
  - intros ->. apply Z.eqb_refl.
Qed.

Lemma WindowState_eqb_refl (a : Qt.WindowState) : Qt.WindowState_eqb a a = true.
Proof. apply WindowState_eqb_eq; reflexivity. Qed.

(** Unfolding of the monadic plumbing. *)
Ltac adjust_cases :=
  match goal with
  | |- context [AdjustWindowRectEx ?r ?s ?b ?e] =>
      destruct (AdjustWindowRectEx r s b e) as [[|] ?rect]
  end.

Ltac plumbing :=
  cbv [bind ret this update query native notify qWarning when window handle
       testFlag setFlag clearFlag result after effects].

(** ** validSize *)

Lemma validSize_iff (hint : QWindowsGeometryHint) (s : QSize) :
  validSize hint s = true <->
  sw (minimumSize hint) <= sw s <= sw (maximumSize hint) /\
  sh (minimumSize hint) <= sh s <= sh (maximumSize hint).
Proof.
  unfold validSize.
  rewrite !andb_true_iff, !Z.geb_le, !Z.leb_le. lia.
Qed.

(** C8. For a geometry hint whose minimum is below its maximum on both axes,
    [validSize] accepts every size of the closed box [min, max] and rejects
    every size that is strictly below the minimum or strictly above the
    maximum on at least one axis. *)
Theorem validSize_box (hint : QWindowsGeometryHint) (s : QSize)
    (Hw : sw (minimumSize hint) <= sw (maximumSize hint))
    (Hh : sh (minimumSize hint) <= sh (maximumSize hint)) :
  (sw (minimumSize hint) <= sw s <= sw (maximumSize hint) ->
   sh (minimumSize hint) <= sh s <= sh (maximumSize hint) ->
   validSize hint s = true)
  /\
  (sw s < sw (minimumSize hint) \/ sw (maximumSize hint) < sw s \/
   sh s < sh (minimumSize hint) \/ sh (maximumSize hint) < sh s ->
   validSize hint s = false).
Proof.
  split.
  - intros Hx Hy. apply validSize_iff. split; assumption.
  - intros Hout. apply not_true_is_false. intros Hv.
    apply validSize_iff in Hv. lia.
Qed.

(** ** Coordinate mapping *)

(** C10. On a window whose native handle is null, [mapToGlobal] and
    [mapFromGlobal] return the point they are given; the machine is left as
    it was and nothing is issued. *)
Theorem map_without_handle_is_identity (m : Machine) (p : QPoint)
    (Hnull : d_hwnd (m_data (self m)) = 0) :
  mapToGlobal p m = (p, m, []) /\ mapFromGlobal p m = (p, m, []).
Proof.
  unfold mapToGlobal, mapFromGlobal. plumbing.
  rewrite Hnull. cbn. split; reflexivity.
Qed.

(** ** Idempotence of setWindowState *)

(** C3. When the window is already in state [S], [setWindowState S] issues
    nothing (no native call, no event, no warning) and leaves the whole
    machine, the saved style and saved frame geometry included, as it was. *)
Theorem setWindowState_same_state (m : Machine) (S : Qt.WindowState)
    (Hcur : m_windowState (self m) = S) :
  setWindowState S m = (tt, m, []) /\
  filter isNative (effects (setWindowState S m)) = [] /\
  m_savedStyle (self (after (setWindowState S m))) = m_savedStyle (self m) /\
  m_savedFrameGeometry (self (after (setWindowState S m)))
    = m_savedFrameGeometry (self m).
Proof.
  assert (E : setWindowState S m = (tt, m, [])).
  { unfold setWindowState, setWindowState_sys. plumbing.
    destruct (d_hwnd (m_data (self m)) =? 0); cbn.
    - reflexivity.
    - rewrite Hcur, WindowState_eqb_refl. cbn.
      subst S. unfold with_windowState. rewrite state_eta, machine_eta.
      reflexivity. }
  rewrite E. cbn. repeat split; reflexivity.
Qed.

(** ** The flag word *)

Lemma has_bit (w i : Z) : 0 <= i -> has w (Z.shiftl 1 i) = Z.testbit w i.
Proof.
  intros Hi. unfold has. rewrite Z.shiftl_1_l.
  assert (E : Z.land w (2 ^ i) = if Z.testbit w i then 2 ^ i else 0).
  { apply Z.bits_inj'. intros n Hn.
    rewrite Z.land_spec, Z.pow2_bits_eqb by lia.
    destruct (Z.eqb_spec i n) as [->|Hne].
    - destruct (Z.testbit w n); cbn.
      + rewrite Z.pow2_bits_eqb, Z.eqb_refl by lia. reflexivity.
      + rewrite Z.bits_0. reflexivity.
    - rewrite andb_false_r.
      destruct (Z.testbit w i).
      + rewrite Z.pow2_bits_eqb by lia.
        symmetry. apply Z.eqb_neq. assumption.
      + rewrite Z.bits_0. reflexivity. }
  rewrite E. destruct (Z.testbit w i); cbn.
  - destruct (Z.eqb_spec (2 ^ i) 0) as [E0|]; [|reflexivity].
    pose proof (Z.pow_pos_nonneg 2 i). lia.
  - reflexivity.
Qed.

Lemma flagBit_nonneg (f : Flag) : 0 <= flagBit f.
Proof. destruct f; cbv; congruence. Qed.

Lemma flagBit_inj (f g : Flag) : flagBit f = flagBit g -> f = g.
Proof. destruct f, g; cbv; congruence. Qed.

Lemma has_flag (w : Z) (f : Flag) : has w (flagMask f) = Z.testbit w (flagBit f).
Proof. apply has_bit, flagBit_nonneg. Qed.

Lemma has_set_other (w : Z) (f g : Flag) :
  f <> g -> has (Z.lor w (flagMask f)) (flagMask g) = has w (flagMask g).
Proof.
  intros Hne. rewrite !has_flag, Z.lor_spec.
  unfold flagMask. rewrite Z.shiftl_1_l, Z.pow2_bits_eqb by apply flagBit_nonneg.
  destruct (Z.eqb_spec (flagBit f) (flagBit g)) as [E|_].
  - apply flagBit_inj in E. contradiction.
  - apply orb_false_r.
Qed.

Lemma has_set_same (w : Z) (f : Flag) : has (Z.lor w (flagMask f)) (flagMask f) = true.
Proof.
  rewrite has_flag, Z.lor_spec. unfold flagMask.
  rewrite Z.shiftl_1_l, Z.pow2_bits_eqb, Z.eqb_refl by apply flagBit_nonneg.
  apply orb_true_r.
Qed.

Lemma has_clear_other (w : Z) (f g : Flag) :
  f <> g -> has (Z.land w (Z.lnot (flagMask f))) (flagMask g) = has w (flagMask g).
Proof.
  intros Hne. rewrite !has_flag, Z.land_spec, Z.lnot_spec by apply flagBit_nonneg.
  unfold flagMask. rewrite Z.shiftl_1_l, Z.pow2_bits_eqb by apply flagBit_nonneg.
  destruct (Z.eqb_spec (flagBit f) (flagBit g)) as [E|_].
  - apply flagBit_inj in E. contradiction.
  - apply andb_true_r.
Qed.

Lemma has_clear_same (w : Z) (f : Flag) :
  has (Z.land w (Z.lnot (flagMask f))) (flagMask f) = false.
Proof.
  rewrite has_flag, Z.land_spec, Z.lnot_spec by apply flagBit_nonneg.
  unfold flagMask. rewrite Z.shiftl_1_l, Z.pow2_bits_eqb, Z.eqb_refl by apply flagBit_nonneg.
  apply andb_false_r.
Qed.

(** ** Frame margins *)

Lemma QMargins_add_zero_l (c : QMargins) : QMargins_add (mkQMargins 0 0 0 0) c = c.
Proof. destruct c; reflexivity. Qed.

Lemma frameMargins_frameless_dirty (m : Machine) :
  has (d_flags (m_data (self m))) Qt.FramelessWindowHint = true ->
  has (m_flags (self m)) (flagMask FrameDirty) = true ->
  result (frameMargins m) = d_customMargins (m_data (self m)) /\
  effects (frameMargins m) = [].
Proof.
  intros Hfl Hdirty. unfold frameMargins. plumbing.
  rewrite Hdirty. cbn. rewrite Hfl. cbn.
  split; [apply QMargins_add_zero_l | reflexivity].
Qed.

Lemma frameMargins_clean (m : Machine) :
  has (m_flags (self m)) (flagMask FrameDirty) = false ->
  frameMargins m
  = (QMargins_add (d_frame (m_data (self m))) (d_customMargins (m_data (self m))), m, []).
Proof.
  intros Hclean. unfold frameMargins. plumbing. rewrite Hclean. reflexivity.
Qed.

Lemma frameMargins_frameless_cached (m : Machine) :
  has (m_flags (self m)) (flagMask FrameDirty) = false ->
  d_frame (m_data (self m)) = mkQMargins 0 0 0 0 ->
  result (frameMargins m) = d_customMargins (m_data (self m)) /\
  effects (frameMargins m) = [].
Proof.
  intros Hclean Hzero. rewrite (frameMargins_clean m Hclean). cbn.
  rewrite Hzero. split; [apply QMargins_add_zero_l | reflexivity].
Qed.

Lemma frameMargins_inputs (m m' : Machine) :
  marginInputs m' = marginInputs m ->
  result (frameMargins m') = result (frameMargins m).
Proof.
  unfold marginInputs. intros E. injection E as Ed Ef Es Ee Efr Ec.
  unfold frameMargins, frame, style, exStyle. plumbing.
  rewrite Ed.
  destruct (has (m_flags (self m)) (flagMask FrameDirty)); cbn.
  - rewrite Ef.
    destruct (has (d_flags (m_data (self m))) Qt.FramelessWindowHint); cbn.
    + rewrite Ec. reflexivity.
    + rewrite Es, Ee.
      adjust_cases; cbn; rewrite Ec; reflexivity.
  - rewrite Efr, Ec. reflexivity.
Qed.

(** C6 (as amended). For a window whose flags include the frameless hint
    and whose frame is either due for recomputation (FrameDirty set) or
    cached as zero, [frameMargins] returns exactly the custom margins,
    whatever the native style words are, hence zero on all four sides when
    no custom margins are set, and issues nothing.  With FrameDirty clear it
    returns the cached frame plus the custom margins.  For all windows the
    margins returned depend only on the dirty flag, the frameless hint, the
    two style words, the cached frame and the custom margins. *)
Theorem frameMargins_frameless (m : Machine) :
  (has (d_flags (m_data (self m))) Qt.FramelessWindowHint = true ->
   has (m_flags (self m)) (flagMask FrameDirty) = true
   \/ d_frame (m_data (self m)) = mkQMargins 0 0 0 0 ->
   result (frameMargins m) = d_customMargins (m_data (self m)) /\
   effects (frameMargins m) = [] /\
   (d_customMargins (m_data (self m)) = mkQMargins 0 0 0 0 ->
    result (frameMargins m) = mkQMargins 0 0 0 0))
  /\
  (has (m_flags (self m)) (flagMask FrameDirty) = false ->
   result (frameMargins m)
   = QMargins_add (d_frame (m_data (self m))) (d_customMargins (m_data (self m))))
  /\
  (forall m', marginInputs m' = marginInputs m ->
              result (frameMargins m') = result (frameMargins m)).
Proof.
  split; [|split].
  - intros Hfl Hfresh.
    assert (H : result (frameMargins m) = d_customMargins (m_data (self m)) /\
                effects (frameMargins m) = []).
    { destruct (has (m_flags (self m)) (flagMask FrameDirty)) eqn:Hd.
      - apply frameMargins_frameless_dirty; assumption.
      - destruct Hfresh as [Hdirty|Hzero]; [discriminate Hdirty|].
        apply frameMargins_frameless_cached; assumption. }
    destruct H as [Hr He].
    split; [assumption|]. split; [assumption|].
    intros Hc. rewrite Hr. assumption.
  - intros Hclean. rewrite (frameMargins_clean m Hclean). reflexivity.
  - intros m'. apply frameMargins_inputs.
Qed.

(** ** Geometry changes *)

Lemma QSize_eqb_eq (a b : QSize) : QSize_eqb a b = true <-> a = b.
Proof.
  unfold QSize_eqb. rewrite andb_true_iff, !Z.eqb_eq.
  destruct a, b; cbn. split.
  - intros [-> ->]. reflexivity.
  - intros E. injection E as -> ->. split; reflexivity.
Qed.

(** geometry_sys refreshes at most the cached frame and the dirty flag. *)
Lemma geometry_sys_spec (m : Machine) :
  exists w' t,
    geometry_sys m = (result (geometry_sys m), mkMachine (desktop m) w' (keyGrabber m), t)
    /\ m_window w' = m_window (self m)
    /\ d_geometry (m_data w') = d_geometry (m_data (self m))
    /\ (forall f, f <> FrameDirty ->
          has (m_flags w') (flagMask f) = has (m_flags (self m)) (flagMask f))
    /\ filter isExpose t = [].
Proof.
  destruct m as [d w k].
  unfold geometry_sys, frameGeometry_sys, isTopLevel, frameMargins, frame, style, exStyle.
  plumbing. cbn.
  destruct (has (m_flags w) (flagMask FrameDirty)) eqn:Hd; cbn.
  - destruct (has (d_flags (m_data w)) Qt.FramelessWindowHint); cbn;
      [|adjust_cases; cbn];
      (eexists; eexists; split; [reflexivity|]; cbn;
       repeat split; try reflexivity;
       intros f Hf; apply (has_clear_other _ FrameDirty f); congruence).
  - eexists; eexists; split; [reflexivity|].
    repeat split; reflexivity.
Qed.

(** C5 (as amended). When handleGeometryChange recomputes the geometry
    (WithinSetStyle clear), the new geometry is stored; if the window is
    exposed and is not an OpenGL ES2 window, the size changed and neither
    dimension grew, exactly one expose event is fired, for the rectangle
    (0, 0, new width, new height); if a dimension grew or the size is
    unchanged no expose event is fired, and none is fired for an OpenGL ES2
    window or a window that is not exposed. *)
Theorem shrink_triggers_expose (m : Machine)
    (Hcomputes : has (m_flags (self m)) (flagMask WithinSetStyle) = false) :
  let previous := d_geometry (m_data (self m)) in
  let g := result (geometry_sys m) in
  let exposes := filter isExpose (effects (handleGeometryChange m)) in
  d_geometry (m_data (self (after (handleGeometryChange m)))) = g
  /\
  (has (m_flags (self m)) (flagMask Exposed) = true ->
   has (m_flags (self m)) (flagMask OpenGL_ES2) = false ->
   Rect.size g <> Rect.size previous ->
   Rect.width g <= Rect.width previous ->
   Rect.height g <= Rect.height previous ->
   exposes = [Event (handleExposeEvent (w_ptr (m_window (self m)))
                       (QRegion_ofRect (Rect.make 0 0 (Rect.width g) (Rect.height g))))])
  /\
  (Rect.width g > Rect.width previous \/ Rect.height g > Rect.height previous
   \/ Rect.size g = Rect.size previous ->
   exposes = [])
  /\
  (has (m_flags (self m)) (flagMask OpenGL_ES2) = true
   \/ has (m_flags (self m)) (flagMask Exposed) = false ->
   exposes = []).
Proof.
  intros previous g exposes.
  destruct (geometry_sys_spec m) as (w' & t & Hg & Hw & Hprev & Hflags & Ht).
  fold g in Hg.
  assert (Hes2 := Hflags OpenGL_ES2 ltac:(congruence)).
  assert (Hexp := Hflags Exposed ltac:(congruence)).
  assert (Hsync := Hflags SynchronousGeometryChangeEvent ltac:(congruence)).
  subst exposes. unfold handleGeometryChange, isExposed, fireExpose. plumbing.
  rewrite Hcomputes. cbn. rewrite Hg. cbn.
  rewrite Hes2, Hexp. fold previous.
  set (cond := negb (has (m_flags (self m)) (flagMask OpenGL_ES2))
               && has (m_flags (self m)) (flagMask Exposed)
               && negb (QSize_eqb (Rect.size g) (Rect.size previous))
               && negb ((Rect.width g >? Rect.width previous)
                        || (Rect.height g >? Rect.height previous))).
  assert (Hyes : has (m_flags (self m)) (flagMask Exposed) = true ->
                 has (m_flags (self m)) (flagMask OpenGL_ES2) = false ->
                 Rect.size g <> Rect.size previous ->
                 Rect.width g <= Rect.width previous ->
                 Rect.height g <= Rect.height previous -> cond = true).
  { intros H1 H2 H3 H4 H5. subst cond. rewrite H1, H2. cbn.
    destruct (QSize_eqb (Rect.size g) (Rect.size previous)) eqn:Es.
    - apply QSize_eqb_eq in Es. contradiction.
    - cbn. rewrite !Z.gtb_ltb. apply negb_true_iff, orb_false_iff.
      split; apply Z.ltb_ge; lia. }
  assert (Hno1 : Rect.width g > Rect.width previous \/ Rect.height g > Rect.height previous
                 \/ Rect.size g = Rect.size previous -> cond = false).
  { intros H. subst cond. apply andb_false_iff.
    destruct H as [H|[H|H]].
    - right. apply negb_false_iff, orb_true_iff. left.
      rewrite Z.gtb_ltb. apply Z.ltb_lt. lia.
    - right. apply negb_false_iff, orb_true_iff. right.
      rewrite Z.gtb_ltb. apply Z.ltb_lt. lia.
    - left. apply andb_false_iff. right.
      apply negb_false_iff, QSize_eqb_eq. assumption. }
  assert (Hno2 : has (m_flags (self m)) (flagMask OpenGL_ES2) = true
                 \/ has (m_flags (self m)) (flagMask Exposed) = false -> cond = false).
  { intros H. subst cond. destruct H as [H|H]; rewrite H; cbn.
    - reflexivity.
    - rewrite andb_false_r. reflexivity. }
  clearbody cond.
  destruct cond; cbn;
    repeat (match goal with
            | |- context [if ?b then _ else _] => destruct b; cbn
            | |- context [match w_screen ?w with _ => _ end] => destruct (w_screen w); cbn
            end);
    rewrite ?filter_app, ?Ht, ?Hw; cbn;
    (split; [reflexivity|]);
    (split; [intros; try reflexivity;
             assert (false = true) by auto; discriminate|]);
    (split; intros; try reflexivity;
     assert (true = false) by auto; discriminate).
Qed.


(** ** The saved style and geometry record *)

Ltac split_control :=
  repeat (match goal with
          | |- context [if ?b then _ else _] => destruct b eqn:?; cbn
          end).

Lemma enterFullScreen_pending (m : Machine) (old : Qt.WindowState) (vis : bool) :
  m_savedStyle (self m) <> 0 ->
  m_savedStyle (self (after (enterFullScreen old vis m))) = m_savedStyle (self m) /\
  m_savedFrameGeometry (self (after (enterFullScreen old vis m)))
    = m_savedFrameGeometry (self m).
Proof.
  intros Hp. apply Z.eqb_neq in Hp.
  destruct m as [d w k]. cbn in Hp.
  unfold enterFullScreen, setStyle. plumbing. cbn.
  rewrite Hp. cbn.
  match goal with
  | |- context [if negb ?b then _ else _] => destruct b; cbn
  end; split; reflexivity.
Qed.

Lemma enterFullScreen_saves (m : Machine) (old : Qt.WindowState) (vis : bool) :
  m_savedStyle (self m) = 0 ->
  let h := d_hwnd (m_data (self m)) in
  let nf := normalFrameGeometry (desktop m) h in
  let m' := after (enterFullScreen old vis m) in
  m_savedStyle (self m') = result (style m) /\
  m_savedFrameGeometry (self m')
    = (if isMin old || isMax old
       then (if Rect.isValid nf then nf else m_savedFrameGeometry (self m))
       else result (frameGeometry_sys m)).
Proof.
  intros Hp h nf m'. subst m' nf h.
  destruct m as [d w k]. cbn in Hp.
  unfold enterFullScreen, setStyle, style, frameGeometry_sys, isTopLevel. plumbing. cbn.
  rewrite Hp. cbn.
  destruct (isMin old || isMax old); cbn.
  - destruct (Rect.isValid (normalFrameGeometry d (d_hwnd (m_data w)))); cbn;
      match goal with
      | |- context [if negb ?b then _ else _] => destruct b; cbn
      end; split; reflexivity.
  - match goal with
    | |- context [if negb ?b then _ else _] => destruct b; cbn
    end; split; reflexivity.
Qed.

Lemma setWindowState_enters (m : Machine) :
  d_hwnd (m_data (self m)) <> 0 ->
  m_savedStyle (self m) = 0 ->
  m_windowState (self m) <> Qt.WindowFullScreen ->
  let h := d_hwnd (m_data (self m)) in
  let old := m_windowState (self m) in
  let nf := normalFrameGeometry (desktop m) h in
  let m1 := after (setWindowState Qt.WindowFullScreen m) in
  m_savedStyle (self m1) = result (style m) /\
  m_savedFrameGeometry (self m1)
    = (if isMin old || isMax old
       then (if Rect.isValid nf then nf else m_savedFrameGeometry (self m))
       else result (frameGeometry_sys m)) /\
  m_windowState (self m1) = Qt.WindowFullScreen /\
  d_hwnd (m_data (self m1)) = h.
Proof.
  intros Hh Hp Hold h old nf m1. subst m1 nf old h.
  apply Z.eqb_neq in Hh.
  destruct m as [d w k]. cbn in Hh, Hp, Hold.
  unfold setWindowState, setWindowState_sys, isVisible, enterFullScreen, setStyle,
    style, frameGeometry_sys, isTopLevel.
  plumbing. cbn. rewrite Hh. cbn.
  destruct (m_windowState w); try contradiction; cbn;
    rewrite ?Hh; cbn; rewrite ?Hp; cbn;
    split_control; repeat split; reflexivity.
Qed.

Lemma setWindowState_leaves (m : Machine) (S : Qt.WindowState) :
  d_hwnd (m_data (self m)) <> 0 ->
  m_windowState (self m) = Qt.WindowFullScreen ->
  S <> Qt.WindowMinimized ->
  S <> Qt.WindowFullScreen ->
  m_savedStyle (self m) <> 0 ->
  let h := d_hwnd (m_data (self m)) in
  let g := m_savedFrameGeometry (self m) in
  let visible := IsWindowVisible (desktop m) h in
  let restored := if visible then Z.lor (m_savedStyle (self m)) WS_VISIBLE
                  else m_savedStyle (self m) in
  let d2 := sys_call (desktop m) (SetWindowLongPtr h GWL_STYLE restored) in
  let swpf := Z.lor (Z.lor SWP_FRAMECHANGED SWP_NOZORDER) SWP_NOACTIVATE in
  let swpf := if negb (Rect.isValid g)
              then Z.lor swpf (Z.lor SWP_NOSIZE SWP_NOMOVE) else swpf in
  let r := setWindowState S m in
  effects r
  = Native (SetWindowLongPtr h GWL_STYLE restored)
    :: (if Visibility_eqb (windowVisibility_sys d2 h) Maximized
        then [Native (ShowWindow h SW_SHOWNOACTIVATE)] else [])
    ++ Native (SetWindowPos h 0 (Rect.x g) (Rect.y g) (Rect.width g) (Rect.height g) swpf)
    :: (if visible
        then [Native (ShowWindow h (if isMax S then SW_MAXIMIZE else SW_SHOWNA))]
        else [])
  /\ m_savedStyle (self (after r)) = 0
  /\ m_savedFrameGeometry (self (after r)) = Rect.null
  /\ m_windowState (self (after r)) = S.
Proof.
  intros Hh Hfs HS1 HS2 Hp h g visible restored d2 swpf0 swpf r.
  subst r swpf swpf0 d2 restored visible g h.
  apply Z.eqb_neq in Hh. apply Z.eqb_neq in Hp.
  destruct m as [d w k]. cbn in Hh, Hp, Hfs.
  unfold setWindowState, setWindowState_sys, isVisible, leaveFullScreen, setStyle, style.
  plumbing. cbn. rewrite Hh. cbn. rewrite Hfs. cbn.
  destruct S; try contradiction; cbn;
    rewrite ?Hh; cbn; rewrite ?Hp; cbn;
    destruct (IsWindowVisible d (d_hwnd (m_data w))); cbn;
    split_control; repeat split; reflexivity.
Qed.

(** C1 (as amended). For a window with a native handle, not in FullScreen,
    with no saved record pending and a nonzero native style [s0]:
    [setWindowState FullScreen] saves [s0] together with [g0], which is the
    frame geometry of a window that was in the normal (or active) state and
    the normal, restore-to frame geometry (kept only when valid) of a window
    that was minimized or maximized; a following [setWindowState S], for [S]
    other than Minimized and FullScreen, writes the style [s0] back (with
    WS_VISIBLE or-ed in when the window is visible), calls SetWindowPos with
    exactly [g0] (moving and sizing when [g0] is valid), and clears the
    record: m_savedStyle = 0 and m_savedFrameGeometry invalid. *)
Theorem fullscreen_round_trip (m : Machine) (S : Qt.WindowState)
    (Hhandle : d_hwnd (m_data (self m)) <> 0)
    (Hnone : m_savedStyle (self m) = 0)
    (Hold : m_windowState (self m) <> Qt.WindowFullScreen)
    (Hstyle : result (style m) <> 0)
    (HS1 : S <> Qt.WindowMinimized)
    (HS2 : S <> Qt.WindowFullScreen) :
  let h := d_hwnd (m_data (self m)) in
  let old := m_windowState (self m) in
  let nf := normalFrameGeometry (desktop m) h in
  let s0 := result (style m) in
  let g0 := if isMin old || isMax old
            then (if Rect.isValid nf then nf else m_savedFrameGeometry (self m))
            else result (frameGeometry_sys m) in
  let m1 := after (setWindowState Qt.WindowFullScreen m) in
  let visible := IsWindowVisible (desktop m1) h in
  let restored := if visible then Z.lor s0 WS_VISIBLE else s0 in
  let d2 := sys_call (desktop m1) (SetWindowLongPtr h GWL_STYLE restored) in
  let swpf := Z.lor (Z.lor SWP_FRAMECHANGED SWP_NOZORDER) SWP_NOACTIVATE in
  let swpf := if negb (Rect.isValid g0)
              then Z.lor swpf (Z.lor SWP_NOSIZE SWP_NOMOVE) else swpf in
  let r := setWindowState S m1 in
  m_savedStyle (self m1) = s0
  /\ m_savedFrameGeometry (self m1) = g0
  /\ effects r
     = Native (SetWindowLongPtr h GWL_STYLE restored)
       :: (if Visibility_eqb (windowVisibility_sys d2 h) Maximized
           then [Native (ShowWindow h SW_SHOWNOACTIVATE)] else [])
       ++ Native (SetWindowPos h 0 (Rect.x g0) (Rect.y g0)
                               (Rect.width g0) (Rect.height g0) swpf)
       :: (if visible
           then [Native (ShowWindow h (if isMax S then SW_MAXIMIZE else SW_SHOWNA))]
           else [])
  /\ m_savedStyle (self (after r)) = 0
  /\ m_savedFrameGeometry (self (after r)) = Rect.null
  /\ Rect.isValid (m_savedFrameGeometry (self (after r))) = false
  /\ m_windowState (self (after r)) = S.
Proof.
  intros h old nf s0 g0 m1 visible restored d2 swpf0 swpf r.
  destruct (setWindowState_enters m Hhandle Hnone Hold) as (Hs & Hg & Hfs & Hh1).
  fold m1 in Hs, Hg, Hfs, Hh1. fold h old nf in Hg. fold g0 in Hg. fold h in Hh1.
  fold s0 in Hs.
  assert (Hh1' : d_hwnd (m_data (self m1)) <> 0) by (rewrite Hh1; exact Hhandle).
  assert (Hp1 : m_savedStyle (self m1) <> 0) by (rewrite Hs; exact Hstyle).
  destruct (setWindowState_leaves m1 S Hh1' Hfs HS1 HS2 Hp1) as (He & Hc1 & Hc2 & Hst).
  rewrite Hh1, Hs, Hg in He.
  split; [exact Hs|]. split; [exact Hg|].
  split; [exact He|]. split; [exact Hc1|]. split; [exact Hc2|].
  split; [subst r; rewrite Hc2; reflexivity|exact Hst].
Qed.

(** ** The saved record is never overwritten *)

Lemma setWindowState_record (m : Machine) (S : Qt.WindowState) :
  m_savedStyle (self m) <> 0 ->
  let m' := after (setWindowState S m) in
  (S = Qt.WindowFullScreen ->
   m_savedStyle (self m') = m_savedStyle (self m) /\
   m_savedFrameGeometry (self m') = m_savedFrameGeometry (self m))
  /\
  ((m_savedStyle (self m') = m_savedStyle (self m) /\
    m_savedFrameGeometry (self m') = m_savedFrameGeometry (self m))
   \/
   (m_savedStyle (self m') = 0 /\ m_savedFrameGeometry (self m') = Rect.null)).
Proof.
  intros Hp m'. subst m'. apply Z.eqb_neq in Hp.
  destruct m as [d w k]. cbn in Hp.
  unfold setWindowState, setWindowState_sys, isVisible, enterFullScreen,
    leaveFullScreen, setStyle, style, frameGeometry_sys, isTopLevel.
  plumbing. cbn.
  destruct (d_hwnd (m_data w) =? 0) eqn:Hh; cbn.
  - split; [intros _; split; reflexivity | left; split; reflexivity].
  - destruct (m_windowState w), S; cbn;
      rewrite ?Hh; cbn; rewrite ?Hp; cbn; split_control;
      (split; [intros E; try discriminate E; split; reflexivity|]);
      first [left; split; reflexivity | right; split; reflexivity].
Qed.

#[local] Arguments setWindowState : simpl never.

Lemma setWindowStates_snoc (l : list Qt.WindowState) (s : Qt.WindowState) (m : Machine) :
  after (setWindowStates (l ++ [s]) m)
  = after (setWindowState s (after (setWindowStates l m))).
Proof.
  revert m. induction l as [|a l IH]; intros m.
  - cbn. unfold bind, ret, after.
    destruct (setWindowState s m) as [[u m1] t1]. reflexivity.
  - cbn. unfold bind. destruct (setWindowState a m) as [[u m1] t1].
    specialize (IH m1). unfold after in *.
    destruct (setWindowStates (l ++ [s]) m1) as [[u2 m2] t2].
    destruct (setWindowStates l m1) as [[u3 m3] t3].
    cbn in *. exact IH.
Qed.

(** C2. The window holds one saved style/geometry record.  After any
    sequence of setWindowState calls, if a record is pending (m_savedStyle
    nonzero) then a further request for FullScreen leaves the saved style
    and the saved frame geometry as they are, and a further request for any
    state either leaves the record as it is or clears it: a pending record
    is never replaced by another one. *)
Theorem saved_record_not_overwritten (m : Machine) (l : list Qt.WindowState) :
  let m1 := after (setWindowStates l m) in
  m_savedStyle (self m1) <> 0 ->
  (let m2 := after (setWindowStates (l ++ [Qt.WindowFullScreen]) m) in
   m_savedStyle (self m2) = m_savedStyle (self m1) /\
   m_savedFrameGeometry (self m2) = m_savedFrameGeometry (self m1))
  /\
  (forall S,
     let m2 := after (setWindowStates (l ++ [S]) m) in
     (m_savedStyle (self m2) = m_savedStyle (self m1) /\
      m_savedFrameGeometry (self m2) = m_savedFrameGeometry (self m1))
     \/
     (m_savedStyle (self m2) = 0 /\ m_savedFrameGeometry (self m2) = Rect.null)).
Proof.
  intros m1 Hp. split.
  - intros m2. subst m2. rewrite setWindowStates_snoc. fold m1.
    apply (setWindowState_record m1 Qt.WindowFullScreen Hp). reflexivity.
  - intros S m2. subst m2. rewrite setWindowStates_snoc. fold m1.
    apply (setWindowState_record m1 S Hp).
Qed.

(** ** The maximize-box fixup of show_sys *)

Lemma lor_bit_other (s i : Z) :
  0 <= i -> i <> 16 -> Z.testbit (Z.lor s WS_MAXIMIZEBOX) i = Z.testbit s i.
Proof.
  intros Hi Hne. rewrite Z.lor_spec.
  change WS_MAXIMIZEBOX with (2 ^ 16). rewrite Z.pow2_bits_eqb by lia.
  destruct (Z.eqb_spec 16 i); [lia | apply orb_false_r].
Qed.

Lemma land_lnot_bit_other (s i : Z) :
  0 <= i -> i <> 16 ->
  Z.testbit (Z.land s (Z.lnot WS_MAXIMIZEBOX)) i = Z.testbit s i.
Proof.
  intros Hi Hne. rewrite Z.land_spec, Z.lnot_spec by assumption.
  change WS_MAXIMIZEBOX with (2 ^ 16). rewrite Z.pow2_bits_eqb by lia.
  destruct (Z.eqb_spec 16 i); [lia | apply andb_true_r].
Qed.

Lemma updateTransientParent_frame (m : Machine) :
  self (after (updateTransientParent m)) = self m /\
  keyGrabber (after (updateTransientParent m)) = keyGrabber m.
Proof.
  destruct m as [d w k]. unfold updateTransientParent. plumbing. cbn.
  split_control; split; reflexivity.
Qed.

#[local] Arguments updateTransientParent : simpl never.

(** C4 (as amended). For a top-level window shown maximized whose flags
    have the title hint and neither a min/max button hint nor the frameless
    hint, show_sys issues, after the transient-parent update, exactly: a
    style write that adds WS_MAXIMIZEBOX to the style word read, the show
    command (SW_SHOWMAXIMIZED, or SW_SHOWNOACTIVATE for popups, tool tips,
    tools and windows shown without activating), a style write that removes
    WS_MAXIMIZEBOX from the style word read back, and a frame-changed
    SetWindowPos.  Each write differs from the word it was computed from in
    the WS_MAXIMIZEBOX bit only: every other bit of the final word is the
    bit the host reported after the show command, and is the original bit
    when the show command leaves the style word as written. *)
Theorem maximize_box_fixup (m : Machine)
    (Htop : w_isTopLevel (m_window (self m)) = true)
    (Hmax : w_windowState (m_window (self m)) = Qt.WindowMaximized)
    (Htitle : has (w_flags (m_window (self m))) Qt.WindowTitleHint = true)
    (Hbuttons : has (w_flags (m_window (self m)))
                    (Z.lor Qt.WindowMinMaxButtonsHint Qt.FramelessWindowHint) = false) :
  let h := d_hwnd (m_data (self m)) in
  let mt := after (updateTransientParent m) in
  let s0 := result (style mt) in
  let sm := if showsWithoutActivating (m_window (self m))
            then SW_SHOWNOACTIVATE else SW_SHOWMAXIMIZED in
  let d1 := sys_call (desktop mt) (SetWindowLongPtr h GWL_STYLE (Z.lor s0 WS_MAXIMIZEBOX)) in
  let d2 := sys_call d1 (ShowWindow h sm) in
  let s1 := u32 (GetWindowLongPtr d2 h GWL_STYLE) in
  let final := Z.land s1 (Z.lnot WS_MAXIMIZEBOX) in
  effects (show_sys m)
  = effects (updateTransientParent m)
    ++ [Native (SetWindowLongPtr h GWL_STYLE (Z.lor s0 WS_MAXIMIZEBOX));
        Native (ShowWindow h sm);
        Native (SetWindowLongPtr h GWL_STYLE final);
        Native (SetWindowPos h 0 0 0 0 0
                  (Z.lor (Z.lor (Z.lor (Z.lor (Z.lor SWP_NOACTIVATE SWP_NOMOVE)
                     SWP_NOSIZE) SWP_NOZORDER) SWP_NOOWNERZORDER) SWP_FRAMECHANGED))]
  /\ (forall i, 0 <= i -> i <> 16 ->
        Z.testbit (Z.lor s0 WS_MAXIMIZEBOX) i = Z.testbit s0 i)
  /\ (forall i, 0 <= i -> i <> 16 -> Z.testbit final i = Z.testbit s1 i)
  /\ Z.testbit final 16 = false
  /\ (s1 = Z.lor s0 WS_MAXIMIZEBOX ->
      forall i, 0 <= i -> i <> 16 -> Z.testbit final i = Z.testbit s0 i).
Proof.
  intros h mt s0 sm d1 d2 s1 final.
  split; [|split; [|split; [|split]]].
  - subst final s1 d2 d1 sm s0 mt h.
    destruct (updateTransientParent_frame m) as [Hself Hkey].
    unfold show_sys, setStyle, style. plumbing.
    rewrite Htop, Hmax. cbn.
    change (has 2 1) with false. change (has 2 2) with true. cbn.
    destruct (updateTransientParent m) as [[u mt] t0].
    cbn in Hself, Hkey |- *.
    destruct mt as [dt wt kt]. cbn in Hself, Hkey |- *. subst wt kt.
    rewrite Htitle, Hbuttons. cbn.
    destruct (showsWithoutActivating (m_window (self m))); cbn;
      repeat rewrite <- app_assoc; reflexivity.
  - intros i Hi Hne. apply lor_bit_other; assumption.
  - intros i Hi Hne. apply land_lnot_bit_other; assumption.
  - subst final. rewrite Z.land_spec, Z.lnot_spec by lia.
    change WS_MAXIMIZEBOX with (2 ^ 16). rewrite Z.pow2_bits_eqb, Z.eqb_refl by lia.
    apply andb_false_r.
  - intros E i Hi Hne. subst final.
    rewrite land_lnot_bit_other, E by assumption. apply lor_bit_other; assumption.
Qed.

(** ** Default decorations of a dialog *)



(** ** Operations on a window without a native handle *)

Lemma frameMargins_no_native (m : Machine) :
  filter isNative (effects (frameMargins m)) = [] /\
  desktop (after (frameMargins m)) = desktop m /\
  keyGrabber (after (frameMargins m)) = keyGrabber m /\
  (let w' := self (after (frameMargins m)) in
   m_window w' = m_window (self m) /\
   d_hwnd (m_data w') = d_hwnd (m_data (self m)) /\
   d_geometry (m_data w') = d_geometry (m_data (self m)) /\
   m_windowState w' = m_windowState (self m) /\
   m_opacity w' = m_opacity (self m) /\
   m_savedStyle w' = m_savedStyle (self m) /\
   m_savedFrameGeometry w' = m_savedFrameGeometry (self m) /\
   base_rect w' = base_rect (self m)).
Proof.
  destruct m as [d w k].
  unfold frameMargins, frame, style, exStyle. plumbing. cbn.
  destruct (has (m_flags w) (flagMask FrameDirty)); cbn.
  - destruct (has (d_flags (m_data w)) Qt.FramelessWindowHint); cbn;
      [|adjust_cases; cbn]; repeat split; reflexivity.
  - repeat split; reflexivity.
Qed.

#[local] Arguments frameMargins : simpl never.


(** * Properties of the functions beyond the claims *)

Context {more : HostMore}.

(** ** Rectangle conversions *)

(** X1. qrectFromRECT and RECTfromQRect are inverse to each other: a QRect
    survives the conversion to a native RECT and back, and a RECT survives
    the conversion to a QRect and back. *)
Theorem rect_conversion_round_trip :
  (forall r : QRect, qrectFromRECT (RECTfromQRect r) = r)
  /\ (forall rc : RECT, RECTfromQRect (qrectFromRECT rc) = rc).
Proof.
  split.
  - intros [a b c d]. unfold qrectFromRECT, RECTfromQRect, qSizeOfRect, Rect.ofPointSize,
      Rect.left, Rect.top, Rect.width, Rect.height. cbn.
    f_equal; lia.
  - intros [a b c d]. unfold qrectFromRECT, RECTfromQRect, qSizeOfRect, Rect.ofPointSize,
      Rect.left, Rect.top, Rect.width, Rect.height. cbn.
    f_equal; lia.
Qed.

(** ** The creation context *)

(** X2. For a valid requested geometry the creation context asks the host
    for a frame whose size is the geometry plus the frame and custom
    margins; when the position does not include the frame and is not the
    default position of a top-level window, removing the margins from the
    requested frame gives back the requested geometry, and when the
    position includes the frame the frame starts at the geometry's
    position.  For an invalid geometry all four frame values are
    CW_USEDEFAULT. *)
Theorem creation_context_frame (w : QWindow) (g : QRect) (cm : QMargins)
    (style_ exStyle_ : Z) (m : Machine) :
  let ctx := result (QWindowCreationContext_new w g cm style_ exStyle_ m) in
  let eff := QMargins_add (ctx_margins ctx) cm in
  ctx_margins ctx = result (frame style_ exStyle_ m)
  /\ (Rect.isValid g = true ->
      frameWidth ctx = m_left eff + Rect.width g + m_right eff
      /\ frameHeight ctx = m_top eff + Rect.height g + m_bottom eff
      /\ (w_positionIncludesFrame w = false ->
          ((Rect.x g =? 0) && (Rect.y g =? 0) && w_isTopLevel w) = false ->
          Rect.marginsRemoved
            (Rect.make (frameX ctx) (frameY ctx) (frameWidth ctx) (frameHeight ctx)) eff
          = g)
      /\ (w_positionIncludesFrame w = true ->
          frameX ctx = Rect.x g /\ frameY ctx = Rect.y g))
  /\ (Rect.isValid g = false ->
      frameX ctx = CW_USEDEFAULT /\ frameY ctx = CW_USEDEFAULT
      /\ frameWidth ctx = CW_USEDEFAULT /\ frameHeight ctx = CW_USEDEFAULT).
Proof.
  intros ctx eff. subst eff ctx.
  unfold QWindowCreationContext_new, frame. plumbing.
  adjust_cases; cbn; destruct (Rect.isValid g) eqn:Hv; cbn;
    (split; [reflexivity|]); split;
    try (intros E; discriminate E);
    try (intros _; repeat split; reflexivity);
    intros _;
    (split; [reflexivity|]); (split; [reflexivity|]);
    (split; [intros Hp Hd; rewrite Hp, Hd; cbn;
             destruct g as [a b c d]; unfold Rect.marginsRemoved, Rect.make,
               Rect.x, Rect.y, Rect.width, Rect.height; cbn; f_equal; lia
            |intros Hp; rewrite Hp; cbn; split; reflexivity]).
Qed.

(** ** Size constraints *)

(** X3. applyToMinMaxInfo touches the two tracking sizes only.  On each
    axis a positive minimum and a bounded maximum give a maximum tracking
    size that is at least the minimum tracking size, even when the hint's
    maximum is below its minimum; a non-positive minimum leaves the minimum
    tracking size alone and an unbounded maximum leaves the maximum tracking
    size alone. *)
Theorem applyToMinMaxInfo_tracking (hint : QWindowsGeometryHint) (style_ exStyle_ : Z)
    (mmi : MINMAXINFO) (m : Machine) :
  let out := result (applyToMinMaxInfo hint style_ exStyle_ mmi m) in
  let minS := minimumSize hint in
  let maxS := maximumSize hint in
  ptReserved out = ptReserved mmi
  /\ ptMaxSize out = ptMaxSize mmi
  /\ ptMaxPosition out = ptMaxPosition mmi
  /\ (0 < sw minS -> Z.max (sw maxS) (sw minS) < QWINDOWSIZE_MAX ->
      px (ptMinTrackSize out) <= px (ptMaxTrackSize out))
  /\ (0 < sh minS -> Z.max (sh maxS) (sh minS) < QWINDOWSIZE_MAX ->
      py (ptMinTrackSize out) <= py (ptMaxTrackSize out))
  /\ (sw minS <= 0 -> px (ptMinTrackSize out) = px (ptMinTrackSize mmi))
  /\ (sh minS <= 0 -> py (ptMinTrackSize out) = py (ptMinTrackSize mmi))
  /\ (QWINDOWSIZE_MAX <= sw maxS -> px (ptMaxTrackSize out) = px (ptMaxTrackSize mmi))
  /\ (QWINDOWSIZE_MAX <= sh maxS -> py (ptMaxTrackSize out) = py (ptMaxTrackSize mmi)).
Proof.
  intros out minS maxS. subst out minS maxS.
  unfold applyToMinMaxInfo, frame. plumbing.
  adjust_cases; cbn;
    (split; [reflexivity|]); (split; [reflexivity|]); (split; [reflexivity|]);
    (split; [intros H1 H2;
             apply Z.ltb_lt in H1; apply Z.ltb_lt in H2; rewrite H1, H2; lia|]);
    (split; [intros H1 H2;
             apply Z.ltb_lt in H1; apply Z.ltb_lt in H2; rewrite H1, H2; lia|]);
    (split; [intros H; apply Z.ltb_ge in H; rewrite H; reflexivity|]);
    (split; [intros H; apply Z.ltb_ge in H; rewrite H; reflexivity|]);
    (split; intros H;
     match goal with
     | |- (if ?c then _ else _) = _ =>
         assert (E : c = false) by (apply Z.ltb_ge; lia)
     end; rewrite E; reflexivity).
Qed.

(** X4. A window without a maximum size (QWINDOWSIZE_MAX on both axes)
    never gets a maximum tracking size from getSizeHints, whatever its
    minimum size, margins and scale factor are. *)
Theorem getSizeHints_unbounded (mmi : MINMAXINFO) (m : Machine)
    (Hmax : w_maximumSize (m_window (self m)) = mkQSize QWINDOWSIZE_MAX QWINDOWSIZE_MAX) :
  ptMaxTrackSize (result (getSizeHints mmi m)) = ptMaxTrackSize mmi.
Proof.
  unfold getSizeHints, applyToMinMaxInfo_hwnd, applyToMinMaxInfo, frame,
    QWindowsGeometryHint_new. plumbing. cbn [minimumSize maximumSize customMargins].
  rewrite Hmax.
  assert (Emax : toNativeSizeConstrained (mkQSize QWINDOWSIZE_MAX QWINDOWSIZE_MAX)
                   (m_window (self m))
                 = mkQSize QWINDOWSIZE_MAX QWINDOWSIZE_MAX).
  { unfold toNativeSizeConstrained. destruct highDpiScalingActive; reflexivity. }
  rewrite Emax. cbn [sw sh].
  set (minS := toNativeSizeConstrained (w_minimumSize (m_window (self m)))
                                       (m_window (self m))).
  assert (Ew : (Z.max QWINDOWSIZE_MAX (sw minS) <? QWINDOWSIZE_MAX) = false)
    by (apply Z.ltb_ge; lia).
  assert (Eh : (Z.max QWINDOWSIZE_MAX (sh minS) <? QWINDOWSIZE_MAX) = false)
    by (apply Z.ltb_ge; lia).
  rewrite Ew, Eh.
  adjust_cases; cbn;
    destruct (w_screen (m_window (self m))); destruct (primaryScreen (desktop m));
    cbn; split_control; destruct (ptMaxTrackSize mmi); reflexivity.
Qed.

(** ** The frame cache *)

Ltac flag_bits :=
  repeat first
    [ rewrite has_set_same
    | rewrite has_clear_same
    | rewrite has_set_other by congruence
    | rewrite has_clear_other by congruence ].

(** X5. frameMargins caches: whatever the state before, after one call
    FrameDirty is clear, and a second call returns the same margins, leaves
    the state as it is and produces no warning or event. *)
Theorem frameMargins_caches (m : Machine) :
  let r1 := frameMargins m in
  has (m_flags (self (after r1))) (flagMask FrameDirty) = false
  /\ frameMargins (after r1) = (result r1, after r1, []).
Proof.
  intros r1. subst r1.
  destruct (has (m_flags (self m)) (flagMask FrameDirty)) eqn:Hd.
  - assert (Hc : has (m_flags (self (after (frameMargins m)))) (flagMask FrameDirty)
                 = false).
    { unfold frameMargins, frame, style, exStyle. plumbing. rewrite Hd. cbn.
      destruct (has (d_flags (m_data (self m))) Qt.FramelessWindowHint); cbn;
        [|adjust_cases; cbn]; apply has_clear_same. }
    split; [exact Hc|].
    rewrite (frameMargins_clean _ Hc). f_equal. f_equal.
    unfold frameMargins, frame, style, exStyle. plumbing. rewrite Hd. cbn.
    destruct (has (d_flags (m_data (self m))) Qt.FramelessWindowHint); cbn;
      [|adjust_cases; cbn]; reflexivity.
  - rewrite (frameMargins_clean m Hd). cbn. split; [exact Hd|].
    apply (frameMargins_clean m Hd).
Qed.

(** X6. setStyle writes the style word once, leaves FrameDirty set and
    WithinSetStyle clear and keeps every other flag; the margins computed
    next do not depend on the frame that was cached before the write. *)
Theorem setStyle_invalidates_frame (m : Machine) (s : Z) (f : QMargins) :
  let r := setStyle s m in
  let stale := mkMachine (desktop m)
                 (with_data (data_with_frame f (m_data (self m))) (self m))
                 (keyGrabber m) in
  effects r = [Native (SetWindowLongPtr (d_hwnd (m_data (self m))) GWL_STYLE s)]
  /\ has (m_flags (self (after r))) (flagMask FrameDirty) = true
  /\ has (m_flags (self (after r))) (flagMask WithinSetStyle) = false
  /\ (forall g, g <> FrameDirty -> g <> WithinSetStyle ->
      has (m_flags (self (after r))) (flagMask g) = has (m_flags (self m)) (flagMask g))
  /\ result (frameMargins (after (setStyle s stale))) = result (frameMargins (after r)).
Proof.
  intros r stale. subst r stale. destruct m as [d w k].
  split; [reflexivity|].
  assert (Hd : forall w0 : QWindowsWindow,
             has (m_flags (self (after (setStyle s (mkMachine d w0 k)))))
                 (flagMask FrameDirty) = true).
  { intros w0. unfold setStyle. plumbing. cbn. flag_bits. reflexivity. }
  split; [apply Hd|].
  split; [unfold setStyle; plumbing; cbn; apply has_clear_same|].
  split; [intros g H1 H2; unfold setStyle; plumbing; cbn; flag_bits; reflexivity|].
  unfold frameMargins, frame, style, exStyle, setStyle. plumbing.
  cbn. flag_bits. cbn.
  destruct (has (d_flags (m_data w)) Qt.FramelessWindowHint); cbn;
    [|adjust_cases; cbn]; reflexivity.
Qed.

(** ** Input grabs and hiding *)

(** X7. setMouseGrabEnabled on a realized window: a grab requested for an
    invisible window is refused with a warning and changes nothing; in every
    other case the request is the result, AutoMouseCapture is cleared, and
    the host is called only when its capture differs from the request. *)
Theorem setMouseGrabEnabled_cases (m : Machine) (grab : bool)
    (Hh : d_hwnd (m_data (self m)) <> 0) :
  let h := d_hwnd (m_data (self m)) in
  let r := setMouseGrabEnabled grab m in
  (IsWindowVisible (desktop m) h = false -> grab = true ->
   result r = false /\ after r = m /\ List.filter isNative (effects r) = []
   /\ List.filter isWarning (effects r) <> [])
  /\ (IsWindowVisible (desktop m) h = true \/ grab = false ->
      result r = grab
      /\ has (m_flags (self (after r))) (flagMask AutoMouseCapture) = false
      /\ effects r = (if Bool.eqb (GetCapture (desktop m) =? h) grab then []
                      else [Native (if grab then SetCapture h else ReleaseCapture)])).
Proof.
  intros h r. subst h r. destruct m as [d w k]. cbn [self desktop] in *.
  apply Z.eqb_neq in Hh.
  unfold setMouseGrabEnabled, isVisible, hasMouseCapture. plumbing. cbn.
  repeat (rewrite Hh; cbn). split.
  - intros Hv ->. rewrite Hv. cbn.
    split; [reflexivity|]. split; [reflexivity|]. split; [reflexivity|discriminate].
  - intros Hc.
    assert (E : negb (IsWindowVisible d (d_hwnd (m_data w))) && grab = false).
    { destruct Hc as [-> | ->]; [reflexivity|apply andb_false_r]. }
    rewrite E. cbn.
    destruct (Bool.eqb (GetCapture d =? d_hwnd (m_data w)) grab); cbn;
      [|destruct grab; cbn];
      (split; [reflexivity|]); (split; [apply has_clear_same|reflexivity]).
Qed.

(** X8. The keyboard grab of a realized window is bookkeeping only: no
    host call, window state and desktop untouched.  Grabbing then releasing
    leaves nobody as grabber; releasing while another window holds the grab
    leaves that window as grabber. *)
Theorem setKeyboardGrabEnabled_round_trip (m : Machine) (grab : bool)
    (Hh : d_hwnd (m_data (self m)) <> 0) :
  let me := w_ptr (m_window (self m)) in
  let r := setKeyboardGrabEnabled grab m in
  result r = true /\ effects r = []
  /\ self (after r) = self m /\ desktop (after r) = desktop m
  /\ keyGrabber (after (setKeyboardGrabEnabled true m)) = Some me
  /\ keyGrabber (after (setKeyboardGrabEnabled false
                          (after (setKeyboardGrabEnabled true m)))) = None
  /\ (forall other, keyGrabber m = Some other -> other <> me ->
      keyGrabber (after (setKeyboardGrabEnabled false m)) = Some other).
Proof.
  intros me r. subst me r. destruct m as [d w k]. cbn [self desktop keyGrabber] in *.
  apply Z.eqb_neq in Hh.
  unfold setKeyboardGrabEnabled, setKeyGrabber. plumbing. cbn. rewrite Hh. cbn.
  split; [destruct grab; cbn; [reflexivity|destruct k as [k0|]; cbn; split_control; reflexivity]|].
  split; [destruct grab; cbn; [reflexivity|destruct k as [k0|]; cbn; split_control; reflexivity]|].
  split; [destruct grab; cbn; [reflexivity|destruct k as [k0|]; cbn; split_control; reflexivity]|].
  split; [destruct grab; cbn; [reflexivity|destruct k as [k0|]; cbn; split_control; reflexivity]|].
  split; [reflexivity|].
  split; [rewrite Hh; cbn; rewrite Z.eqb_refl; reflexivity|].
  intros other -> Hne. apply Z.eqb_neq in Hne. rewrite Hne. reflexivity.
Qed.

Lemma has_pow2 (w i : Z) : 0 <= i -> has w (2 ^ i) = Z.testbit w i.
Proof. intros Hi. rewrite <- Z.shiftl_1_l. apply has_bit. exact Hi. Qed.

Lemma has_Window_Popup (f : Z) : has f Qt.Window = true -> has f Qt.Popup = true.
Proof.
  change Qt.Window with (2 ^ 0). rewrite has_pow2 by lia. intros H0.
  unfold has. apply negb_true_iff, Z.eqb_neq. intros E.
  assert (Hb : Z.testbit (Z.land f Qt.Popup) 0 = true).
  { rewrite Z.land_spec, H0. reflexivity. }
  rewrite E in Hb. discriminate Hb.
Qed.

(** X9. Hiding a realized window (setVisible(false)) never warns: it
    releases the mouse capture exactly when the window holds it, issues one
    hide call, reports an empty expose region and leaves the Exposed flag
    clear and the window state as it was.  The hide call is
    ShowWindow(SW_HIDE) when the window flags have a bit in common with
    Qt::Popup, which every window whose type has the Window bit does, and
    the SWP_HIDEWINDOW SetWindowPos otherwise. *)
Theorem setVisible_false_hides (m : Machine) (Hh : d_hwnd (m_data (self m)) <> 0) :
  let h := d_hwnd (m_data (self m)) in
  let win := m_window (self m) in
  let r := setVisible false m in
  effects r
  = (if GetCapture (desktop m) =? h then [Native ReleaseCapture] else [])
    ++ [Native (if has (w_flags win) Qt.Popup then ShowWindow h SW_HIDE
                else SetWindowPos h 0 0 0 0 0
                       (Z.lor (Z.lor (Z.lor (Z.lor SWP_HIDEWINDOW SWP_NOSIZE) SWP_NOMOVE)
                          SWP_NOZORDER) SWP_NOACTIVATE));
        Event (handleExposeEvent (w_ptr win) [])]
  /\ has (m_flags (self (after r))) (flagMask Exposed) = false
  /\ m_windowState (self (after r)) = m_windowState (self m)
  /\ (has (w_flags win) Qt.Window = true -> In (Native (ShowWindow h SW_HIDE)) (effects r)).
Proof.
  intros h win r. subst h win r. destruct m as [d w k]. cbn [self desktop] in *.
  apply Z.eqb_neq in Hh.
  pose proof (has_Window_Popup (w_flags (m_window w))) as Hpop.
  unfold setVisible, setMouseGrabEnabled, hide_sys, fireExpose, isVisible,
    hasMouseCapture. plumbing. cbn. rewrite Hh. cbn.
  destruct (GetCapture d =? d_hwnd (m_data w)) eqn:Hc; cbn.
  - repeat (rewrite Hh; cbn). rewrite andb_false_r. cbn. rewrite Hc. cbn.
    destruct (has (w_flags (m_window w)) Qt.Popup); cbn;
      (split; [reflexivity|]); (split; [apply has_clear_same|]);
      (split; [reflexivity|]); intros Hw;
      [right; left; reflexivity|specialize (Hpop Hw); discriminate Hpop].
  - destruct (has (w_flags (m_window w)) Qt.Popup); cbn;
      (split; [reflexivity|]); (split; [apply has_clear_same|]);
      (split; [reflexivity|]); intros Hw;
      [left; reflexivity|specialize (Hpop Hw); discriminate Hpop].
Qed.

(** ** Window state transitions *)


Ltac flag_control :=
  repeat (flag_bits;
          match goal with
          | |- context [if ?b then _ else _] => destruct b eqn:?; cbn
          end).



(** X11. Changing the state of a hidden realized window between states
    other than FullScreen only records the state: the host is not called
    and nothing is reported. *)
Theorem hidden_window_state_change (m : Machine) (S : Qt.WindowState)
    (Hh : d_hwnd (m_data (self m)) <> 0)
    (Hv : IsWindowVisible (desktop m) (d_hwnd (m_data (self m))) = false)
    (Hold : m_windowState (self m) <> Qt.WindowFullScreen)
    (HS : S <> Qt.WindowFullScreen) :
  let r := setWindowState S m in
  effects r = [] /\ desktop (after r) = desktop m
  /\ m_windowState (self (after r)) = S.
Proof.
  intros r. subst r. apply Z.eqb_neq in Hh.
  destruct m as [d w k]. cbn in Hh, Hv, Hold.
  unfold setWindowState, setWindowState_sys, isVisible.
  plumbing. cbn. rewrite Hh. cbn.
  destruct (m_windowState w), S; try contradiction; cbn;
    rewrite ?Hh; cbn; rewrite ?Hv; cbn; repeat split; reflexivity.
Qed.

(** X12. Minimizing a full-screen window restores nothing: the style is
    not written, the saved record stays as it is, and the only host call
    is ShowWindow(SW_MINIMIZE), made when the window is visible. *)
Theorem minimize_from_full_screen (m : Machine)
    (Hh : d_hwnd (m_data (self m)) <> 0)
    (Hfs : m_windowState (self m) = Qt.WindowFullScreen) :
  let h := d_hwnd (m_data (self m)) in
  let r := setWindowState Qt.WindowMinimized m in
  effects r = (if IsWindowVisible (desktop m) h
               then [Native (ShowWindow h SW_MINIMIZE)] else [])
  /\ m_savedStyle (self (after r)) = m_savedStyle (self m)
  /\ m_savedFrameGeometry (self (after r)) = m_savedFrameGeometry (self m)
  /\ m_windowState (self (after r)) = Qt.WindowMinimized.
Proof.
  intros h r. subst h r. apply Z.eqb_neq in Hh.
  destruct m as [d w k]. cbn in Hh, Hfs.
  unfold setWindowState, setWindowState_sys, isVisible.
  plumbing. cbn. rewrite Hh. cbn. rewrite Hfs. cbn. rewrite Hh. cbn.
  destruct (IsWindowVisible d (d_hwnd (m_data w))); cbn; repeat split; reflexivity.
Qed.


(** X14. show_sys on a realized window calls ShowWindow exactly once and
    leaves WithinMaximize clear; a popup, tooltip or tool window, or one
    that asks to be shown without activation, is shown with
    SW_SHOWNOACTIVATE whatever its state is. *)
Theorem show_sys_one_ShowWindow (m : Machine) :
  let h := d_hwnd (m_data (self m)) in
  let r := show_sys m in
  List.length (List.filter isShowWindow (effects r)) = 1%nat
  /\ has (m_flags (self (after r))) (flagMask WithinMaximize) = false
  /\ (showsWithoutActivating (m_window (self m)) = true ->
      List.filter isShowWindow (effects r) = [Native (ShowWindow h SW_SHOWNOACTIVATE)]).
Proof.
  intros h r. subst h r. destruct m as [d w k].
  unfold show_sys, updateTransientParent, isVisible, setStyle, style.
  plumbing. cbn.
  flag_control; flag_bits;
    (split; [reflexivity|]); (split; [reflexivity|]);
    intros E; try discriminate E; reflexivity.
Qed.

(** ** Notifications from the host *)

Lemma quiet_ret {A : Type} (a : A) : quiet (ret a).
Proof. intros m. split; reflexivity. Qed.

Lemma quiet_bind {A B : Type} (c : Op A) (k : A -> Op B) :
  quiet c -> (forall a, quiet (k a)) -> quiet (bind c k).
Proof.
  intros Hc Hk m. specialize (Hc m). unfold bind, effects, after in *.
  destruct (c m) as [[a m1] t1]. specialize (Hk a m1). unfold effects, after in Hk.
  destruct (k a m1) as [[b m2] t2]. cbn in *.
  destruct Hc as [Hc1 Hc2]. destruct Hk as [Hk1 Hk2].
  rewrite filter_app, Hc1, Hk1, Hk2, Hc2. split; reflexivity.
Qed.

Lemma quiet_if {A : Type} (b : bool) (c1 c2 : Op A) :
  quiet c1 -> quiet c2 -> quiet (if b then c1 else c2).
Proof. destruct b; trivial. Qed.

Lemma quiet_when (b : bool) (c : Op unit) : quiet c -> quiet (when b c).
Proof. intros Hc. unfold when. apply quiet_if; [exact Hc|apply quiet_ret]. Qed.

Lemma quiet_this : quiet this.
Proof. intros m. split; reflexivity. Qed.

Lemma quiet_update (f : QWindowsWindow -> QWindowsWindow) : quiet (update f).
Proof. intros m. split; reflexivity. Qed.

Lemma quiet_query {A : Type} (q : Desktop -> A) : quiet (query q).
Proof. intros m. split; reflexivity. Qed.

Lemma quiet_notify (e : QtEvent) : quiet (notify e).
Proof. intros m. split; reflexivity. Qed.

Lemma quiet_qWarning (s : string) : quiet (qWarning s).
Proof. intros m. split; reflexivity. Qed.

Lemma quiet_frameMargins : quiet frameMargins.
Proof. intros m. destruct (frameMargins_no_native m) as (H1 & H2 & _). split; assumption. Qed.

Create HintDb quiet.
#[local] Hint Resolve quiet_ret quiet_bind quiet_if quiet_when quiet_this quiet_update
  quiet_query quiet_notify quiet_qWarning quiet_frameMargins : quiet.
#[local] Hint Extern 1 (quiet (testFlag _)) => unfold testFlag : quiet.
#[local] Hint Extern 1 (quiet (setFlag _)) => unfold setFlag : quiet.
#[local] Hint Extern 1 (quiet (clearFlag _)) => unfold clearFlag : quiet.
#[local] Hint Extern 1 (quiet window) => unfold window : quiet.
#[local] Hint Extern 1 (quiet handle) => unfold handle : quiet.
#[local] Hint Extern 4 (quiet (match ?x with _ => _ end)) => destruct x : quiet.

Ltac quiet_op := eauto 40 with quiet.

Lemma quiet_fireExpose (region : QRegion) (force : bool) : quiet (fireExpose region force).
Proof. unfold fireExpose. quiet_op. Qed.

Lemma quiet_geometry_sys : quiet geometry_sys.
Proof. unfold geometry_sys, frameGeometry_sys, isTopLevel. quiet_op. Qed.

#[local] Hint Resolve quiet_fireExpose quiet_geometry_sys : quiet.

Lemma quiet_handleGeometryChange : quiet handleGeometryChange.
Proof. unfold handleGeometryChange, isExposed. quiet_op. Qed.

Lemma quiet_exposeTransientChildren (w : QWindow) (children : list OtherWindow) :
  quiet (exposeTransientChildren w children).
Proof. induction children as [|child rest IH]; cbn [exposeTransientChildren]; quiet_op. Qed.

#[local] Hint Resolve quiet_handleGeometryChange quiet_exposeTransientChildren : quiet.

Lemma quiet_handleWindowStateChange (state : Qt.WindowState) :
  quiet (handleWindowStateChange state).
Proof. unfold handleWindowStateChange, handleHidden, isLayered. quiet_op. Qed.

#[local] Hint Resolve quiet_handleWindowStateChange : quiet.

(** X15. The handlers of host notifications and the two query callbacks
    never act on the host: handleMoved, handleResized for every wParam,
    handleWindowStateChange, handleGeometryChange, handleHidden, the
    non-client hit test and getSizeHints issue no native call and leave the
    desktop as it is, whatever the window and the other windows are. *)
Theorem notifications_are_quiet :
  quiet handleMoved
  /\ (forall wParam, quiet (handleResized wParam))
  /\ (forall state, quiet (handleWindowStateChange state))
  /\ quiet handleGeometryChange
  /\ quiet handleHidden
  /\ (forall p, quiet (handleNonClientHitTest p))
  /\ (forall mmi, quiet (getSizeHints mmi)).
Proof.
  split; [unfold handleMoved; quiet_op|].
  split; [intros wParam; unfold handleResized, isFullScreen_sys; quiet_op|].
  split; [intros state; quiet_op|].
  split; [quiet_op|].
  split; [unfold handleHidden; quiet_op|].
  split; [intros p; unfold handleNonClientHitTest; quiet_op|].
  intros mmi. unfold getSizeHints, applyToMinMaxInfo_hwnd, applyToMinMaxInfo, frame.
  quiet_op.
Qed.

(** X16. A WM_SIZE with SIZE_MINIMIZED records the Minimized state and
    reports, in this order, the state change, an empty expose region and a
    flush; the window is no longer exposed, its frame is due for
    recomputation, and the recorded geometry is not touched. *)
Theorem handleResized_minimized (m : Machine) :
  let me := w_ptr (m_window (self m)) in
  let r := handleResized SIZE_MINIMIZED m in
  effects r = [Event (handleWindowStateChanged me Qt.WindowMinimized);
               Event (handleExposeEvent me []);
               Event flushWindowSystemEvents]
  /\ m_windowState (self (after r)) = Qt.WindowMinimized
  /\ has (m_flags (self (after r))) (flagMask Exposed) = false
  /\ has (m_flags (self (after r))) (flagMask FrameDirty) = true
  /\ d_geometry (m_data (self (after r))) = d_geometry (m_data (self m)).
Proof.
  intros me r. subst me r. destruct m as [d w k].
  unfold handleResized, handleWindowStateChange, handleHidden, fireExpose.
  plumbing. cbn.
  split; [reflexivity|]. split; [reflexivity|].
  split; [apply has_clear_same|].
  split; [flag_bits; reflexivity|reflexivity].
Qed.

(** X17. Notifications that are ignored: a WM_SIZE whose wParam is
    SIZE_MAXHIDE, SIZE_MAXSHOW or none of the five known values, a move
    reported while the window is iconic or is being reparented, and a move
    or geometry change reported while the style is being written
    (WithinSetStyle) change nothing and report nothing. *)
Theorem ignored_notifications (m : Machine) :
  (forall wParam, wParam = SIZE_MAXHIDE \/ wParam = SIZE_MAXSHOW
                  \/ wParam < 0 \/ 4 < wParam ->
     handleResized wParam m = (tt, m, []))
  /\ (IsIconic (desktop m) (d_hwnd (m_data (self m))) = true
      \/ has (m_flags (self m)) (flagMask WithinSetParent) = true ->
      handleMoved m = (tt, m, []))
  /\ (has (m_flags (self m)) (flagMask WithinSetStyle) = true ->
      handleMoved m = (tt, m, []) /\ handleGeometryChange m = (tt, m, [])).
Proof.
  split; [|split].
  - intros wParam H. unfold handleResized.
    unfold SIZE_MAXHIDE, SIZE_MAXSHOW, SIZE_MINIMIZED, SIZE_MAXIMIZED, SIZE_RESTORED in *.
    destruct H as [->|[->|H]]; [reflexivity|reflexivity|].
    assert (E4 : (wParam =? 4) = false) by (apply Z.eqb_neq; lia).
    assert (E3 : (wParam =? 3) = false) by (apply Z.eqb_neq; lia).
    assert (E2 : (wParam =? 2) = false) by (apply Z.eqb_neq; lia).
    assert (E1 : (wParam =? 1) = false) by (apply Z.eqb_neq; lia).
    assert (E0 : (wParam =? 0) = false) by (apply Z.eqb_neq; lia).
    rewrite E4, E3, E2, E1, E0. reflexivity.
  - intros H. unfold handleMoved. plumbing.
    destruct H as [H|H]; rewrite H; cbn; rewrite ?andb_false_r; cbn;
      destruct m; reflexivity.
  - intros H.
    assert (Hg : handleGeometryChange m = (tt, m, [])).
    { unfold handleGeometryChange. plumbing. rewrite H. reflexivity. }
    split; [|exact Hg].
    unfold handleMoved. plumbing.
    destruct (negb (IsIconic (desktop m) (d_hwnd (m_data (self m))))
              && negb (has (m_flags (self m)) (flagMask WithinSetParent)));
      cbv beta iota.
    + rewrite Hg. reflexivity.
    + reflexivity.
Qed.

(** X18. The non-client hit test overrides the host's answer only with
    HTBORDER or HTCAPTION, and only for a top-level window with a frame
    whose width or height is fixed by a non-empty minimum size; a point
    inside the client area is never overridden. *)
Theorem hit_test_cases (m : Machine) (p : QPoint) :
  let w := m_window (self m) in
  let localPos := window_mapFromGlobal w (fromNativePixels p w) in
  let r := result (handleNonClientHitTest p m) in
  (r = None \/ r = Some HTBORDER \/ r = Some HTCAPTION)
  /\ (0 <= px localPos < w_width w -> 0 <= py localPos < w_height w -> r = None)
  /\ (r <> None ->
      w_isTopLevel w = true
      /\ has (d_flags (m_data (self m))) Qt.FramelessWindowHint = false
      /\ 0 < sw (w_minimumSize w) /\ 0 < sh (w_minimumSize w)
      /\ (sw (w_minimumSize w) = sw (w_maximumSize w)
          \/ sh (w_minimumSize w) = sh (w_maximumSize w))).
Proof.
  intros w localPos r. subst r.
  unfold handleNonClientHitTest. plumbing. fold w. fold localPos.
  destruct (w_isTopLevel w) eqn:Htop; cbn;
    [|split; [left; reflexivity|split; [reflexivity|intros E; contradiction]]].
  destruct (negb (Qt.WindowState_eqb (m_windowState (self m)) Qt.WindowNoState)
            && negb (Qt.WindowState_eqb (m_windowState (self m)) Qt.WindowActive)); cbn;
    [split; [left; reflexivity|split; [reflexivity|intros E; contradiction]]|].
  destruct (has (d_flags (m_data (self m))) Qt.FramelessWindowHint) eqn:Hfl; cbn;
    [split; [left; reflexivity|split; [reflexivity|intros E; contradiction]]|].
  unfold QSize_isEmpty.
  destruct (sw (w_minimumSize w) <? 1) eqn:Hw1; cbn;
    [split; [left; reflexivity|split; [reflexivity|intros E; contradiction]]|].
  destruct (sh (w_minimumSize w) <? 1) eqn:Hh1; cbn;
    [split; [left; reflexivity|split; [reflexivity|intros E; contradiction]]|].
  apply Z.ltb_ge in Hw1. apply Z.ltb_ge in Hh1.
  destruct (Z.eqb_spec (sw (w_minimumSize w)) (sw (w_maximumSize w))) as [Ew|Ew];
    destruct (Z.eqb_spec (sh (w_minimumSize w)) (sh (w_maximumSize w))) as [Eh|Eh]; cbn;
    try (split; [left; reflexivity|split; [reflexivity|intros E; contradiction]]);
    repeat match goal with
           | |- context [py localPos >=? ?x] =>
               destruct (Z.geb_spec (py localPos) x); cbn
           | |- context [px localPos >=? ?x] =>
               destruct (Z.geb_spec (px localPos) x); cbn
           | |- context [py localPos <? ?x] =>
               destruct (Z.ltb_spec (py localPos) x); cbn
           | |- context [px localPos <? ?x] =>
               destruct (Z.ltb_spec (px localPos) x); cbn
           | |- context [frameMargins ?m0] =>
               destruct (frameMargins m0) as [[? ?] ?]; cbn
           end;
    (split; [auto|]);
    (split; [intros Hx Hy; try reflexivity; lia|]);
    intros _; repeat split; auto; lia.
Qed.

(** ** Custom margins and the enabled state *)

(** X19. setCustomMargins with the margins already set does nothing.
    With other margins it stores them, marks the frame for recomputation
    and issues one frame-changed SetWindowPos that keeps the top-left
    corner of the current frame and changes its width and height by the
    difference between the new and the old custom margins. *)
Theorem setCustomMargins_resizes_in_place (m : Machine) (c : QMargins) :
  let h := d_hwnd (m_data (self m)) in
  let old := d_customMargins (m_data (self m)) in
  let fg := result (frameGeometry_sys m) in
  let r := setCustomMargins c m in
  (c = old -> r = (tt, m, []))
  /\ (c <> old ->
      effects r
      = [Native (SetWindowPos h 0 (Rect.x fg) (Rect.y fg)
                   (Rect.width fg + (m_left c + m_right c) - (m_left old + m_right old))
                   (Rect.height fg + (m_top c + m_bottom c) - (m_top old + m_bottom old))
                   (Z.lor SWP_NOZORDER SWP_FRAMECHANGED))]
      /\ d_customMargins (m_data (self (after r))) = c
      /\ has (m_flags (self (after r))) (flagMask FrameDirty) = true).
Proof.
  intros h old fg r. subst h old fg r. destruct m as [d w k].
  unfold setCustomMargins, frameGeometry_sys, isTopLevel. plumbing. cbn.
  split.
  - intros ->.
    assert (E : QMargins_eqb (d_customMargins (m_data w)) (d_customMargins (m_data w)) = true).
    { unfold QMargins_eqb. rewrite !Z.eqb_refl. reflexivity. }
    rewrite E. reflexivity.
  - intros Hne.
    assert (E : QMargins_eqb c (d_customMargins (m_data w)) = false).
    { destruct (QMargins_eqb c (d_customMargins (m_data w))) eqn:Eq; [|reflexivity].
      exfalso. apply Hne. unfold QMargins_eqb in Eq.
      apply andb_true_iff in Eq as [Eq E4]. apply andb_true_iff in Eq as [Eq E3].
      apply andb_true_iff in Eq as [E1 E2].
      apply Z.eqb_eq in E1, E2, E3, E4.
      destruct c, (d_customMargins (m_data w)); cbn in *; congruence. }
    rewrite E. cbn.
    split; [|split; [reflexivity|apply has_set_same]].
    do 2 f_equal.
    unfold Rect.moveTopLeft, Rect.marginsAdded, Rect.marginsRemoved, Rect.topLeft,
      Rect.x, Rect.y, Rect.width, Rect.height. cbn.
    f_equal; lia.
Qed.

Lemma land_bit_clear (s i : Z) :
  0 <= i -> Z.testbit s i = false -> Z.land s (Z.lnot (2 ^ i)) = s.
Proof.
  intros Hi Hb. apply Z.bits_inj'. intros n Hn.
  rewrite Z.land_spec, Z.lnot_spec, Z.pow2_bits_eqb by assumption.
  destruct (Z.eqb_spec i n) as [->|_]; [rewrite Hb; reflexivity|apply andb_true_r].
Qed.

Lemma lor_bit_set (s i : Z) :
  0 <= i -> Z.testbit s i = true -> Z.lor s (2 ^ i) = s.
Proof.
  intros Hi Hb. apply Z.bits_inj'. intros n Hn.
  rewrite Z.lor_spec, Z.pow2_bits_eqb by assumption.
  destruct (Z.eqb_spec i n) as [->|_]; [rewrite Hb; reflexivity|apply orb_false_r].
Qed.

#[local] Arguments Z.pow : simpl never.

(** X20. setEnabled asked for the state the window is in writes nothing
    and changes nothing.  Otherwise it writes the style once, and the
    style written differs from the one read in the WS_DISABLED bit only,
    which then agrees with the request. *)
Theorem setEnabled_only_on_change (m : Machine) (enabled : bool) :
  let h := d_hwnd (m_data (self m)) in
  let s0 := result (style m) in
  let r := setEnabled enabled m in
  (result (isEnabled m) = enabled -> r = (tt, m, []))
  /\ (result (isEnabled m) <> enabled ->
      exists s1,
        effects r = [Native (SetWindowLongPtr h GWL_STYLE s1)]
        /\ has s1 WS_DISABLED = negb enabled
        /\ (forall i, 0 <= i -> i <> 27 -> Z.testbit s1 i = Z.testbit s0 i)).
Proof.
  intros h s0 r. subst h s0 r. destruct m as [d w k].
  unfold setEnabled, isEnabled, setStyle, style. plumbing. cbn.
  set (s0 := u32 (GetWindowLongPtr d (d_hwnd (m_data w)) GWL_STYLE)).
  change WS_DISABLED with (2 ^ 27).
  assert (Hz : (Z.land s0 (2 ^ 27) =? 0) = negb (Z.testbit s0 27)).
  { rewrite <- (has_pow2 s0 27) by lia. unfold has. rewrite negb_involutive. reflexivity. }
  rewrite Hz.
  destruct (Z.testbit s0 27) eqn:Hb; destruct enabled; cbn; split;
    try (intros E; discriminate E); try (intros E; contradiction).
  - intros _.
    assert (E : (Z.land s0 (Z.lnot (2 ^ 27)) =? s0) = false).
    { apply Z.eqb_neq. intros E.
      assert (Hc : Z.testbit (Z.land s0 (Z.lnot (2 ^ 27))) 27 = false).
      { rewrite Z.land_spec, Z.lnot_spec, Z.pow2_bits_eqb, Z.eqb_refl by lia.
        apply andb_false_r. }
      rewrite E in Hc. congruence. }
    rewrite E. cbn. eexists. split; [reflexivity|].
    split.
    + rewrite has_pow2 by lia.
      rewrite Z.land_spec, Z.lnot_spec, Z.pow2_bits_eqb, Z.eqb_refl by lia.
      apply andb_false_r.
    + intros i Hi Hne.
      rewrite Z.land_spec, Z.lnot_spec, Z.pow2_bits_eqb by lia.
      destruct (Z.eqb_spec 27 i); [lia|apply andb_true_r].
  - intros _. rewrite (lor_bit_set s0 27) by (lia || assumption).
    rewrite Z.eqb_refl. reflexivity.
  - intros _. rewrite (land_bit_clear s0 27) by (lia || assumption).
    rewrite Z.eqb_refl. reflexivity.
  - intros _.
    assert (E : (Z.lor s0 (2 ^ 27) =? s0) = false).
    { apply Z.eqb_neq. intros E.
      assert (Hc : Z.testbit (Z.lor s0 (2 ^ 27)) 27 = true).
      { rewrite Z.lor_spec, Z.pow2_bits_eqb, Z.eqb_refl by lia. apply orb_true_r. }
      rewrite E in Hc. congruence. }
    rewrite E. cbn. eexists. split; [reflexivity|].
    split.
    + rewrite has_pow2 by lia.
      rewrite Z.lor_spec, Z.pow2_bits_eqb, Z.eqb_refl by lia. apply orb_true_r.
    + intros i Hi Hne.
      rewrite Z.lor_spec, Z.pow2_bits_eqb by lia.
      destruct (Z.eqb_spec 27 i); [lia|apply orb_false_r].
Qed.

(** ** Window creation data *)

Lemma has_lor_same (a mask : Z) : mask <> 0 -> has (Z.lor a mask) mask = true.
Proof.
  intros Hm. unfold has.
  replace (Z.land (Z.lor a mask) mask) with mask.
  - apply negb_true_iff, Z.eqb_neq. exact Hm.
  - apply Z.bits_inj'. intros n Hn. rewrite Z.land_spec, Z.lor_spec.
    destruct (Z.testbit a n), (Z.testbit mask n); reflexivity.
Qed.

Ltac split_tests :=
  repeat match goal with
         | |- context [if ?b then _ else _] => destruct b
         end.

Lemma fixTopLevelWindowFlags_low_bits (f n : Z) :
  0 <= n < 8 ->
  Z.testbit (fixTopLevelWindowFlags f) n = Z.testbit f n.
Proof.
  intros Hn. unfold fixTopLevelWindowFlags. cbv zeta.
  assert (Hcases : n = 0 \/ n = 1 \/ n = 2 \/ n = 3 \/ n = 4 \/ n = 5 \/ n = 6 \/ n = 7)
    by lia.
  split_tests;
    rewrite ?Z.lor_spec, ?Z.land_spec, ?Z.lnot_spec by lia;
    destruct (Z.testbit f n);
    destruct Hcases as [->|[->|[->|[->|[->|[->|[->| ->]]]]]]]; reflexivity.
Qed.

(** X21. fixTopLevelWindowFlags only touches hints: the result never has
    the full-screen button hint, its window type is the type of the
    argument, and a result of type SplashScreen has the frameless hint. *)
Theorem fixTopLevelWindowFlags_hints (f : Z) :
  has (fixTopLevelWindowFlags f) Qt.WindowFullscreenButtonHint = false
  /\ Z.land (fixTopLevelWindowFlags f) Qt.WindowType_Mask = Z.land f Qt.WindowType_Mask
  /\ (Z.land (fixTopLevelWindowFlags f) Qt.WindowType_Mask = Qt.SplashScreen ->
      has (fixTopLevelWindowFlags f) Qt.FramelessWindowHint = true).
Proof.
  split; [|split].
  - change Qt.WindowFullscreenButtonHint with (2 ^ 31). rewrite has_pow2 by lia.
    unfold fixTopLevelWindowFlags. cbv zeta.
    split_tests;
      rewrite ?Z.lor_spec, ?Z.land_spec, ?Z.lnot_spec by lia;
      destruct (Z.testbit f 31); reflexivity.
  - apply Z.bits_inj'. intros n Hn. rewrite !Z.land_spec.
    change Qt.WindowType_Mask with (Z.ones 8).
    destruct (Z.ltb_spec n 8) as [Hlt|Hge].
    + rewrite fixTopLevelWindowFlags_low_bits by lia. reflexivity.
    + rewrite Z.ones_spec_high by lia. rewrite !andb_false_r. reflexivity.
  - unfold fixTopLevelWindowFlags. cbv zeta.
    match goal with
    | |- context [if Z.land ?g Qt.WindowType_Mask =? Qt.SplashScreen then _ else _] =>
        set (fl := g)
    end.
    destruct (Z.land fl Qt.WindowType_Mask =? Qt.SplashScreen) eqn:E.
    + intros _. apply has_lor_same. discriminate.
    + intros H. apply Z.eqb_neq in E. contradiction.
Qed.

Ltac split_matches :=
  repeat match goal with
         | |- context [match w_embeddedNativeParent ?w with _ => _ end] =>
             destruct (w_embeddedNativeParent w)
         | |- context [if ?b then _ else _] => destruct b
         | |- context [?a && ?b] => destruct a
         | |- context [?a || ?b] => destruct a
         end.


(** X22. A window that fromWindow treats as a child keeps its flags and
    extended style and gets no decoration: unless it is a popup, tooltip or
    splash screen its style is WS_CHILD with the two clip bits.  ForceChild
    and an embedded native parent both make the window a child, whatever
    ForceTopLevel says. *)
Theorem fromWindow_child (c0 : WindowCreationData) (w : QWindow)
    (flagsIn creationFlags : Z) :
  let c := fromWindow c0 w flagsIn creationFlags in
  (has creationFlags ForceChild = true -> topLevel c = false)
  /\ (w_embeddedNativeParent w <> None -> topLevel c = false /\ embedded c = true)
  /\ (topLevel c = false ->
      c_exStyle c = c_exStyle c0
      /\ type c = Z.land flagsIn Qt.WindowType_Mask
      /\ (popup c = false ->
          flags c = flagsIn
          /\ (type c <> Qt.ToolTip -> type c <> Qt.SplashScreen ->
              c_style c = Z.lor WS_CHILD (Z.lor WS_CLIPSIBLINGS WS_CLIPCHILDREN)))).
Proof.
  intros c. subst c. unfold fromWindow. cbv zeta.
  cbn [topLevel embedded c_exStyle type popup flags c_style].
  split; [|split].
  - intros ->. reflexivity.
  - intros Hemb. destruct (w_embeddedNativeParent w); [|contradiction].
    destruct (has creationFlags ForceChild); split; reflexivity.
  - intros Htl. rewrite Htl. cbn [andb].
    split; [reflexivity|]. split; [reflexivity|].
    intros Hp. rewrite Hp. split; [reflexivity|].
    intros Htt Hsp. apply Z.eqb_neq in Htt, Hsp. rewrite Htt, Hsp. reflexivity.
Qed.

(** X23. A top-level window whose creation flags carry the frameless hint
    gets a popup style without resize frame, dialog frame or border, for
    every window type and every other hint. *)
Theorem fromWindow_frameless (c0 : WindowCreationData) (w : QWindow)
    (flagsIn creationFlags : Z) :
  let c := fromWindow c0 w flagsIn creationFlags in
  topLevel c = true ->
  has (flags c) Qt.FramelessWindowHint = true ->
  has (c_style c) WS_POPUP = true
  /\ has (c_style c) WS_THICKFRAME = false
  /\ has (c_style c) WS_DLGFRAME = false
  /\ has (c_style c) WS_BORDER = false
  /\ has (c_exStyle c) WS_EX_DLGMODALFRAME = has (c_exStyle c0) WS_EX_DLGMODALFRAME.
Proof.
  intros c. subst c. unfold fromWindow. cbv zeta.
  cbn [topLevel flags c_style c_exStyle].
  intros Htl. rewrite Htl. intros Hfl. rewrite Hfl. cbn [negb andb].
  rewrite !andb_false_r.
  change WS_EX_DLGMODALFRAME with (2 ^ 0). rewrite !has_pow2 by lia.
  split; [split_matches; reflexivity|].
  split; [split_matches; reflexivity|].
  split; [split_matches; reflexivity|].
  split; [split_matches; reflexivity|].
  split_matches; rewrite ?Z.lor_spec; cbn; rewrite ?orb_false_r; reflexivity.
Qed.

Lemma initialize_self (c : WindowCreationData) (w : QWindow) (hwnd : HWND)
    (frameChange : bool) (level : qreal) (m : Machine) :
  self (after (initialize c w hwnd frameChange level m)) = self m.
Proof.
  destruct m as [d s k].
  unfold initialize, updateGLWindowSettings, applyBlurBehindWindow,
    setWindowOpacity, setWindowLayered.
  plumbing. cbn. split_control; reflexivity.
Qed.

Lemma initialize_insertAfters (c : WindowCreationData) (w : QWindow) (hwnd : HWND)
    (frameChange : bool) (level : qreal) (m : Machine) :
  hwnd <> 0 ->
  insertAfters (effects (initialize c w hwnd frameChange level m))
  = if topLevel c then
      if has (flags c) Qt.WindowStaysOnTopHint || (type c =? Qt.ToolTip)
      then [HWND_TOPMOST]
      else if has (flags c) Qt.WindowStaysOnBottomHint then [HWND_BOTTOM]
      else if frameChange then [HWND_NOTOPMOST] else []
    else [HWND_TOP].
Proof.
  intros Hh. apply Z.eqb_neq in Hh. destruct m as [d s k].
  unfold initialize, updateGLWindowSettings, applyBlurBehindWindow,
    setWindowOpacity, setWindowLayered.
  plumbing. cbn. rewrite Hh.
  destruct (topLevel c); cbn; [|reflexivity].
  destruct (has (flags c) Qt.WindowStaysOnTopHint || (type c =? Qt.ToolTip)); cbn;
    [|destruct (has (flags c) Qt.WindowStaysOnBottomHint); cbn;
      [|destruct frameChange; cbn]];
    split_control; reflexivity.
Qed.

(** X24. initialize on a created handle places the window in the z-order
    at most once: a child goes to HWND_TOP; a top-level window goes to
    HWND_TOPMOST when it stays on top or is a tooltip, even if it is also
    asked to stay at the bottom, in which case the conflict is warned
    about; otherwise to HWND_BOTTOM when it stays at the bottom; otherwise
    to HWND_NOTOPMOST, and only when the frame changed.  The window object
    is not modified. *)
Theorem initialize_z_order (c : WindowCreationData) (w : QWindow) (hwnd : HWND)
    (frameChange : bool) (level : qreal) (m : Machine) (Hh : hwnd <> 0) :
  let r := initialize c w hwnd frameChange level m in
  insertAfters (effects r)
  = (if topLevel c then
       if has (flags c) Qt.WindowStaysOnTopHint || (type c =? Qt.ToolTip)
       then [HWND_TOPMOST]
       else if has (flags c) Qt.WindowStaysOnBottomHint then [HWND_BOTTOM]
       else if frameChange then [HWND_NOTOPMOST] else []
     else [HWND_TOP])
  /\ self (after r) = self m
  /\ (topLevel c = true -> has (flags c) Qt.WindowStaysOnTopHint = true ->
      has (flags c) Qt.WindowStaysOnBottomHint = true ->
      List.filter isWarning (effects r) <> [])
  /\ (topLevel c = false -> List.filter isWarning (effects r) = []).
Proof.
  intros r. subst r.
  split; [apply initialize_insertAfters; exact Hh|].
  split; [apply initialize_self|].
  apply Z.eqb_neq in Hh. destruct m as [d s k].
  unfold initialize, updateGLWindowSettings, applyBlurBehindWindow,
    setWindowOpacity, setWindowLayered.
  plumbing. cbn. rewrite Hh. split.
  - intros -> -> ->. cbn. split_control; discriminate.
  - intros ->. reflexivity.
Qed.

(** X25. A window that fromWindow classifies as a popup gets the
    stays-on-top hint and a WS_POPUP style that is not a child style; when
    it is top level, initialize places it at HWND_TOPMOST and nowhere
    else. *)
Theorem popup_is_topmost (c0 : WindowCreationData) (w : QWindow)
    (flagsIn creationFlags : Z) (hwnd : HWND) (frameChange : bool) (level : qreal)
    (m : Machine) (Hh : hwnd <> 0) :
  let c := fromWindow c0 w flagsIn creationFlags in
  popup c = true ->
  has (flags c) Qt.WindowStaysOnTopHint = true
  /\ has (c_style c) WS_POPUP = true
  /\ has (c_style c) WS_CHILD = false
  /\ (topLevel c = true ->
      insertAfters (effects (initialize c w hwnd frameChange level m)) = [HWND_TOPMOST]).
Proof.
  intros c Hp.
  assert (Hflag : has (flags c) Qt.WindowStaysOnTopHint = true).
  { subst c. revert Hp. unfold fromWindow. cbv zeta. cbn [popup flags].
    intros Hp. rewrite Hp. apply has_lor_same. discriminate. }
  split; [exact Hflag|].
  split; [|split].
  - subst c. revert Hp. clear Hflag. unfold fromWindow. cbv zeta. cbn [popup c_style].
    intros Hp. rewrite Hp. cbn [orb]. split_matches; reflexivity.
  - subst c. revert Hp. clear Hflag. unfold fromWindow. cbv zeta. cbn [popup c_style].
    intros Hp. rewrite Hp. cbn [orb]. split_matches; reflexivity.
  - intros Htl. rewrite (initialize_insertAfters c w hwnd frameChange level m Hh).
    rewrite Htl, Hflag. reflexivity.
Qed.


(** ** Transient children *)

Lemma exposeTransientChildren_cons (w : QWindow) (child : OtherWindow)
    (rest : list OtherWindow) (m : Machine) :
  let sent :=
    negb (o_ptr child =? w_ptr w) && o_isVisible child
    && match o_transientParent child with
       | Some tp => tp =? w_ptr w
       | None => false
       end
    && match o_platform child with
       | Some hwnd => has (GetWindowLongPtr (desktop m) hwnd GWL_EXSTYLE) WS_EX_LAYERED
       | None => false
       end in
  let r := exposeTransientChildren w rest m in
  exposeTransientChildren w (child :: rest) m
  = (sent || result r, after r,
     (if sent
      then [Event (handleExposeEvent (o_ptr child)
                     (QRegion_ofRect (Rect.make 0 0 (o_width child) (o_height child))))]
      else []) ++ effects r).
Proof.
  intros sent r. subst sent r. cbn [exposeTransientChildren].
  plumbing.
  destruct (negb (o_ptr child =? w_ptr w)); cbn [andb];
    [|destruct (exposeTransientChildren w rest m) as [[a m2] t]; cbn;
      rewrite ?app_nil_r; reflexivity].
  destruct (o_isVisible child); cbn [andb];
    [|destruct (exposeTransientChildren w rest m) as [[a m2] t]; cbn;
      rewrite ?app_nil_r; reflexivity].
  destruct (o_transientParent child) as [tp|];
    [destruct (tp =? w_ptr w)|]; cbn [andb];
    try (destruct (exposeTransientChildren w rest m) as [[a m2] t]; cbn;
         rewrite ?app_nil_r; reflexivity).
  destruct (o_platform child) as [hwnd|];
    [destruct (has (GetWindowLongPtr (desktop m) hwnd GWL_EXSTYLE) WS_EX_LAYERED)|];
    destruct (exposeTransientChildren w rest m) as [[a m2] t]; cbn;
    rewrite ?app_nil_r; reflexivity.
Qed.

(** X27. exposeTransientChildren leaves the machine as it is and reports
    whether it sent an event; every event it sends is an expose event for
    the whole area of a visible window of the list, other than the window
    itself, whose transient parent is the window. *)
Theorem exposeTransientChildren_events (w : QWindow) (children : list OtherWindow)
    (m : Machine) :
  let r := exposeTransientChildren w children m in
  after r = m
  /\ result r = negb (match effects r with [] => true | _ :: _ => false end)
  /\ Forall (fun e => exists child,
                In child children
                /\ o_ptr child <> w_ptr w
                /\ o_isVisible child = true
                /\ o_transientParent child = Some (w_ptr w)
                /\ e = Event (handleExposeEvent (o_ptr child)
                               (QRegion_ofRect
                                  (Rect.make 0 0 (o_width child) (o_height child)))))
            (effects r).
Proof.
  induction children as [|child rest IH]; intros r; subst r.
  - cbn. repeat split; constructor.
  - cbv zeta in IH. destruct IH as (IHa & IHr & IHe).
    rewrite exposeTransientChildren_cons. cbv zeta.
    unfold result, after, effects in *.
    destruct (exposeTransientChildren w rest m) as [[a m2] t]. cbn in IHa, IHr, IHe |- *.
    split; [exact IHa|].
    assert (Hrest : Forall (fun e => exists ch,
                In ch (child :: rest)
                /\ o_ptr ch <> w_ptr w
                /\ o_isVisible ch = true
                /\ o_transientParent ch = Some (w_ptr w)
                /\ e = Event (handleExposeEvent (o_ptr ch)
                               (QRegion_ofRect
                                  (Rect.make 0 0 (o_width ch) (o_height ch))))) t).
    { eapply Forall_impl; [|exact IHe].
      intros e (ch & Hin & H). exists ch. split; [right; exact Hin|exact H]. }
    destruct (negb (o_ptr child =? w_ptr w)) eqn:E1; cbn; [|split; assumption].
    destruct (o_isVisible child) eqn:E2; cbn; [|split; assumption].
    destruct (o_transientParent child) as [tp|] eqn:E3; cbn; [|split; assumption].
    destruct (Z.eqb_spec tp (w_ptr w)) as [->|_]; cbn; [|split; assumption].
    destruct (o_platform child) as [hwnd|]; cbn; [|split; assumption].
    destruct (has (GetWindowLongPtr (desktop m) hwnd GWL_EXSTYLE) WS_EX_LAYERED); cbn;
      [|split; assumption].
    split; [reflexivity|].
    constructor; [|exact Hrest].
    exists child. apply negb_true_iff, Z.eqb_neq in E1.
    split; [left; reflexivity|]. repeat split; assumption.
Qed.

(** ** Geometry requests and foreign windows *)




(** X29. Reparenting a top-level foreign window under a parent makes it a
    child: the style in force is remembered as the top-level style, and the
    style written has WS_CHILD and none of the bits of WS_OVERLAPPEDWINDOW
    and WS_POPUPWINDOW.  When the window, now reported as a child, is
    later given no parent, the remembered style is written back.  A
    reparenting that does not change between top level and child writes no
    style. *)
Theorem foreign_setParent_round_trip (d : Desktop) (f : QWindowsForeignWindow)
    (p : HWND) (Hp : p <> 0) (Htop : isTopLevel_sys d (f_hwnd f) = true) :
  let hwnd := f_hwnd f in
  let s0 := u32 (GetWindowLongPtr d hwnd GWL_STYLE) in
  let child := Z.lor (Z.land s0 (Z.lnot (Z.lor WS_OVERLAPPEDWINDOW WS_POPUPWINDOW)))
                     WS_CHILD in
  let r1 := foreign_setParent (Some p) d f in
  let f1 := fst (fst r1) in
  snd r1 = [SetParent hwnd p; ForeignNative (SetWindowLongPtr hwnd GWL_STYLE child)]
  /\ f1 = mkForeign hwnd s0
  /\ has child WS_CHILD = true
  /\ Z.land child (Z.lor WS_OVERLAPPEDWINDOW WS_POPUPWINDOW) = 0
  /\ (forall d2, isTopLevel_sys d2 hwnd = false ->
        snd (foreign_setParent None d2 f1)
        = [SetParent hwnd 0; ForeignNative (SetWindowLongPtr hwnd GWL_STYLE s0)])
  /\ (forall d2 q, isTopLevel_sys d2 hwnd = false -> q <> 0 ->
        foreign_setParent (Some q) d2 f1
        = (f1, sys_SetParent d2 hwnd q, [SetParent hwnd q])).
Proof.
  intros hwnd s0 child r1 f1. subst f1 r1 child s0 hwnd.
  apply Z.eqb_neq in Hp.
  unfold foreign_setParent. rewrite Htop, Hp. cbn [Bool.eqb negb fst snd].
  set (s0 := u32 (GetWindowLongPtr d (f_hwnd f) GWL_STYLE)).
  set (child := Z.lor (Z.land s0 (Z.lnot (Z.lor WS_OVERLAPPEDWINDOW WS_POPUPWINDOW)))
                      WS_CHILD).
  split; [reflexivity|]. split; [reflexivity|].
  split; [apply has_lor_same; discriminate|].
  split.
  - subst child. apply Z.bits_inj'. intros n Hn.
    rewrite Z.land_spec, Z.lor_spec, Z.land_spec, Z.lnot_spec, Z.bits_0 by assumption.
    destruct (Z.testbit (Z.lor WS_OVERLAPPEDWINDOW WS_POPUPWINDOW) n) eqn:E;
      [|apply andb_false_r].
    cbn [negb]. rewrite andb_false_r, andb_true_r. cbn [orb].
    destruct (Z.testbit WS_CHILD n) eqn:Ec; [|reflexivity].
    exfalso. change WS_CHILD with (2 ^ 30) in Ec.
    rewrite Z.pow2_bits_eqb in Ec by lia. apply Z.eqb_eq in Ec. subst n.
    discriminate E.
  - split.
    + intros d2 Hc. cbn [f_hwnd m_topLevelStyle]. rewrite Hc. reflexivity.
    + intros d2 q Hc Hq. apply Z.eqb_neq in Hq. cbn [f_hwnd m_topLevelStyle].
      rewrite Hc, Hq. reflexivity.
Qed.

End Proofs.

(** * Evaluation on the reference host *)

Import Reference.

(** Witness of C8 on the box [10,100] x [20,200]. *)
Lemma validSize_box_witness :
  validSize boxHint (mkQSize 50 60) = true /\ validSize boxHint (mkQSize 5 60) = false.
Proof.
  split.
  - apply (validSize_box boxHint (mkQSize 50 60)); cbn; lia.
  - apply (validSize_box boxHint (mkQSize 5 60)); cbn; lia.
Defined.

(** Witness of C10 on the unrealized window. *)
Lemma map_without_handle_is_identity_witness :
  mapToGlobal (mkQPoint 3 4) unrealizedMachine = (mkQPoint 3 4, unrealizedMachine, [])
  /\ mapFromGlobal (mkQPoint 3 4) unrealizedMachine = (mkQPoint 3 4, unrealizedMachine, []).
Proof.
  apply (map_without_handle_is_identity unrealizedMachine (mkQPoint 3 4)).
  reflexivity.
Defined.

(** Witness of C3: a normal window asked for the normal state. *)
Lemma setWindowState_same_state_witness :
  setWindowState Qt.WindowNoState normalMachine = (tt, normalMachine, []).
Proof.
  apply (setWindowState_same_state normalMachine Qt.WindowNoState).
  reflexivity.
Defined.

(** Witness of C1: a shown normal window goes full screen and back. *)
Lemma fullscreen_round_trip_witness :
  let m1 := after (setWindowState Qt.WindowFullScreen normalMachine) in
  let r := setWindowState Qt.WindowNoState m1 in
  m_savedStyle (self m1) = shownStyle windowFlags
  /\ m_savedFrameGeometry (self m1) = Rect.make 100 100 640 480
  /\ effects r
     = [Native (SetWindowLongPtr 1 GWL_STYLE (shownStyle windowFlags));
        Native (SetWindowPos 1 0 100 100 640 480 0x34);
        Native (ShowWindow 1 SW_SHOWNA)]
  /\ m_savedStyle (self (after r)) = 0
  /\ m_savedFrameGeometry (self (after r)) = Rect.null.
Proof.
  assert (H1 : d_hwnd (m_data (self normalMachine)) <> 0) by (vm_compute; discriminate).
  assert (H2 : m_savedStyle (self normalMachine) = 0) by reflexivity.
  assert (H3 : m_windowState (self normalMachine) <> Qt.WindowFullScreen)
    by (vm_compute; discriminate).
  assert (H4 : result (style normalMachine) <> 0) by (vm_compute; discriminate).
  assert (H5 : Qt.WindowNoState <> Qt.WindowMinimized) by discriminate.
  assert (H6 : Qt.WindowNoState <> Qt.WindowFullScreen) by discriminate.
  pose proof (fullscreen_round_trip normalMachine Qt.WindowNoState H1 H2 H3 H4 H5 H6) as H.
  cbv zeta in H. destruct H as (A & B & C & D & E & _).
  cbv zeta.
  split; [exact A|]. split; [exact B|]. split; [exact C|].
  split; [exact D | exact E].
Defined.

(** Counterexample to C1 as stated: a maximized window is restored to
    its normal (restore-to) geometry, not to the frame geometry it had
    before entering full screen. *)
Lemma fullscreen_from_maximized_restores_normal_geometry :
  let m1 := after (setWindowState Qt.WindowFullScreen maximizedMachine) in
  let r := setWindowState Qt.WindowNoState m1 in
  m_savedStyle (self maximizedMachine) = 0
  /\ Rect.isValid (m_savedFrameGeometry (self maximizedMachine)) = false
  /\ result (frameGeometry_sys maximizedMachine) = Rect.make (-8) (-8) 1936 1056
  /\ In (Native (SetWindowPos 1 0 100 100 640 480 0x34)) (effects r)
  /\ ~ In (Native (SetWindowPos 1 0 (-8) (-8) 1936 1056 0x34)) (effects r).
Proof.
  cbv zeta.
  split; [reflexivity|]. split; [reflexivity|]. split; [vm_compute; reflexivity|].
  split; [vm_compute; auto|].
  vm_compute. intuition discriminate.
Qed.

(** Witness of C2: a pending record survives Minimized, then FullScreen. *)
Lemma saved_record_not_overwritten_witness :
  let m1 := after (setWindowStates [Qt.WindowMinimized] pendingMachine) in
  let m2 := after (setWindowStates [Qt.WindowMinimized; Qt.WindowFullScreen]
                                   pendingMachine) in
  m_savedStyle (self m1) <> 0
  /\ m_savedStyle (self m2) = m_savedStyle (self m1)
  /\ m_savedFrameGeometry (self m2) = m_savedFrameGeometry (self m1).
Proof.
  assert (Hp : m_savedStyle (self (after (setWindowStates [Qt.WindowMinimized]
                                                          pendingMachine))) <> 0)
    by (vm_compute; discriminate).
  pose proof (saved_record_not_overwritten pendingMachine [Qt.WindowMinimized] Hp) as H.
  cbv zeta in H. destruct H as [[A B] _].
  cbv zeta. split; [exact Hp|]. split; [exact A | exact B].
Defined.

(** Witness of C4: a dialog (title, no min/max buttons) shown maximized. *)
Lemma maximize_box_fixup_witness :
  effects (show_sys dialogMachine)
  = [Native (SetWindowLongPtr 1 GWL_STYLE (Z.lor (shownStyle dialogFlags) WS_MAXIMIZEBOX));
     Native (ShowWindow 1 SW_SHOWMAXIMIZED);
     Native (SetWindowLongPtr 1 GWL_STYLE (shownStyle dialogFlags));
     Native (SetWindowPos 1 0 0 0 0 0 567)]
  /\ (forall i, 0 <= i -> i <> 16 ->
        Z.testbit (k_style (desktop (after (show_sys dialogMachine)))) i
        = Z.testbit (k_style (desktop dialogMachine)) i).
Proof.
  assert (H1 : w_isTopLevel (m_window (self dialogMachine)) = true) by reflexivity.
  assert (H2 : w_windowState (m_window (self dialogMachine)) = Qt.WindowMaximized)
    by reflexivity.
  assert (H3 : has (w_flags (m_window (self dialogMachine))) Qt.WindowTitleHint = true)
    by (vm_compute; reflexivity).
  assert (H4 : has (w_flags (m_window (self dialogMachine)))
                   (Z.lor Qt.WindowMinMaxButtonsHint Qt.FramelessWindowHint) = false)
    by (vm_compute; reflexivity).
  pose proof (maximize_box_fixup dialogMachine H1 H2 H3 H4) as H.
  cbv zeta in H. destruct H as (A & _ & _ & _ & B).
  split.
  - exact A.
  - apply B. vm_compute. reflexivity.
Defined.

(** Counterexample to C4 as stated: a maximized tool window qualifies for
    the fixup, yet the command issued between the two style writes is
    SW_SHOWNOACTIVATE; no maximize show command is issued. *)
Lemma tool_window_not_shown_maximized :
  w_isTopLevel (m_window (self toolMachine)) = true
  /\ w_windowState (m_window (self toolMachine)) = Qt.WindowMaximized
  /\ has (w_flags (m_window (self toolMachine))) Qt.WindowTitleHint = true
  /\ has (w_flags (m_window (self toolMachine)))
         (Z.lor Qt.WindowMinMaxButtonsHint Qt.FramelessWindowHint) = false
  /\ effects (show_sys toolMachine)
     = [Native (SetWindowLongPtr 1 GWL_STYLE (Z.lor (shownStyle toolFlags) WS_MAXIMIZEBOX));
        Native (ShowWindow 1 SW_SHOWNOACTIVATE);
        Native (SetWindowLongPtr 1 GWL_STYLE (shownStyle toolFlags));
        Native (SetWindowPos 1 0 0 0 0 0 567)]
  /\ ~ In (Native (ShowWindow 1 SW_SHOWMAXIMIZED)) (effects (show_sys toolMachine)).
Proof.
  split; [reflexivity|]. split; [reflexivity|].
  split; [vm_compute; reflexivity|]. split; [vm_compute; reflexivity|].
  split; [vm_compute; reflexivity|].
  vm_compute. intuition discriminate.
Qed.

(** Witness of C5: an exposed raster window shrinks from 624 x 441 to
    400 x 300. *)
Lemma shrink_triggers_expose_witness :
  filter isExpose (effects (handleGeometryChange (shrunkMachine (flagMask Exposed))))
  = [Event (handleExposeEvent 1 (QRegion_ofRect (Rect.make 0 0 400 300)))].
Proof.
  pose proof (shrink_triggers_expose (shrunkMachine (flagMask Exposed))) as H.
  assert (H0 : has (m_flags (self (shrunkMachine (flagMask Exposed))))
                   (flagMask WithinSetStyle) = false) by (vm_compute; reflexivity).
  specialize (H H0). cbv zeta in H. destruct H as (_ & A & _).
  apply A.
  - vm_compute. reflexivity.
  - vm_compute. reflexivity.
  - vm_compute. discriminate.
  - vm_compute. discriminate.
  - vm_compute. discriminate.
Defined.

(** Counterexample to C5 as stated: the same shrink on an exposed OpenGL
    ES2 window fires no expose event. *)
Lemma es2_window_shrink_no_expose :
  let m := shrunkMachine (Z.lor (flagMask Exposed) (flagMask OpenGL_ES2)) in
  has (m_flags (self m)) (flagMask Exposed) = true
  /\ has (m_flags (self m)) (flagMask WithinSetStyle) = false
  /\ Rect.size (d_geometry (m_data (self m))) = mkQSize 624 441
  /\ Rect.size (result (geometry_sys m)) = mkQSize 400 300
  /\ d_geometry (m_data (self (after (handleGeometryChange m)))) = result (geometry_sys m)
  /\ filter isExpose (effects (handleGeometryChange m)) = [].
Proof.
  cbv zeta. repeat (split; [vm_compute; reflexivity|]). vm_compute. reflexivity.
Qed.

(** Witness of C6: a frameless window without custom margins. *)
Lemma frameMargins_frameless_witness :
  result (frameMargins (framelessMachine (flagMask FrameDirty) QMargins_zero))
  = mkQMargins 0 0 0 0.
Proof.
  pose proof (frameMargins_frameless
                (framelessMachine (flagMask FrameDirty) QMargins_zero)) as [A _].
  apply A.
  - vm_compute. reflexivity.
  - left. vm_compute. reflexivity.
  - reflexivity.
Defined.

(** Counterexample to C6 as stated: a frameless window with custom
    margins gets margins that are not zero. *)
Lemma frameless_margins_not_zero :
  let m := framelessMachine (flagMask FrameDirty) (mkQMargins 1 2 3 4) in
  has (d_flags (m_data (self m))) Qt.FramelessWindowHint = true
  /\ result (frameMargins m) = mkQMargins 1 2 3 4
  /\ result (frameMargins m) <> mkQMargins 0 0 0 0.
Proof.
  cbv zeta. split; [vm_compute; reflexivity|]. split; [vm_compute; reflexivity|].
  vm_compute. discriminate.
Qed.




(** On the reference host the round trip of a shown normal window brings
    the native style word and rectangle back to what they were. *)
Example round_trip_on_reference_host :
  let m2 := after (setWindowState Qt.WindowNoState
                     (after (setWindowState Qt.WindowFullScreen normalMachine))) in
  k_style (desktop m2) = k_style (desktop normalMachine)
  /\ k_rect (desktop m2) = k_rect (desktop normalMachine)
  /\ m_windowState (self m2) = Qt.WindowNoState.
Proof. cbv zeta. repeat split; vm_compute; reflexivity. Qed.

(** Entering full screen strips the decorations and covers the screen. *)
Example enter_full_screen_on_reference_host :
  effects (setWindowState Qt.WindowFullScreen normalMachine)
  = [Native (SetWindowLongPtr 1 GWL_STYLE
               (Z.lor (Z.lor (Z.lor (Z.lor WS_CLIPCHILDREN WS_CLIPSIBLINGS) WS_POPUP)
                  WS_SYSMENU) WS_VISIBLE));
     Native (SetWindowPos 1 HWND_TOP 0 0 1920 1080
               (Z.lor SWP_FRAMECHANGED SWP_NOACTIVATE));
     Event (handleGeometryChangeEvent 1 (Rect.make 0 0 1920 1080));
     Event flushWindowSystemEvents].
Proof. vm_compute. reflexivity. Qed.

(** A plain top-level window gets the overlapped-window decorations. *)
Example window_default_style :
  c_style (fromWindow WindowCreationData_new
             (toolkitWindow Qt.Window Qt.WindowNoState) Qt.Window 0)
  = Z.lor (Z.lor (Z.lor (Z.lor (Z.lor (Z.lor (Z.lor WS_CLIPSIBLINGS WS_CLIPCHILDREN)
      WS_POPUP) WS_THICKFRAME) WS_CAPTION) WS_SYSMENU) WS_MINIMIZEBOX) WS_MAXIMIZEBOX.
Proof. vm_compute. reflexivity. Qed.

(** ** Evaluation of the properties beyond the claims *)

(** Witness of X2: the creation context of the normal window. *)
Lemma creation_context_frame_witness :
  let g := Rect.make 100 100 640 480 in
  let ctx := result (QWindowCreationContext_new (toolkitWindow windowFlags Qt.WindowNoState)
                       g QMargins_zero (shownStyle windowFlags) 0 normalMachine) in
  frameWidth ctx = 656 /\ frameHeight ctx = 519
  /\ Rect.marginsRemoved
       (Rect.make (frameX ctx) (frameY ctx) (frameWidth ctx) (frameHeight ctx))
       (ctx_margins ctx) = g.
Proof.
  pose proof (creation_context_frame (toolkitWindow windowFlags Qt.WindowNoState)
                (Rect.make 100 100 640 480) QMargins_zero (shownStyle windowFlags) 0
                normalMachine) as H.
  cbv zeta in H |- *. destruct H as (_ & B & _).
  destruct (B eq_refl) as (W & Hgt & R & _).
  split; [exact W|]. split; [exact Hgt|].
  exact (R eq_refl eq_refl).
Defined.

(** Witness of X3: a hint whose maximum is below its minimum. *)
Lemma applyToMinMaxInfo_tracking_witness :
  let hint := mkHint (mkQSize 300 200) (mkQSize 100 100) QMargins_zero in
  let mmi := mkMINMAXINFO (mkQPoint 0 0) (mkQPoint 0 0) (mkQPoint 0 0)
                          (mkQPoint 0 0) (mkQPoint 0 0) in
  let out := result (applyToMinMaxInfo hint (shownStyle windowFlags) 0 mmi normalMachine) in
  px (ptMinTrackSize out) <= px (ptMaxTrackSize out)
  /\ py (ptMinTrackSize out) <= py (ptMaxTrackSize out).
Proof.
  pose proof (applyToMinMaxInfo_tracking
                (mkHint (mkQSize 300 200) (mkQSize 100 100) QMargins_zero)
                (shownStyle windowFlags) 0
                (mkMINMAXINFO (mkQPoint 0 0) (mkQPoint 0 0) (mkQPoint 0 0)
                              (mkQPoint 0 0) (mkQPoint 0 0))
                normalMachine) as H.
  cbv zeta in H |- *. destruct H as (_ & _ & _ & A & B & _).
  split; [apply A|apply B]; cbn; unfold QWINDOWSIZE_MAX; lia.
Defined.

(** Witness of X4: the size hints of the normal window, which has no
    maximum size. *)
Lemma getSizeHints_unbounded_witness :
  let mmi := mkMINMAXINFO (mkQPoint 0 0) (mkQPoint 0 0) (mkQPoint 0 0)
                          (mkQPoint 0 0) (mkQPoint 1936 1056) in
  ptMaxTrackSize (result (getSizeHints mmi normalMachine)) = mkQPoint 1936 1056.
Proof.
  apply (getSizeHints_unbounded
           (mkMINMAXINFO (mkQPoint 0 0) (mkQPoint 0 0) (mkQPoint 0 0)
                         (mkQPoint 0 0) (mkQPoint 1936 1056)) normalMachine).
  reflexivity.
Defined.

(** Witness of X6: the Exposed flag of the normal window survives a
    style write. *)
Lemma setStyle_invalidates_frame_witness :
  has (m_flags (self (after (setStyle (shownStyle dialogFlags) normalMachine))))
      (flagMask Exposed) = true.
Proof.
  pose proof (setStyle_invalidates_frame normalMachine (shownStyle dialogFlags)
                QMargins_zero) as H.
  cbv zeta in H. destruct H as (_ & _ & _ & A & _).
  rewrite (A Exposed); [reflexivity|discriminate|discriminate].
Defined.

(** Witness of X7: the visible normal window grabs the mouse; the hidden
    one is refused. *)
Lemma setMouseGrabEnabled_cases_witness :
  effects (setMouseGrabEnabled true normalMachine) = [Native (SetCapture 1)]
  /\ result (setMouseGrabEnabled true hiddenMachine) = false.
Proof.
  assert (Hh : d_hwnd (m_data (self normalMachine)) <> 0) by (vm_compute; discriminate).
  assert (Hh' : d_hwnd (m_data (self hiddenMachine)) <> 0) by (vm_compute; discriminate).
  pose proof (setMouseGrabEnabled_cases normalMachine true Hh) as H.
  pose proof (setMouseGrabEnabled_cases hiddenMachine true Hh') as H'.
  cbv zeta in H, H'. destruct H as (_ & A). destruct H' as (B & _).
  split.
  - destruct (A (or_introl eq_refl)) as (_ & _ & E). exact E.
  - destruct (B eq_refl eq_refl) as (E & _). exact E.
Defined.

(** Witness of X8: the normal window grabs and releases the keyboard. *)
Lemma setKeyboardGrabEnabled_round_trip_witness :
  keyGrabber (after (setKeyboardGrabEnabled true normalMachine)) = Some 1
  /\ keyGrabber (after (setKeyboardGrabEnabled false
                          (after (setKeyboardGrabEnabled true normalMachine)))) = None.
Proof.
  assert (Hh : d_hwnd (m_data (self normalMachine)) <> 0) by (vm_compute; discriminate).
  pose proof (setKeyboardGrabEnabled_round_trip normalMachine true Hh) as H.
  cbv zeta in H. destruct H as (_ & _ & _ & _ & A & B & _).
  split; [exact A|exact B].
Defined.

(** Witness of X9: hiding the normal window. *)
Lemma setVisible_false_hides_witness :
  let r := setVisible false normalMachine in
  effects r = [Native (ShowWindow 1 SW_HIDE); Event (handleExposeEvent 1 [])]
  /\ has (m_flags (self (after r))) (flagMask Exposed) = false.
Proof.
  assert (Hh : d_hwnd (m_data (self normalMachine)) <> 0) by (vm_compute; discriminate).
  pose proof (setVisible_false_hides normalMachine Hh) as H.
  cbv zeta in H |- *. destruct H as (A & B & _).
  split; [exact A|exact B].
Defined.


(** Witness of X11: maximizing a window that is not shown. *)
Lemma hidden_window_state_change_witness :
  let r := setWindowState Qt.WindowMaximized hiddenMachine in
  effects r = [] /\ desktop (after r) = desktop hiddenMachine
  /\ m_windowState (self (after r)) = Qt.WindowMaximized.
Proof.
  apply (hidden_window_state_change hiddenMachine Qt.WindowMaximized).
  - vm_compute; discriminate.
  - reflexivity.
  - vm_compute; discriminate.
  - discriminate.
Defined.

(** Witness of X12: minimizing the full-screen window. *)
Lemma minimize_from_full_screen_witness :
  let r := setWindowState Qt.WindowMinimized pendingMachine in
  effects r = [Native (ShowWindow 1 SW_MINIMIZE)]
  /\ m_savedStyle (self (after r)) = shownStyle windowFlags.
Proof.
  assert (Hh : d_hwnd (m_data (self pendingMachine)) <> 0) by (vm_compute; discriminate).
  pose proof (minimize_from_full_screen pendingMachine Hh eq_refl) as H.
  cbv zeta in H |- *. destruct H as (A & B & _).
  split; [exact A|exact B].
Defined.


(** Witness of X14: showing the tool window. *)
Lemma show_sys_one_ShowWindow_witness :
  List.filter isShowWindow (effects (show_sys toolMachine))
  = [Native (ShowWindow 1 SW_SHOWNOACTIVATE)].
Proof.
  pose proof (show_sys_one_ShowWindow toolMachine) as H.
  cbv zeta in H. destruct H as (_ & _ & A).
  apply A. reflexivity.
Defined.

(** Witness of X17: notifications that reach the window while its style
    is being written. *)
Lemma ignored_notifications_witness :
  handleResized SIZE_MAXSHOW styleWriteMachine = (tt, styleWriteMachine, [])
  /\ handleMoved styleWriteMachine = (tt, styleWriteMachine, []).
Proof.
  destruct (ignored_notifications styleWriteMachine) as (A & _ & C).
  split.
  - apply A. right; left; reflexivity.
  - apply C. reflexivity.
Defined.

(** Witness of X18: a point inside the client area of the normal window. *)
Lemma hit_test_cases_witness :
  result (handleNonClientHitTest (mkQPoint 200 200) normalMachine) = None.
Proof.
  pose proof (hit_test_cases normalMachine (mkQPoint 200 200)) as H.
  cbv zeta in H. destruct H as (_ & A & _).
  apply A; cbn; lia.
Defined.

(** Witness of X19: one more pixel of custom margin on every side. *)
Lemma setCustomMargins_resizes_in_place_witness :
  effects (setCustomMargins (mkQMargins 1 1 1 1) normalMachine)
  = [Native (SetWindowPos 1 0 100 100 642 482 (Z.lor SWP_NOZORDER SWP_FRAMECHANGED))].
Proof.
  pose proof (setCustomMargins_resizes_in_place normalMachine (mkQMargins 1 1 1 1)) as H.
  cbv zeta in H. destruct H as (_ & A).
  assert (Hne : mkQMargins 1 1 1 1 <> d_customMargins (m_data (self normalMachine)))
    by (vm_compute; discriminate).
  destruct (A Hne) as (E & _). exact E.
Defined.

(** Witness of X20: enabling the normal window, which is enabled. *)
Lemma setEnabled_only_on_change_witness :
  setEnabled true normalMachine = (tt, normalMachine, []).
Proof.
  pose proof (setEnabled_only_on_change normalMachine true) as H.
  cbv zeta in H. destruct H as (A & _).
  apply A. reflexivity.
Defined.

(** Witness of X21: the flags of a splash screen. *)
Lemma fixTopLevelWindowFlags_hints_witness :
  has (fixTopLevelWindowFlags Qt.SplashScreen) Qt.FramelessWindowHint = true.
Proof.
  apply (proj2 (proj2 (fixTopLevelWindowFlags_hints Qt.SplashScreen))).
  reflexivity.
Defined.

(** Witness of X22: a plain widget forced to be a child, although it is
    also forced to be top level. *)
Lemma fromWindow_child_witness :
  let c := fromWindow WindowCreationData_new (toolkitWindow Qt.Widget Qt.WindowNoState)
             Qt.Widget (Z.lor ForceChild ForceTopLevel) in
  topLevel c = false
  /\ c_style c = Z.lor WS_CHILD (Z.lor WS_CLIPSIBLINGS WS_CLIPCHILDREN).
Proof.
  pose proof (fromWindow_child WindowCreationData_new
                (toolkitWindow Qt.Widget Qt.WindowNoState) Qt.Widget
                (Z.lor ForceChild ForceTopLevel)) as H.
  cbv zeta in H |- *. destruct H as (A & _ & C).
  assert (Htl := A eq_refl).
  split; [exact Htl|].
  destruct (C Htl) as (_ & _ & D).
  destruct (D eq_refl) as (_ & E).
  apply E; vm_compute; discriminate.
Defined.

(** Witness of X23: a frameless top-level window. *)
Lemma fromWindow_frameless_witness :
  let c := fromWindow WindowCreationData_new framelessWindow framelessFlags 0 in
  has (c_style c) WS_POPUP = true
  /\ has (c_style c) WS_THICKFRAME = false
  /\ has (c_style c) WS_DLGFRAME = false
  /\ has (c_style c) WS_BORDER = false.
Proof.
  pose proof (fromWindow_frameless WindowCreationData_new framelessWindow
                framelessFlags 0 eq_refl eq_refl) as (A & B & C & D & _).
  cbv zeta. split; [exact A|]. split; [exact B|]. split; [exact C|exact D].
Defined.

(** Witness of X24: a window asked to stay on top and at the bottom. *)
Lemma initialize_z_order_witness :
  let w := toolkitWindow conflictingFlags Qt.WindowNoState in
  let c := fromWindow WindowCreationData_new w conflictingFlags 0 in
  let r := initialize c w 1 true (1000 : @qreal host) normalMachine in
  insertAfters (effects r) = [HWND_TOPMOST]
  /\ List.filter isWarning (effects r) <> [].
Proof.
  intros w c r.
  assert (Hh : (1 : HWND) <> 0) by discriminate.
  pose proof (initialize_z_order c w 1 true (1000 : @qreal host) normalMachine Hh)
    as (A & _ & C & _).
  split; [exact A|].
  apply C; reflexivity.
Defined.

(** Witness of X25: a popup. *)
Lemma popup_is_topmost_witness :
  let c := fromWindow WindowCreationData_new popupWindow Qt.Popup 0 in
  has (flags c) Qt.WindowStaysOnTopHint = true
  /\ insertAfters (effects (initialize c popupWindow 1 false (1000 : @qreal host)
                              normalMachine)) = [HWND_TOPMOST].
Proof.
  intros c.
  assert (Hh : (1 : HWND) <> 0) by discriminate.
  pose proof (popup_is_topmost WindowCreationData_new popupWindow Qt.Popup 0 1 false
                (1000 : @qreal host) normalMachine Hh eq_refl) as (A & _ & _ & D).
  split; [exact A|]. apply D. reflexivity.
Defined.


(** Witness of X29: a foreign overlapped window is put under the parent
    12 and released again. *)
Lemma foreign_setParent_round_trip_witness :
  let s0 := Z.lor WS_OVERLAPPEDWINDOW WS_VISIBLE in
  let r1 := @foreign_setParent Parented.host Parented.more (Some 12)
              Parented.topLevelDesk Parented.foreignWindow in
  let r2 := @foreign_setParent Parented.host Parented.more None
              (snd (fst r1)) (fst (fst r1)) in
  snd r1 = [SetParent 7 12;
            ForeignNative (SetWindowLongPtr 7 GWL_STYLE (Z.lor WS_CHILD WS_VISIBLE))]
  /\ snd r2 = [SetParent 7 0; ForeignNative (SetWindowLongPtr 7 GWL_STYLE s0)].
Proof.
  assert (Hp : (12 : HWND) <> 0) by discriminate.
  pose proof (@foreign_setParent_round_trip Parented.host Parented.more
                Parented.topLevelDesk Parented.foreignWindow 12 Hp eq_refl) as H.
  cbv zeta in H |- *. destruct H as (A & _ & _ & _ & B & _).
  split; [exact A|].
  apply (B (snd (fst (@foreign_setParent Parented.host Parented.more (Some 12)
                        Parented.topLevelDesk Parented.foreignWindow)))).
  reflexivity.
Defined.
